(** * The real-time update layer of src/lib/websocket-client.js

    A shallow embedding of the three classes of the file -- [EventEmitter],
    [WebSocketManager] and the hook [useRealTimeUpdates] -- together with the
    part of the browser they talk to (sockets, timers, the console), and the
    properties of the layer proved over it. *)

From Stdlib Require Import ZArith Lia Ascii.
From stdpp Require Import base strings list gmap.

Open Scope string_scope.
Open Scope list_scope.

(** ** JavaScript values *)

Set Warnings "-register-all".

Module JS.

(** The values that travel through the layer: what [JSON.parse] produces,
    plus [undefined].  A number is kept as the text JavaScript prints for it
    (the program never computes with a payload number, it only tests and
    prints them). *)
Inductive jsval : Type :=
| JUndef
| JNull
| JBool (b : bool)
| JNum (repr : string)
| JStr (s : string)
| JArr (items : list jsval)
| JObj (fields : list (string * jsval)).

(** An object literal that is compared by reference ([Set.add],
    [Set.delete]): the address is its identity, the fields its content.
    The program never mutates a subscription object after building it. *)
Record jsobj : Type := { addr : nat; props : list (string * jsval) }.

Definition obj_val (o : jsobj) : jsval := JObj (props o).

(** A function object, compared by reference ([cb !== callback]). *)
Abbreviation cbid := nat (only parsing).

(** ToBoolean. *)
Definition truthy (v : jsval) : bool :=
  match v with
  | JUndef | JNull => false
  | JBool b => b
  | JNum r => negb (String.eqb r "0" || String.eqb r "NaN")
  | JStr s => negb (String.eqb s "")
  | JArr _ | JObj _ => true
  end.

(** Own property of an object literal; [undefined] when absent. *)
Fixpoint own (k : string) (fs : list (string * jsval)) : option jsval :=
  match fs with
  | [] => None
  | (k', v) :: fs' => if String.eqb k k' then Some v else own k fs'
  end.

(** [v.k] for the two keys the program reads from a payload, [type] and
    [message]; no prototype defines either.  [None] is the TypeError of
    reading a property of [null] or [undefined]. *)
Definition get (k : string) (v : jsval) : option jsval :=
  match v with
  | JUndef | JNull => None
  | JObj fs => Some (default JUndef (own k fs))
  | _ => Some JUndef
  end.

(** [{...o, k: v}]: an existing key keeps its place and takes the new
    value, a new key goes last. *)
Fixpoint set_prop (k : string) (v : jsval) (fs : list (string * jsval))
  : list (string * jsval) :=
  match fs with
  | [] => [(k, v)]
  | (k', v') :: fs' =>
      if String.eqb k k' then (k', v) :: fs' else (k', v') :: set_prop k v fs'
  end.

Fixpoint join (sep : string) (parts : list string) : string :=
  match parts with
  | [] => ""
  | [p] => p
  | p :: ps => (p ++ sep ++ join sep ps)%string
  end.

(** ToPropertyKey, used by [this.events[event]] when [event] is not a
    string.  [None] is the TypeError of an object whose own [toString] is
    not callable (every parsed value is not). *)
Fixpoint to_property_key (v : jsval) : option string :=
  match v with
  | JUndef => Some "undefined"
  | JNull => Some "null"
  | JBool true => Some "true"
  | JBool false => Some "false"
  | JNum r => Some r
  | JStr s => Some s
  | JArr items =>
      let fix parts (l : list jsval) : option (list string) :=
        match l with
        | [] => Some []
        | x :: l' =>
            match (match x with
                   | JUndef | JNull => Some ""
                   | _ => to_property_key x
                   end), parts l' with
            | Some s, Some ss => Some (s :: ss)
            | _, _ => None
            end
        end in
      match parts items with
      | Some ss => Some (join "," ss)
      | None => None
      end
  | JObj fs =>
      match own "toString" fs with
      | Some _ => None
      | None => Some "[object Object]"
      end
  end.

(** The names every object inherits from [Object.prototype]: on the plain
    object [this.events = {}] they read as a function (or, for [__proto__],
    an object), never as an array. *)
Definition inherited (k : string) : bool :=
  existsb (String.eqb k)
    ["constructor"; "__proto__"; "hasOwnProperty"; "isPrototypeOf";
     "propertyIsEnumerable"; "toLocaleString"; "toString"; "valueOf";
     "__defineGetter__"; "__defineSetter__"; "__lookupGetter__";
     "__lookupSetter__"].

(** A JavaScript [Set] of objects: insertion-ordered, one entry per
    reference. *)
Definition set_has (o : jsobj) (s : list jsobj) : bool :=
  existsb (fun x => Nat.eqb (addr x) (addr o)) s.

Definition set_add (o : jsobj) (s : list jsobj) : list jsobj :=
  if set_has o s then s else s ++ [o].

Definition set_delete (o : jsobj) (s : list jsobj) : list jsobj :=
  List.filter (fun x => negb (Nat.eqb (addr x) (addr o))) s.

End JS.
Export JS.

(** ** The state of the page

    The module-level singletons [eventEmitter] and [wsManager], the refs of
    the hook, and what the browser holds for them. *)

Module Runtime.

(** [WebSocket.readyState]. *)
Inductive ready_state : Type := CONNECTING | OPEN | CLOSING | CLOSED.

(** A socket built by [connect(userId)]: its four handlers close over
    [userId]. *)
Record socket : Type := { readyState : ready_state; sock_user : jsval }.

(** A pending [setTimeout(() => this.connect(userId), delay)]. *)
Record timer : Type := { delay : Z; timer_user : jsval }.

(** A running [setInterval(..., period)] of [startMessagePolling]; its
    callback closes over [jobId] and [recipientId]. *)
Record interval : Type :=
  { interval_id : nat; period : Z; poll_job : jsval; poll_recipient : jsval }.

(** The lines written with [console.error]. *)
Inductive log_entry : Type :=
| ErrCallback (cb : cbid)      (* "Error in event callback:" *)
| ErrParse                     (* "Error parsing WebSocket message:" *)
| ErrMaxReconnect              (* "Max reconnection attempts reached" *)
| ErrSocket                    (* "WebSocket error:" *)
| ErrCreate                    (* "Failed to create WebSocket connection:" *)
| ErrSendMessage               (* "Error sending message:" *)
| ErrPolling.                  (* "Error polling messages:" *)

Section State.
Context {U : Type}.

(** [eventEmitter]: the registry, the state the registered callbacks act on
    (the consumers' own), and two histories kept for the proofs: the
    callbacks invoked and the [emit] calls dispatched, oldest first. *)
Record bus : Type :=
  { events : gmap string (list cbid);
    user : U;
    invoked : list (cbid * jsval);
    published : list (string * jsval) }.

(** [wsManager].  [maxReconnectAttempts] and [reconnectDelay] are assigned in
    the constructor only and are constants below. *)
Record manager : Type :=
  { ws : option nat;
    reconnectAttempts : Z;
    isConnecting : bool;
    messageQueue : list jsval;
    subscriptions : list jsobj }.

(** The browser: every socket built so far (a socket is named by its index),
    what was handed to [ws.send] (socket, value serialised), the pending
    timeouts, the running intervals, the console, and the next fresh
    interval id and object address. *)
Record platform : Type :=
  { sockets : list socket;
    wire : list (nat * jsval);
    timers : list timer;
    intervals : list interval;
    console : list log_entry;
    next_interval : nat;
    next_addr : nat }.

(** The refs of one [useRealTimeUpdates] instance. *)
Record hook : Type :=
  { messagePollingRef : option nat;
    currentConversationRef : option (jsval * jsval) }.

Record world : Type :=
  { eventEmitter : bus; wsManager : manager; browser : platform; refs : hook }.

Definition with_bus (f : bus -> bus) (w : world) : world :=
  {| eventEmitter := f (eventEmitter w); wsManager := wsManager w;
     browser := browser w; refs := refs w |}.
Definition with_manager (f : manager -> manager) (w : world) : world :=
  {| eventEmitter := eventEmitter w; wsManager := f (wsManager w);
     browser := browser w; refs := refs w |}.
Definition with_browser (f : platform -> platform) (w : world) : world :=
  {| eventEmitter := eventEmitter w; wsManager := wsManager w;
     browser := f (browser w); refs := refs w |}.
Definition with_refs (f : hook -> hook) (w : world) : world :=
  {| eventEmitter := eventEmitter w; wsManager := wsManager w;
     browser := browser w; refs := f (refs w) |}.

Definition set_events (e : gmap string (list cbid)) (b : bus) : bus :=
  {| events := e; user := user b; invoked := invoked b; published := published b |}.
Definition set_user (u : U) (b : bus) : bus :=
  {| events := events b; user := u; invoked := invoked b; published := published b |}.
Definition set_invoked (l : list (cbid * jsval)) (b : bus) : bus :=
  {| events := events b; user := user b; invoked := l; published := published b |}.
Definition set_published (l : list (string * jsval)) (b : bus) : bus :=
  {| events := events b; user := user b; invoked := invoked b; published := l |}.

Definition set_ws (x : option nat) (m : manager) : manager :=
  {| ws := x; reconnectAttempts := reconnectAttempts m; isConnecting := isConnecting m;
     messageQueue := messageQueue m; subscriptions := subscriptions m |}.
Definition set_reconnectAttempts (n : Z) (m : manager) : manager :=
  {| ws := ws m; reconnectAttempts := n; isConnecting := isConnecting m;
     messageQueue := messageQueue m; subscriptions := subscriptions m |}.
Definition set_isConnecting (b : bool) (m : manager) : manager :=
  {| ws := ws m; reconnectAttempts := reconnectAttempts m; isConnecting := b;
     messageQueue := messageQueue m; subscriptions := subscriptions m |}.
Definition set_messageQueue (q : list jsval) (m : manager) : manager :=
  {| ws := ws m; reconnectAttempts := reconnectAttempts m; isConnecting := isConnecting m;
     messageQueue := q; subscriptions := subscriptions m |}.
Definition set_subscriptions (s : list jsobj) (m : manager) : manager :=
  {| ws := ws m; reconnectAttempts := reconnectAttempts m; isConnecting := isConnecting m;
     messageQueue := messageQueue m; subscriptions := s |}.

Definition set_sockets (l : list socket) (p : platform) : platform :=
  {| sockets := l; wire := wire p; timers := timers p; intervals := intervals p;
     console := console p; next_interval := next_interval p; next_addr := next_addr p |}.
Definition set_wire (l : list (nat * jsval)) (p : platform) : platform :=
  {| sockets := sockets p; wire := l; timers := timers p; intervals := intervals p;
     console := console p; next_interval := next_interval p; next_addr := next_addr p |}.
Definition set_timers (l : list timer) (p : platform) : platform :=
  {| sockets := sockets p; wire := wire p; timers := l; intervals := intervals p;
     console := console p; next_interval := next_interval p; next_addr := next_addr p |}.
Definition set_intervals (l : list interval) (p : platform) : platform :=
  {| sockets := sockets p; wire := wire p; timers := timers p; intervals := l;
     console := console p; next_interval := next_interval p; next_addr := next_addr p |}.
Definition set_console (l : list log_entry) (p : platform) : platform :=
  {| sockets := sockets p; wire := wire p; timers := timers p; intervals := intervals p;
     console := l; next_interval := next_interval p; next_addr := next_addr p |}.
Definition set_next_interval (n : nat) (p : platform) : platform :=
  {| sockets := sockets p; wire := wire p; timers := timers p; intervals := intervals p;
     console := console p; next_interval := n; next_addr := next_addr p |}.
Definition set_next_addr (n : nat) (p : platform) : platform :=
  {| sockets := sockets p; wire := wire p; timers := timers p; intervals := intervals p;
     console := console p; next_interval := next_interval p; next_addr := n |}.

Definition set_messagePollingRef (x : option nat) (h : hook) : hook :=
  {| messagePollingRef := x; currentConversationRef := currentConversationRef h |}.
Definition set_currentConversationRef (x : option (jsval * jsval)) (h : hook) : hook :=
  {| messagePollingRef := messagePollingRef h; currentConversationRef := x |}.

(** [console.error(...)]. *)
Definition console_error (e : log_entry) (w : world) : world :=
  with_browser (fun p => set_console (console p ++ [e]) p) w.

(** How a piece of code ends: normally with a value, by throwing (the state
    reached at the throw stays), or not at all. *)
Inductive res (A : Type) : Type :=
| Ok (a : A) (w : world)
| Throw (w : world)
| Loops.

Definition bind {A B : Type} (m : res A) (k : A -> world -> res B) : res B :=
  match m with
  | Ok _ a w => k a w
  | Throw _ w => Throw _ w
  | Loops _ => Loops _
  end.

(** [try { m } catch (error) { h }]. *)
Definition try_catch {A : Type} (m : res A) (h : world -> res A) : res A :=
  match m with
  | Throw _ w => h w
  | r => r
  end.

End State.

Arguments bus : clear implicits.
Arguments manager : clear implicits.
Arguments platform : clear implicits.
Arguments hook : clear implicits.
Arguments world : clear implicits.
Arguments res : clear implicits.
Arguments Ok {U A} a w.
Arguments Throw {U A} w.
Arguments Loops {U A}.

Notation "'let!' ( x , w ) := m 'in' k" :=
  (bind m (fun x w => k))
  (at level 10, x name, w name, m at level 100, k at level 200).

End Runtime.
Export Runtime.

(** ** class EventEmitter *)

Module EventEmitter.
Section Emitter.
Context {U : Type}.

(** What a registered function does when called with a payload: it updates
    the consumers' state and either returns or throws ([true]).  Callbacks
    are the consumers' code; they are taken not to call back into the
    emitter or the manager while they run. *)
Variable behave : cbid -> jsval -> U -> U * bool.

(** The function [on] returns: it closes over [event] and [callback]. *)
Definition unsubscribe_handle : Type := (string * cbid)%type.

(** [on(event, callback)].  [this.events[event]] reads the own entry, else
    what [Object.prototype] gives: for an inherited name that is truthy and
    has no [push], so the call throws. *)
Definition on (event : string) (callback : cbid) (w : world U)
  : res U unsubscribe_handle :=
  match events (eventEmitter w) !! event with
  | Some cbs =>
      Ok (event, callback)
         (with_bus (fun b => set_events (<[event := cbs ++ [callback]]> (events b)) b) w)
  | None =>
      if inherited event then Throw w
      else
        Ok (event, callback)
           (with_bus (fun b => set_events (<[event := [] ++ [callback]]> (events b)) b) w)
  end.

(** Calling the function returned by [on]:
    [this.events[event] = this.events[event].filter((cb) => cb !== callback)]. *)
Definition call_handle (h : unsubscribe_handle) (w : world U) : res U unit :=
  let '(event, callback) := h in
  match events (eventEmitter w) !! event with
  | Some cbs =>
      Ok tt
         (with_bus
            (fun b =>
               set_events
                 (<[event := List.filter (fun cb => negb (Nat.eqb cb callback)) cbs]>
                    (events b)) b) w)
  | None => Throw w
  end.

(** One round of the [forEach] body: [try { callback(data) } catch ...]. *)
Definition invoke (data : jsval) (w : world U) (callback : cbid) : world U :=
  let '(u, threw) := behave callback data (user (eventEmitter w)) in
  let w1 :=
    with_bus (fun b => set_invoked (invoked b ++ [(callback, data)]) (set_user u b)) w in
  if threw then console_error (ErrCallback callback) w1 else w1.

(** [emit(event, data)]. *)
Definition emit (event : string) (data : jsval) (w : world U) : res U unit :=
  match events (eventEmitter w) !! event with
  | Some cbs =>
      Ok tt
         (fold_left (invoke data) cbs
            (with_bus (fun b => set_published (published b ++ [(event, data)]) b) w))
  | None =>
      if inherited event then Throw w
      else Ok tt (with_bus (fun b => set_published (published b ++ [(event, data)]) b) w)
  end.

End Emitter.
End EventEmitter.

(** ** class WebSocketManager *)

Module WebSocketManager.
Section Manager.
Context {U : Type}.
Variable behave : cbid -> jsval -> U -> U * bool.

Definition maxReconnectAttempts : Z := 5.
Definition reconnectDelay : Z := 1000.

(** [this.ws && this.ws.readyState === WebSocket.OPEN], with the socket. *)
Definition open_socket (w : world U) : option nat :=
  match ws (wsManager w) with
  | Some k =>
      match sockets (browser w) !! k with
      | Some s => match readyState s with OPEN => Some k | _ => None end
      | None => None
      end
  | None => None
  end.

(** [send(message)]. *)
Definition send (message : jsval) (w : world U) : world U :=
  match open_socket w with
  | Some k => with_browser (fun p => set_wire (wire p ++ [(k, message)]) p) w
  | None => with_manager (fun m => set_messageQueue (messageQueue m ++ [message]) m) w
  end.

(** [subscribe(subscription)]. *)
Definition subscribe (subscription : jsobj) (w : world U) : world U :=
  send (obj_val subscription)
       (with_manager (fun m => set_subscriptions (set_add subscription (subscriptions m)) m) w).

(** [unsubscribe(subscription)]. *)
Definition unsubscribe (subscription : jsobj) (w : world U) : world U :=
  send (JObj (set_prop "action" (JStr "unsubscribe") (props subscription)))
       (with_manager
          (fun m => set_subscriptions (set_delete subscription (subscriptions m)) m) w).

(** The browser's [ws.close()]: a socket that is connecting or open starts
    closing, its close event comes later; otherwise nothing happens. *)
Definition ws_close (k : nat) (w : world U) : world U :=
  with_browser
    (fun p =>
       set_sockets
         (alter (fun s =>
                   match readyState s with
                   | CONNECTING | OPEN =>
                       {| readyState := CLOSING; sock_user := sock_user s |}
                   | _ => s
                   end) k (sockets p)) p) w.

(** [disconnect()]. *)
Definition disconnect (w : world U) : world U :=
  let w1 :=
    match ws (wsManager w) with
    | Some k => with_manager (set_ws None) (ws_close k w)
    | None => w
    end in
  with_manager
    (fun m =>
       set_isConnecting false
         (set_reconnectAttempts 0 (set_messageQueue [] (set_subscriptions [] m)))) w1.

(** [connect(userId)].  [created] tells whether [new WebSocket(wsUrl)]
    returned a socket ([true]) or threw. *)
Definition connect (userId : jsval) (created : bool) (w : world U) : world U :=
  if isConnecting (wsManager w) || bool_decide (is_Some (open_socket w)) then w
  else
    let w1 := with_manager (set_isConnecting true) w in
    if created then
      with_manager (set_ws (Some (length (sockets (browser w1)))))
        (with_browser
           (fun p =>
              set_sockets
                (sockets p ++ [{| readyState := CONNECTING; sock_user := userId |}]) p)
           w1)
    else with_manager (set_isConnecting false) (console_error ErrCreate w1).

(** The loop [while (this.messageQueue.length > 0) { shift; send }]. *)
Fixpoint drain (fuel : nat) (w : world U) : res U unit :=
  match messageQueue (wsManager w) with
  | [] => Ok tt w
  | message :: rest =>
      match fuel with
      | O => Loops
      | S fuel' => drain fuel' (send message (with_manager (set_messageQueue rest) w))
      end
  end.

(** The [forEach] over [this.subscriptions]. *)
Definition replay (w : world U) : world U :=
  fold_left (fun w' subscription => send (obj_val subscription) w')
            (subscriptions (wsManager w)) w.

(** [ws.onopen], of the socket built by [connect(userId)].  The loop gets one
    round per queued message, which is what it takes whenever it ends. *)
Definition onopen (userId : jsval) (w : world U) : res U unit :=
  let w1 :=
    with_manager (fun m => set_reconnectAttempts 0 (set_isConnecting false m)) w in
  let w2 :=
    if truthy userId
    then send (JObj [("type", JStr "auth"); ("userId", userId)]) w1
    else w1 in
  let! (_, w3) := drain (length (messageQueue (wsManager w2))) w2 in
  EventEmitter.emit behave "websocket_connected" JUndef (replay w3).

(** The body of the [try] of [ws.onmessage], after [JSON.parse]. *)
Definition dispatch (data : jsval) (w : world U) : res U unit :=
  match get "type" data with
  | None => Throw w
  | Some tag =>
      match to_property_key tag with
      | None => Throw w
      | Some name =>
          let! (_, w1) := EventEmitter.emit behave name data w in
          match tag with
          | JStr t =>
              if String.eqb t "job_updated" then
                EventEmitter.emit behave "job_update" data w1
              else if String.eqb t "new_message" then
                match get "message" data with
                | Some m => EventEmitter.emit behave "new_message" m w1
                | None => Throw w1
                end
              else if String.eqb t "payment_updated" then
                EventEmitter.emit behave "payment_update" data w1
              else if String.eqb t "escrow_released" then
                EventEmitter.emit behave "escrow_released" data w1
              else if String.eqb t "transaction_updated" then
                EventEmitter.emit behave "transaction_update" data w1
              else Ok tt w1
          | _ => Ok tt w1
          end
      end
  end.

(** [ws.onmessage].  [parsed] is what [JSON.parse(event.data)] gave, [None]
    when it threw. *)
Definition onmessage (parsed : option jsval) (w : world U) : res U unit :=
  try_catch
    (match parsed with
     | Some data => dispatch data w
     | None => Throw w
     end)
    (fun w' => Ok tt (console_error ErrParse w')).

(** [setTimeout(() => this.connect(userId), delay)]. *)
Definition setTimeout (d : Z) (userId : jsval) (w : world U) : world U :=
  with_browser
    (fun p => set_timers (timers p ++ [{| delay := d; timer_user := userId |}]) p) w.

(** [ws.onclose], of the socket built by [connect(userId)].  The counter is
    never negative, so the exponent is not either. *)
Definition onclose (userId : jsval) (w : world U) : res U unit :=
  let w1 := with_manager (fun m => set_ws None (set_isConnecting false m)) w in
  if (reconnectAttempts (wsManager w1) <? maxReconnectAttempts)%Z then
    let w2 :=
      with_manager (fun m => set_reconnectAttempts (reconnectAttempts m + 1)%Z m) w1 in
    let d := (reconnectDelay * 2 ^ (reconnectAttempts (wsManager w2) - 1))%Z in
    Ok tt (setTimeout d userId w2)
  else
    EventEmitter.emit behave "websocket_disconnected" JUndef
      (console_error ErrMaxReconnect w1).

(** [ws.onerror]. *)
Definition onerror (w : world U) : res U unit :=
  Ok tt (with_manager (set_isConnecting false) (console_error ErrSocket w)).

End Manager.
End WebSocketManager.

(** ** The hook useRealTimeUpdates *)

Module UseRealTimeUpdates.
Section Hook.
Context {U : Type}.
Variable behave : cbid -> jsval -> U -> U * bool.

(** The function a [subscribeTo...] helper returns: it closes over the
    subscription object it built and over the handles [on] gave it. *)
Record teardown : Type :=
  { subscription : jsobj;
    handles : list EventEmitter.unsubscribe_handle }.

(** An object literal gets the next free address. *)
Definition fresh (fs : list (string * jsval)) (w : world U) : jsobj * world U :=
  ({| addr := next_addr (browser w); props := fs |},
   with_browser (fun p => set_next_addr (S (next_addr p)) p) w).

(** [subscribeToJobUpdates(jobId, callback)]. *)
Definition subscribeToJobUpdates (jobId : jsval) (callback : cbid) (w : world U)
  : res U teardown :=
  let '(sub, w1) := fresh [("type", JStr "subscribe_job"); ("jobId", jobId)] w in
  let w2 := WebSocketManager.subscribe sub w1 in
  let! (unsubscribe, w3) := EventEmitter.on "job_update" callback w2 in
  Ok {| subscription := sub; handles := [unsubscribe] |} w3.

(** [subscribeToPaymentUpdates(userId, callback)]. *)
Definition subscribeToPaymentUpdates (userId : jsval) (callback : cbid) (w : world U)
  : res U teardown :=
  let '(sub, w1) := fresh [("type", JStr "subscribe_payments"); ("userId", userId)] w in
  let w2 := WebSocketManager.subscribe sub w1 in
  let! (unsubscribePayment, w3) := EventEmitter.on "payment_update" callback w2 in
  let! (unsubscribeEscrow, w4) := EventEmitter.on "escrow_released" callback w3 in
  let! (unsubscribeTransaction, w5) := EventEmitter.on "transaction_update" callback w4 in
  Ok {| subscription := sub;
        handles := [unsubscribePayment; unsubscribeEscrow; unsubscribeTransaction] |} w5.

Fixpoint call_handles (hs : list EventEmitter.unsubscribe_handle) (w : world U)
  : res U unit :=
  match hs with
  | [] => Ok tt w
  | h :: hs' => let! (_, w1) := EventEmitter.call_handle h w in call_handles hs' w1
  end.

(** Calling the returned function:
    [wsManager.unsubscribe(subscription)], then each handle in turn. *)
Definition call_teardown (t : teardown) (w : world U) : res U unit :=
  call_handles (handles t) (WebSocketManager.unsubscribe (subscription t) w).

(** Calling it [n] times in a row. *)
Fixpoint call_teardown_times (n : nat) (t : teardown) (w : world U) : res U unit :=
  match n with
  | O => Ok tt w
  | S n' => let! (_, w1) := call_teardown t w in call_teardown_times n' t w1
  end.

(** How an awaited call of [messageAPI] ends: it rejects (or resolves to
    something that cannot be destructured), or resolves to an object with
    the fields read from it. *)
Inductive sent_outcome : Type :=
| SendRejected
| SendResolved (success : bool) (message : jsval).

Inductive fetch_outcome : Type :=
| FetchRejected
| FetchResolved (success : bool) (messages : option (list jsval)).

(** [sendMessage(jobId, recipientId, content)], given how the request ended;
    the value is the boolean the promise resolves to. *)
Definition sendMessage (outcome : sent_outcome) (w : world U) : res U bool :=
  match outcome with
  | SendRejected => Ok false (console_error ErrSendMessage w)
  | SendResolved success message =>
      if success
      then Ok true
              (WebSocketManager.send
                 (JObj [("type", JStr "new_message"); ("message", message)]) w)
      else Ok false w
  end.

(** [clearInterval(id)]. *)
Definition clearInterval (id : nat) (w : world U) : world U :=
  with_browser
    (fun p =>
       set_intervals
         (List.filter (fun i => negb (Nat.eqb (interval_id i) id)) (intervals p)) p) w.

(** [startMessagePolling(jobId, recipientId)]. *)
Definition startMessagePolling (jobId recipientId : jsval) (w : world U) : world U :=
  let w1 :=
    match messagePollingRef (refs w) with
    | Some id => clearInterval id w
    | None => w
    end in
  let w2 := with_refs (set_currentConversationRef (Some (jobId, recipientId))) w1 in
  let id := next_interval (browser w2) in
  with_refs (set_messagePollingRef (Some id))
    (with_browser
       (fun p =>
          set_next_interval (S id)
            (set_intervals
               (intervals p ++
                  [{| interval_id := id; period := 5000;
                      poll_job := jobId; poll_recipient := recipientId |}]) p)) w2).

(** [stopMessagePolling()]. *)
Definition stopMessagePolling (w : world U) : world U :=
  let w1 :=
    match messagePollingRef (refs w) with
    | Some id => with_refs (set_messagePollingRef None) (clearInterval id w)
    | None => w
    end in
  with_refs (set_currentConversationRef None) w1.

(** One run of the interval callback, given how its fetch ended. *)
Definition poll_tick (outcome : fetch_outcome) (w : world U) : res U unit :=
  try_catch
    (match outcome with
     | FetchRejected => Throw w
     | FetchResolved success messages =>
         match messages with
         | Some l =>
             if success && (0 <? length l)%nat
             then EventEmitter.emit behave "new_message" (default JUndef (last l)) w
             else Ok tt w
         | None => Ok tt w
         end
     end)
    (fun w' => Ok tt (console_error ErrPolling w')).

End Hook.
End UseRealTimeUpdates.

(** ** The page as a transition system *)

Module Page.
Section Steps.
Context {U : Type}.
Variable behave : cbid -> jsval -> U -> U * bool.

(** What can happen next: a call made by the application, or an event the
    browser delivers. *)
Inductive label : Type :=
| Connect (userId : jsval) (created : bool)
| Disconnect
| Send (message : jsval)
| Subscribe (subscription : jsobj)
| Unsubscribe (subscription : jsobj)
| SockOpen (k : nat)
| SockMessage (k : nat) (parsed : option jsval)
| SockError (k : nat)
| SockClose (k : nat)
| TimerFire (i : nat) (created : bool)
| StartPolling (jobId recipientId : jsval)
| StopPolling
| Tick (id : nat) (outcome : UseRealTimeUpdates.fetch_outcome).

Definition set_readyState (k : nat) (r : ready_state) (w : world U) : world U :=
  with_browser
    (fun p =>
       set_sockets
         (alter (fun s => {| readyState := r; sock_user := sock_user s |}) k (sockets p))
         p) w.

(** One step; [None] when the browser cannot deliver the event in this
    state.  A socket opens only while connecting, delivers messages only
    while open, and fires its close event once, whatever started the
    closing; a timeout fires once; an interval ticks while it is running. *)
Definition step (l : label) (w : world U) : option (res U unit) :=
  match l with
  | Connect userId created => Some (Ok tt (WebSocketManager.connect userId created w))
  | Disconnect => Some (Ok tt (WebSocketManager.disconnect w))
  | Send message => Some (Ok tt (WebSocketManager.send message w))
  | Subscribe sub => Some (Ok tt (WebSocketManager.subscribe sub w))
  | Unsubscribe sub => Some (Ok tt (WebSocketManager.unsubscribe sub w))
  | SockOpen k =>
      match sockets (browser w) !! k with
      | Some s =>
          match readyState s with
          | CONNECTING =>
              Some (WebSocketManager.onopen behave (sock_user s) (set_readyState k OPEN w))
          | _ => None
          end
      | None => None
      end
  | SockMessage k parsed =>
      match sockets (browser w) !! k with
      | Some s =>
          match readyState s with
          | OPEN => Some (WebSocketManager.onmessage behave parsed w)
          | _ => None
          end
      | None => None
      end
  | SockError k =>
      match sockets (browser w) !! k with
      | Some s =>
          match readyState s with
          | CLOSED => None
          | _ => Some (WebSocketManager.onerror w)
          end
      | None => None
      end
  | SockClose k =>
      match sockets (browser w) !! k with
      | Some s =>
          match readyState s with
          | CLOSED => None
          | _ =>
              Some (WebSocketManager.onclose behave (sock_user s)
                      (set_readyState k CLOSED w))
          end
      | None => None
      end
  | TimerFire i created =>
      match timers (browser w) !! i with
      | Some t =>
          Some (Ok tt
                  (WebSocketManager.connect (timer_user t) created
                     (with_browser (fun p => set_timers (delete i (timers p)) p) w)))
      | None => None
      end
  | StartPolling jobId recipientId =>
      Some (Ok tt (UseRealTimeUpdates.startMessagePolling jobId recipientId w))
  | StopPolling => Some (Ok tt (UseRealTimeUpdates.stopMessagePolling w))
  | Tick id outcome =>
      if existsb (fun i => Nat.eqb (interval_id i) id) (intervals (browser w))
      then Some (UseRealTimeUpdates.poll_tick behave outcome w)
      else None
  end.

(** A run: the steps in order; it stops with [None] at an event that cannot
    occur, a throw or a loop that does not end. *)
Fixpoint run (ls : list label) (w : world U) : option (world U) :=
  match ls with
  | [] => Some w
  | l :: ls' =>
      match step l w with
      | Some (Ok _ w') => run ls' w'
      | _ => None
      end
  end.

(** The page when the module has just been loaded. *)
Definition init (u : U) : world U :=
  {| eventEmitter := {| events := ∅; user := u; invoked := []; published := [] |};
     wsManager := {| ws := None; reconnectAttempts := 0; isConnecting := false;
                     messageQueue := []; subscriptions := [] |};
     browser := {| sockets := []; wire := []; timers := []; intervals := [];
                   console := []; next_interval := 1; next_addr := 0 |};
     refs := {| messagePollingRef := None; currentConversationRef := None |} |}.

End Steps.
End Page.

(** ** Notions used to state the properties *)

Module Props.
Section Notions.
Context {U : Type}.
Variable behave : cbid -> jsval -> U -> U * bool.

(** What each callback of a list does when the list is called in order with
    [data], starting from consumer state [u]: the callback, and whether it
    threw. *)
Fixpoint outcomes (data : jsval) (cbs : list cbid) (u : U) : list (cbid * bool) :=
  match cbs with
  | [] => []
  | cb :: cbs' =>
      let '(u', threw) := behave cb data u in (cb, threw) :: outcomes data cbs' u'
  end.

(** The console lines of the callbacks that threw. *)
Definition failures (os : list (cbid * bool)) : list log_entry :=
  omap (fun o : cbid * bool => if o.2 then Some (ErrCallback o.1) else None) os.

(** Close events one after the other, nothing touching the counter in
    between; the i-th socket was built by [connect] of the i-th identity. *)
Fixpoint closes (us : list jsval) (w : world U) : res U unit :=
  match us with
  | [] => Ok tt w
  | u :: us' => let! (_, w1) := WebSocketManager.onclose behave u w in closes us' w1
  end.

(** A step that is neither a socket opening nor [disconnect()]. *)
Definition no_open_no_disconnect (l : Page.label) : bool :=
  match l with
  | Page.SockOpen _ | Page.Disconnect => false
  | _ => true
  end.

(** What has left or is waiting to leave towards the server. *)
Definition unsubscribe_message (sub : jsobj) : jsval :=
  JObj (set_prop "action" (JStr "unsubscribe") (props sub)).

(** [w'] differs from [w] at most by what callbacks do: the consumers'
    state, the history of invocations and the console. *)
Definition callbacks_only (w w' : world U) : Prop :=
  wsManager w' = wsManager w /\ refs w' = refs w /\
  events (eventEmitter w') = events (eventEmitter w) /\
  published (eventEmitter w') = published (eventEmitter w) /\
  sockets (browser w') = sockets (browser w) /\
  wire (browser w') = wire (browser w) /\
  timers (browser w') = timers (browser w) /\
  intervals (browser w') = intervals (browser w) /\
  next_interval (browser w') = next_interval (browser w) /\
  next_addr (browser w') = next_addr (browser w).

(** The callbacks registered under a name, none when the name has no entry. *)
Definition registered (event : string) (w : world U) : list cbid :=
  default [] (events (eventEmitter w) !! event).

(** [w'] differs from [w] at most by what publishing does: the above and
    the history of [emit] calls. *)
Definition emits_only (w w' : world U) : Prop :=
  wsManager w' = wsManager w /\ refs w' = refs w /\
  events (eventEmitter w') = events (eventEmitter w) /\
  sockets (browser w') = sockets (browser w) /\
  wire (browser w') = wire (browser w) /\
  timers (browser w') = timers (browser w) /\
  intervals (browser w') = intervals (browser w) /\
  next_interval (browser w') = next_interval (browser w) /\
  next_addr (browser w') = next_addr (browser w).

(** [w] after [msgs] have been handed, in order, to [send] of socket [k]. *)
Definition transmitted (k : nat) (msgs : list jsval) (w : world U) : world U :=
  with_browser (fun p => set_wire (wire p ++ map (pair k) msgs) p) w.

(** [w] after [msgs] have been put, in order, at the end of the queue. *)
Definition queued (msgs : list jsval) (w : world U) : world U :=
  with_manager (fun m => set_messageQueue (messageQueue m ++ msgs) m) w.

(** What holds of every world the page can be in: the set has one entry
    per reference, and the counter is between zero and the maximum. *)
Definition well_formed (w : world U) : Prop :=
  NoDup (addr <$> subscriptions (wsManager w)) /\
  (0 <= reconnectAttempts (wsManager w) <= WebSocketManager.maxReconnectAttempts)%Z.

(** The entries of a [Set] that are the object [o]. *)
Definition entries_of (o : jsobj) (s : list jsobj) : list jsobj :=
  List.filter (fun x => Nat.eqb (addr x) (addr o)) s.

End Notions.
End Props.

(** ** A concrete page, for the examples *)

Module Scenario.

(** The consumers count the calls they get; the function at reference 7
    always throws, every other one returns. *)
Definition behave : cbid -> jsval -> nat -> nat * bool :=
  fun cb _ n => (S n, Nat.eqb cb 7).

Definition init : world nat := Page.init 0.

Definition u1 : jsval := JStr "u1".
Definition ping : jsval := JObj [("type", JStr "ping")].
Definition subscribe_job (j : string) : list (string * jsval) :=
  [("type", JStr "subscribe_job"); ("jobId", JStr j)].
Definition auth (u : jsval) : jsval := JObj [("type", JStr "auth"); ("userId", u)].

(** Two objects with the same fields at two addresses. *)
Definition sub_a : jsobj := {| addr := 0; props := subscribe_job "j1" |}.
Definition sub_b : jsobj := {| addr := 1; props := subscribe_job "j1" |}.

(** The world of a run from [init]; [init] itself if the run stops. *)
Definition after (ls : list Page.label) : world nat :=
  default init (Page.run behave ls init).

(** Connected and authenticated as [u1]. *)
Definition connected : world nat :=
  after [Page.Connect u1 true; Page.SockOpen 0].


(** One retry: the pending timeout fires, [connect] builds socket [k], and
    that socket closes without having opened. *)
Definition retry (k : nat) : list Page.label :=
  [Page.TimerFire 0 true; Page.SockClose k].

(** A first attempt and [n] retries, all failed. *)
Definition failed_attempts (n : nat) : list Page.label :=
  [Page.Connect u1 true; Page.SockClose 0] ++ flat_map retry (seq 1 n).

(** The manager has given up: six sockets closed without opening. *)
Definition given_up : world nat := after (failed_attempts 5).

(** Both objects subscribed on an open channel, the channel lost, and the
    retry's socket 1 open. *)
Definition resubscribed : world nat :=
  after [Page.Connect u1 true; Page.SockOpen 0; Page.Subscribe sub_a;
         Page.Subscribe sub_b; Page.SockClose 0; Page.TimerFire 0 true;
         Page.SockOpen 1].

(** What went out on socket [k]. *)
Definition sent_on (k : nat) (w : world nat) : list jsval :=
  omap (fun e : nat * jsval => if Nat.eqb e.1 k then Some e.2 else None)
       (wire (browser w)).

(** [on(event, callback)] for a list of pairs, first to last. *)
Definition register (w : world nat) (e : string * nat) : world nat :=
  match EventEmitter.on e.1 e.2 w with
  | Ok _ w' => w'
  | _ => w
  end.

(** Three callbacks listen to [job_update], the second of which throws; one
    listens to [new_message] and one to [payment_update]. *)
Definition listening : world nat :=
  fold_left register
    [("job_update", 1); ("job_update", 7); ("job_update", 2);
     ("new_message", 3); ("payment_update", 4)] init.

Definition m1 : jsval := JObj [("id", JStr "m1"); ("text", JStr "hi")].
Definition m2 : jsval := JObj [("id", JStr "m2"); ("text", JStr "ho")].

Definition envelope : list (string * jsval) :=
  [("type", JStr "new_message"); ("message", m1)].

(** After giving up, the application calls [connect] again. *)
Definition fresh_attempt : world nat :=
  after (failed_attempts 5 ++ [Page.Connect u1 true]).

(** Whether a transmitted value is an unsubscribe message. *)
Definition is_unsubscribe (v : jsval) : bool :=
  match v with
  | JObj fs =>
      match own "action" fs with
      | Some (JStr a) => String.eqb a "unsubscribe"
      | _ => false
      end
  | _ => false
  end.

(** Polling for one conversation has been started. *)
Definition polling : world nat :=
  UseRealTimeUpdates.startMessagePolling (JStr "j1") (JStr "u2") init.

End Scenario.

(** ** The effects of the hook *)

Module Effects.
Section Effects.
Context {U : Type}.

(** The first [useEffect], run with [userId] the value of [user?._id]: when
    it is truthy, [wsManager.connect], then the two registrations; the value
    is what the returned cleanup closes over, nothing when the effect
    returns no cleanup.  [handleConnected] and [handleDisconnected] are the
    two functions the effect has just built. *)
Definition connect_effect (userId : jsval) (created : bool)
    (handleConnected handleDisconnected : cbid) (w : world U)
  : res U (list EventEmitter.unsubscribe_handle) :=
  if truthy userId then
    let w1 := WebSocketManager.connect userId created w in
    let! (unsubscribeConnected, w2) :=
      EventEmitter.on "websocket_connected" handleConnected w1 in
    let! (unsubscribeDisconnected, w3) :=
      EventEmitter.on "websocket_disconnected" handleDisconnected w2 in
    Ok [unsubscribeConnected; unsubscribeDisconnected] w3
  else Ok [] w.

(** Its cleanup: the two handles, in turn. *)
Definition connect_cleanup (hs : list EventEmitter.unsubscribe_handle) (w : world U)
  : res U unit :=
  UseRealTimeUpdates.call_handles hs w.

(** The cleanup of the second [useEffect], run on unmount. *)
Definition unmount_cleanup (w : world U) : world U :=
  match messagePollingRef (refs w) with
  | Some id => UseRealTimeUpdates.clearInterval id w
  | None => w
  end.

End Effects.
End Effects.

(** ** Further notions *)

Module Frames.
Section Frames.
Context {U : Type}.

(** The ref holds an id that has been given out; at most one interval
    runs, of 5000 ms, and it is the one the ref holds. *)
Definition polling_ok (w : world U) : Prop :=
  (forall id, messagePollingRef (refs w) = Some id -> id < next_interval (browser w)) /\
  match intervals (browser w) with
  | [] => True
  | [i] => messagePollingRef (refs w) = Some (interval_id i) /\ period i = 5000%Z
  | _ => False
  end.

(** A step that is not a call of the polling helpers. *)
Definition no_polling_call (l : Page.label) : bool :=
  match l with
  | Page.StartPolling _ _ | Page.StopPolling => false
  | _ => true
  end.

(** A step of the reconnection cycle or of the traffic coming in: no call
    that sends, subscribes or disconnects, and no socket opening. *)
Definition passive (l : Page.label) : bool :=
  match l with
  | Page.Connect _ _ | Page.SockMessage _ _ | Page.SockError _ | Page.SockClose _
  | Page.TimerFire _ _ | Page.StartPolling _ _ | Page.StopPolling | Page.Tick _ _ =>
      true
  | _ => false
  end.

(** A step that is not a call of [subscribe], [unsubscribe] or
    [disconnect]. *)
Definition no_set_call (l : Page.label) : bool :=
  match l with
  | Page.Subscribe _ | Page.Unsubscribe _ | Page.Disconnect => false
  | _ => true
  end.

(** The event name a tag gets besides its own, for the four tags whose
    payload is passed on whole. *)
Definition derived_names : list (string * string) :=
  [("job_updated", "job_update"); ("payment_updated", "payment_update");
   ("escrow_released", "escrow_released");
   ("transaction_updated", "transaction_update")].

(** The five tags [onmessage] knows. *)
Definition known_tags : list string :=
  ["job_updated"; "new_message"; "payment_updated"; "escrow_released";
   "transaction_updated"].

(** The three names [subscribeToPaymentUpdates] registers under. *)
Definition payment_events : list string :=
  ["payment_update"; "escrow_released"; "transaction_update"].

(** The callbacks of [event] once the handles [hs] have been called, in
    turn, on the list [l]. *)
Definition released (hs : list EventEmitter.unsubscribe_handle) (event : string)
    (l : list cbid) : list cbid :=
  fold_left
    (fun acc (h : EventEmitter.unsubscribe_handle) =>
       if String.eqb h.1 event
       then List.filter (fun cb => negb (Nat.eqb cb h.2)) acc
       else acc)
    hs l.

(** [w'] differs from [w] at most by the wire and the queue. *)
Definition traffic_only (w w' : world U) : Prop :=
  eventEmitter w' = eventEmitter w /\ refs w' = refs w /\
  ws (wsManager w') = ws (wsManager w) /\
  reconnectAttempts (wsManager w') = reconnectAttempts (wsManager w) /\
  isConnecting (wsManager w') = isConnecting (wsManager w) /\
  subscriptions (wsManager w') = subscriptions (wsManager w) /\
  sockets (browser w') = sockets (browser w) /\
  timers (browser w') = timers (browser w) /\
  intervals (browser w') = intervals (browser w) /\
  console (browser w') = console (browser w) /\
  next_interval (browser w') = next_interval (browser w) /\
  next_addr (browser w') = next_addr (browser w).

(** Whenever the manager holds an open channel the queue is empty. *)
Definition queue_empty_while_open (w : world U) : Prop :=
  forall k, WebSocketManager.open_socket w = Some k -> messageQueue (wsManager w) = [].

End Frames.

(** A string made of spaces only. *)
Fixpoint only_spaces (s : string) : bool :=
  match s with
  | EmptyString => true
  | String c s' => Ascii.eqb c " "%char && only_spaces s'
  end.

End Frames.

(** ** Sample worlds *)

Module Cases.

(** Callbacks that return and keep no state. *)
Definition quiet : cbid -> jsval -> unit -> unit * bool :=
  fun _ _ u => (u, false).

Definition start : world unit := Page.init tt.

Definition after (ls : list Page.label) : world unit :=
  default start (Page.run quiet ls start).

Definition u1 : jsval := JStr "u1".
Definition job : jsval := JStr "j1".
Definition other_job : jsval := JStr "j2".
Definition peer : jsval := JStr "u2".
Definition ping : jsval := JObj [("type", JStr "ping")].

Definition sub : jsobj :=
  {| addr := 0; props := [("type", JStr "subscribe_job"); ("jobId", job)] |}.

(** Polling for one conversation. *)
Definition polling : world unit := after [Page.StartPolling job peer].

(** Connected as [u1]. *)
Definition connected : world unit := after [Page.Connect u1 true; Page.SockOpen 0].

(** The first attempt is under way. *)
Definition connecting : world unit := after [Page.Connect u1 true].

(** The first attempt failed and the retry is under way, with one message
    waiting. *)
Definition retrying : list Page.label :=
  [Page.Connect u1 true; Page.SockClose 0; Page.Send ping; Page.TimerFire 0 true].

(** The retry opened. *)
Definition reopened : list Page.label := retrying ++ [Page.SockOpen 1].

(** [disconnect()] and a new [connect] while the old socket is closing,
    then the close event of the old socket. *)
Definition stale : world unit :=
  after [Page.Connect u1 true; Page.SockOpen 0; Page.Disconnect;
         Page.Connect u1 true; Page.SockClose 0].

(** A message waits and an object is subscribed while nothing is
    connected. *)
Definition waiting : world unit := after [Page.Send ping; Page.Subscribe sub].

(** A failed attempt, then a retry that fails with an error event. *)
Definition failing : list Page.label :=
  [Page.Connect u1 true; Page.SockClose 0; Page.TimerFire 0 true;
   Page.SockError 1; Page.SockClose 1].

(** Callback 3 listens to [escrow_released]. *)
Definition listening : world unit :=
  match EventEmitter.on "escrow_released" 3 start with
  | Ok _ w => w
  | _ => start
  end.

Definition escrow : list (string * jsval) :=
  [("type", JStr "escrow_released"); ("jobId", job)].

End Cases.

(** ** The profile page

    Two pure computations of the component [UserProfile] that lives in the
    same source file: the row of stars and the initials of the avatar. *)

Module UserProfile.

(** [renderStars(rating)]:
    [Array.from({ length: 5 }, (_, i) => ... i < rating ? filled : empty)],
    for a rating that is a whole number.  The value tells, star by star,
    whether the star is drawn filled. *)
Definition renderStars (rating : Z) : list bool :=
  map (fun i => (Z.of_nat i <? rating)%Z) (seq 0 5).

(** [s.split(" ")], a string being the sequence of its code units. *)
Fixpoint split_space (s : string) : list string :=
  match s with
  | EmptyString => [EmptyString]
  | String c s' =>
      if Ascii.eqb c " "%char then EmptyString :: split_space s'
      else
        match split_space s' with
        | piece :: pieces => String c piece :: pieces
        | [] => [String c EmptyString]
        end
  end.

(** [n[0]] as [join] prints it: the first code unit, nothing for the empty
    string (whose [n[0]] is [undefined]). *)
Definition first_unit (n : string) : string :=
  match n with
  | EmptyString => EmptyString
  | String c _ => String c EmptyString
  end.

(** [name.split(" ").map((n) => n[0]).join("")]. *)
Definition initials (name : string) : string :=
  fold_right String.append EmptyString (map first_unit (split_space name)).

(** [name ? initials : "U"], for a name that is a string. *)
Definition avatar_fallback (name : string) : string :=
  if String.eqb name "" then "U" else initials name.

End UserProfile.

(** ** Properties of the event emitter *)

Section EmitterProperties.
Context {U : Type} (behave : cbid -> jsval -> U -> U * bool).

Local Abbreviation emit := (EventEmitter.emit behave).
Local Abbreviation invoke := (EventEmitter.invoke behave).
Local Abbreviation outcomes := (Props.outcomes behave).

Lemma callbacks_only_refl (w : world U) : Props.callbacks_only w w.
Proof. repeat split. Qed.

Lemma callbacks_only_trans (w1 w2 w3 : world U) :
  Props.callbacks_only w1 w2 -> Props.callbacks_only w2 w3 ->
  Props.callbacks_only w1 w3.
Proof.
  unfold Props.callbacks_only. intros H12 H23.
  destruct H12 as (?&?&?&?&?&?&?&?&?&?), H23 as (?&?&?&?&?&?&?&?&?&?).
  repeat split; congruence.
Qed.

Lemma invoke_spec (data : jsval) (w : world U) (cb : cbid) :
  Props.callbacks_only w (invoke data w cb) /\
  user (eventEmitter (invoke data w cb)) = (behave cb data (user (eventEmitter w))).1 /\
  invoked (eventEmitter (invoke data w cb)) = invoked (eventEmitter w) ++ [(cb, data)] /\
  console (browser (invoke data w cb)) =
    console (browser w) ++
      (if (behave cb data (user (eventEmitter w))).2 then [ErrCallback cb] else []).
Proof.
  unfold EventEmitter.invoke.
  destruct (behave cb data (user (eventEmitter w))) as [u threw].
  destruct threw; cbn; rewrite ?app_nil_r; repeat split.
Qed.

(** The [forEach] of [emit]: every callback of the list is called, in the
    order of the list, whatever the earlier ones did. *)
Lemma forEach_spec (data : jsval) (cbs : list cbid) (w : world U) :
  Props.callbacks_only w (fold_left (invoke data) cbs w) /\
  invoked (eventEmitter (fold_left (invoke data) cbs w)) =
    invoked (eventEmitter w) ++ map (fun cb => (cb, data)) cbs /\
  console (browser (fold_left (invoke data) cbs w)) =
    console (browser w) ++
      Props.failures (outcomes data cbs (user (eventEmitter w))).
Proof.
  revert w. induction cbs as [|cb cbs IH]; intros w; cbn [fold_left map Props.outcomes].
  - cbn. rewrite !app_nil_r. split; [apply callbacks_only_refl | done].
  - destruct (invoke_spec data w cb) as (Hf & Hu & Hi & Hc).
    destruct (IH (invoke data w cb)) as (Hf' & Hi' & Hc').
    split; [eapply callbacks_only_trans; eassumption |].
    rewrite Hi', Hi, Hc', Hc, Hu.
    destruct (behave cb data (user (eventEmitter w))) as [u threw].
    rewrite <- !app_assoc. split; [done |].
    f_equal. destruct threw; reflexivity.
Qed.

(** [emit] on a name with an array registered. *)
Lemma emit_registered (event : string) (data : jsval) (cbs : list cbid) (w : world U) :
  events (eventEmitter w) !! event = Some cbs ->
  exists w',
    emit event data w = Ok tt w' /\
    wsManager w' = wsManager w /\ refs w' = refs w /\
    events (eventEmitter w') = events (eventEmitter w) /\
    published (eventEmitter w') = published (eventEmitter w) ++ [(event, data)] /\
    invoked (eventEmitter w') =
      invoked (eventEmitter w) ++ map (fun cb => (cb, data)) cbs /\
    console (browser w') =
      console (browser w) ++ Props.failures (outcomes data cbs (user (eventEmitter w))) /\
    sockets (browser w') = sockets (browser w) /\
    wire (browser w') = wire (browser w) /\
    timers (browser w') = timers (browser w) /\
    intervals (browser w') = intervals (browser w).
Proof.
  intros Hreg. unfold EventEmitter.emit. rewrite Hreg.
  eexists; split; [reflexivity |].
  match goal with |- context [fold_left _ _ ?w0] =>
    destruct (forEach_spec data cbs w0) as ((?&?&?&?&?&?&?&?&?&?) & Hi & Hc)
  end.
  cbn in *. repeat split; assumption.
Qed.

(** [emit] on a name with nothing registered, not inherited. *)
Lemma emit_unregistered (event : string) (data : jsval) (w : world U) :
  events (eventEmitter w) !! event = None ->
  inherited event = false ->
  emit event data w =
    Ok tt (with_bus (fun b => set_published (published b ++ [(event, data)]) b) w).
Proof. intros Hreg Hin. unfold EventEmitter.emit. by rewrite Hreg, Hin. Qed.

(** [emit] on a name that is not inherited always returns. *)
Lemma emit_returns (event : string) (data : jsval) (w : world U) :
  inherited event = false ->
  exists w',
    emit event data w = Ok tt w' /\
    wsManager w' = wsManager w /\ refs w' = refs w /\
    events (eventEmitter w') = events (eventEmitter w) /\
    published (eventEmitter w') = published (eventEmitter w) ++ [(event, data)] /\
    invoked (eventEmitter w') =
      invoked (eventEmitter w) ++ map (fun cb => (cb, data)) (Props.registered event w) /\
    sockets (browser w') = sockets (browser w) /\
    wire (browser w') = wire (browser w) /\
    timers (browser w') = timers (browser w) /\
    intervals (browser w') = intervals (browser w).
Proof.
  intros Hin. unfold Props.registered.
  destruct (events (eventEmitter w) !! event) as [cbs|] eqn:Hreg.
  - destruct (emit_registered event data cbs w Hreg)
      as (w' & He & ? & ? & ? & ? & ? & ? & ? & ? & ? & ?).
    exists w'. cbn. repeat split; assumption.
  - rewrite (emit_unregistered event data w Hreg Hin).
    eexists; split; [reflexivity |]. cbn. rewrite app_nil_r. repeat split.
Qed.

Lemma emits_only_refl (w : world U) : Props.emits_only w w.
Proof. repeat split. Qed.

Lemma emits_only_trans (w1 w2 w3 : world U) :
  Props.emits_only w1 w2 -> Props.emits_only w2 w3 -> Props.emits_only w1 w3.
Proof.
  unfold Props.emits_only. intros H12 H23.
  destruct H12 as (?&?&?&?&?&?&?&?&?), H23 as (?&?&?&?&?&?&?&?&?).
  repeat split; congruence.
Qed.

(** However [emit] ends, it has touched nothing but the emitter and the
    console; when it throws it has touched nothing at all; and it ends. *)
Lemma emit_inv (event : string) (data : jsval) (w : world U) :
  match emit event data w with
  | Ok _ w' => Props.emits_only w w'
  | Throw w' => w' = w
  | Loops => False
  end.
Proof.
  unfold EventEmitter.emit.
  destruct (events (eventEmitter w) !! event) as [cbs|].
  - match goal with |- context [fold_left _ _ ?w0] =>
      destruct (forEach_spec data cbs w0) as ((?&?&?&?&?&?&?&?&?&?) & _)
    end.
    cbn in *. repeat split; assumption.
  - destruct (inherited event); [reflexivity |]. repeat split.
Qed.

End EmitterProperties.

Section HandleProperties.
Context {U : Type}.

Lemma filter_twice {A : Type} (f : A -> bool) (l : list A) :
  List.filter f (List.filter f l) = List.filter f l.
Proof.
  induction l as [|a l IH]; [done |]. cbn.
  destruct (f a) eqn:Hfa; cbn; rewrite ?Hfa; congruence.
Qed.

(** What [on] does when it returns. *)
Lemma on_registers (event : string) (callback : cbid) (w w1 : world U)
    (h : EventEmitter.unsubscribe_handle) :
  EventEmitter.on event callback w = Ok h w1 ->
  h = (event, callback) /\
  events (eventEmitter w1) =
    <[event := Props.registered event w ++ [callback]]> (events (eventEmitter w)) /\
  w1 = with_bus (fun b => set_events (events (eventEmitter w1)) b) w.
Proof.
  unfold EventEmitter.on, Props.registered.
  destruct (events (eventEmitter w) !! event) as [cbs|] eqn:Hreg.
  - intros [= <- <-]. repeat split.
  - destruct (inherited event); [intros Habs; discriminate Habs |].
    intros [= <- <-]. repeat split.
Qed.

(** Calling a handle in any world where its name has an array: the array
    loses every entry that is the handle's function and keeps the others
    as they stand; nothing else changes. *)
Lemma call_handle_spec (event : string) (callback : cbid) (cbs : list cbid)
    (w : world U) :
  events (eventEmitter w) !! event = Some cbs ->
  EventEmitter.call_handle (event, callback) w =
    Ok tt
       (with_bus
          (fun b =>
             set_events
               (<[event := List.filter (fun cb => negb (Nat.eqb cb callback)) cbs]>
                  (events b)) b) w).
Proof. intros Hreg. unfold EventEmitter.call_handle. cbv beta iota. by rewrite Hreg. Qed.

(** C7. The function returned by [on(event, callback)], when called, leaves
    under [event] the callbacks that were there minus [callback], in the
    order they had: [callback] is gone, every other callback stays where it
    was relative to the rest, and no other event name is touched.  Calling
    it a second time changes nothing. *)
Theorem handle_removes_callback (event : string) (callback : cbid)
    (w w1 : world U) (h : EventEmitter.unsubscribe_handle) :
  EventEmitter.on event callback w = Ok h w1 ->
  exists w2,
    EventEmitter.call_handle h w1 = Ok tt w2 /\
    Props.registered event w1 = Props.registered event w ++ [callback] /\
    Props.registered event w2 =
      List.filter (fun cb => negb (Nat.eqb cb callback)) (Props.registered event w1) /\
    (forall cb,
        cb ∈ Props.registered event w2 <->
        cb ∈ Props.registered event w1 /\ cb <> callback) /\
    (forall other,
        other <> event ->
        events (eventEmitter w2) !! other = events (eventEmitter w1) !! other) /\
    wsManager w2 = wsManager w1 /\ browser w2 = browser w1 /\ refs w2 = refs w1 /\
    user (eventEmitter w2) = user (eventEmitter w1) /\
    EventEmitter.call_handle h w2 = Ok tt w2.
Proof.
  intros Hon. destruct (on_registers _ _ _ _ _ Hon) as (-> & Hev & _).
  assert (Hreg1 : events (eventEmitter w1) !! event =
                  Some (Props.registered event w ++ [callback])).
  { rewrite Hev. apply lookup_insert_eq. }
  assert (Hr1 : Props.registered event w1 = Props.registered event w ++ [callback]).
  { unfold Props.registered at 1. by rewrite Hreg1. }
  rewrite (call_handle_spec _ _ _ _ Hreg1). eexists. split; [reflexivity |].
  split; [exact Hr1 |].
  assert (Hr2 : forall X, Props.registered event
                  (with_bus (fun b => set_events (<[event := X]> (events b)) b) w1) = X).
  { intros X. unfold Props.registered. cbn. by rewrite lookup_insert_eq. }
  rewrite Hr2, Hr1.
  split; [reflexivity |].
  split.
  { intros cb. rewrite !list_elem_of_In, filter_In, negb_true_iff, Nat.eqb_neq.
    reflexivity. }
  split.
  { intros other Hne. cbn. by rewrite lookup_insert_ne. }
  do 4 (split; [reflexivity |]).
  erewrite call_handle_spec; [| cbn; apply lookup_insert_eq].
  unfold with_bus, set_events. cbn.
  rewrite filter_twice, insert_insert_eq. reflexivity.
Qed.

End HandleProperties.

Section IsolationProperties.
Context {U : Type} (behave : cbid -> jsval -> U -> U * bool).

(** C8. A publish on a name with callbacks registered calls every one of
    them, in registration order, whichever of them throw; each failure is
    written to the console and none reaches the caller, for [emit] returns;
    and a later publish on any name that can be published at all (one not
    inherited from [Object.prototype]) returns too, having called the
    callbacks of that name. *)
Theorem emit_isolates_failures (event : string) (data : jsval) (cbs : list cbid)
    (w : world U) :
  events (eventEmitter w) !! event = Some cbs ->
  exists w',
    EventEmitter.emit behave event data w = Ok tt w' /\
    invoked (eventEmitter w') =
      invoked (eventEmitter w) ++ map (fun cb => (cb, data)) cbs /\
    console (browser w') =
      console (browser w) ++
        Props.failures (Props.outcomes behave data cbs (user (eventEmitter w))) /\
    forall event2 data2,
      inherited event2 = false ->
      exists w'',
        EventEmitter.emit behave event2 data2 w' = Ok tt w'' /\
        invoked (eventEmitter w'') =
          invoked (eventEmitter w') ++
            map (fun cb => (cb, data2)) (Props.registered event2 w).
Proof.
  intros Hreg.
  destruct (emit_registered behave event data cbs w Hreg)
    as (w' & He & _ & _ & Hev & _ & Hi & Hc & _).
  exists w'. repeat split; try assumption.
  intros event2 data2 Hin.
  destruct (emit_returns behave event2 data2 w' Hin) as (w'' & He2 & _ & _ & _ & _ & Hi2 & _).
  exists w''. split; [assumption |].
  rewrite Hi2. unfold Props.registered. by rewrite Hev.
Qed.

End IsolationProperties.

(** ** Properties of the connection manager *)

Section ManagerProperties.
Context {U : Type} (behave : cbid -> jsval -> U -> U * bool).

Local Abbreviation open_socket := (@WebSocketManager.open_socket U).
Local Abbreviation send := (@WebSocketManager.send U).
Local Abbreviation drain := (@WebSocketManager.drain U).
Local Abbreviation replay := (@WebSocketManager.replay U).
Local Abbreviation transmitted := (@Props.transmitted U).
Local Abbreviation queued := (@Props.queued U).

Lemma transmitted_nil (k : nat) (w : world U) : transmitted k [] w = w.
Proof.
  destruct w as [b m p r]. destruct p.
  unfold Props.transmitted, with_browser, set_wire. cbn. by rewrite app_nil_r.
Qed.

Lemma transmitted_app (k : nat) (l1 l2 : list jsval) (w : world U) :
  transmitted k l2 (transmitted k l1 w) = transmitted k (l1 ++ l2) w.
Proof.
  unfold Props.transmitted, with_browser, set_wire. cbn.
  by rewrite map_app, app_assoc.
Qed.

Lemma queued_nil (w : world U) : queued [] w = w.
Proof.
  destruct w as [b m p r]. destruct m.
  unfold Props.queued, with_manager, set_messageQueue. cbn. by rewrite app_nil_r.
Qed.

Lemma queued_app (l1 l2 : list jsval) (w : world U) :
  queued l2 (queued l1 w) = queued (l1 ++ l2) w.
Proof.
  unfold Props.queued, with_manager, set_messageQueue. cbn. by rewrite app_assoc.
Qed.

(** [send] on an open channel transmits. *)
Lemma send_open (k : nat) (message : jsval) (w : world U) :
  open_socket w = Some k -> send message w = transmitted k [message] w.
Proof. intros Hk. unfold WebSocketManager.send. by rewrite Hk. Qed.

(** [send] without an open channel queues. *)
Lemma send_closed (message : jsval) (w : world U) :
  open_socket w = None -> send message w = queued [message] w.
Proof. intros Hk. unfold WebSocketManager.send. by rewrite Hk. Qed.

Lemma open_socket_transmitted (k : nat) (l : list jsval) (w : world U) :
  open_socket (transmitted k l w) = open_socket w.
Proof. reflexivity. Qed.

Lemma open_socket_queued (l : list jsval) (w : world U) :
  open_socket (queued l w) = open_socket w.
Proof. reflexivity. Qed.

(** Sending a list of values one after the other on an open channel. *)
Lemma send_each_open {A : Type} (f : A -> jsval) (k : nat) (l : list A) (w : world U) :
  open_socket w = Some k ->
  fold_left (fun w' x => send (f x) w') l w = transmitted k (map f l) w.
Proof.
  revert w. induction l as [|x l IH]; intros w Hk; cbn [fold_left map].
  - by rewrite transmitted_nil.
  - rewrite (send_open k _ _ Hk), IH by done.
    by rewrite transmitted_app.
Qed.

(** Sending a list of values one after the other without an open channel. *)
Lemma send_each_closed {A : Type} (f : A -> jsval) (l : list A) (w : world U) :
  open_socket w = None ->
  fold_left (fun w' x => send (f x) w') l w = queued (map f l) w.
Proof.
  revert w. induction l as [|x l IH]; intros w Hk; cbn [fold_left map].
  - by rewrite queued_nil.
  - rewrite (send_closed _ _ Hk), IH by done.
    by rewrite queued_app.
Qed.

(** On an open channel the loop ends, within one round per queued message:
    the queue has gone out in order and is empty. *)
Lemma drain_open (k : nat) (q : list jsval) (fuel : nat) (w : world U) :
  open_socket w = Some k ->
  messageQueue (wsManager w) = q ->
  length q <= fuel ->
  drain fuel w = Ok tt (with_manager (set_messageQueue []) (transmitted k q w)).
Proof.
  revert fuel w. induction q as [|message q IH]; intros fuel w Hk Hq Hfuel.
  - destruct fuel; cbn; rewrite Hq, transmitted_nil;
      destruct w as [b m p r]; destruct m; cbn in *; by subst.
  - destruct fuel as [|fuel]; [cbn in Hfuel; lia |].
    cbn [WebSocketManager.drain]. rewrite Hq.
    rewrite send_open with (k := k) by exact Hk.
    rewrite IH; [| exact Hk | reflexivity | cbn in Hfuel; lia].
    reflexivity || (unfold Props.transmitted, with_manager, with_browser; cbn;
                    by rewrite <- app_assoc).
Qed.

(** Without an open channel the loop never ends once the queue holds
    something: every message taken off is put back. *)
Lemma drain_closed_loops (fuel : nat) (w : world U) :
  open_socket w = None ->
  messageQueue (wsManager w) <> [] ->
  drain fuel w = Loops.
Proof.
  revert w. induction fuel as [|fuel IH]; intros w Hk Hq.
  - cbn. destruct (messageQueue (wsManager w)); done.
  - cbn [WebSocketManager.drain].
    destruct (messageQueue (wsManager w)) as [|message rest]; [done |].
    apply IH.
    + rewrite send_closed by exact Hk. exact Hk.
    + rewrite send_closed by exact Hk. cbn. by destruct rest.
Qed.

(** The replay on an open channel: one transmission per entry of the set,
    in the order of the set. *)
Lemma replay_open (k : nat) (w : world U) :
  open_socket w = Some k ->
  replay w = transmitted k (map obj_val (subscriptions (wsManager w))) w.
Proof. intros Hk. unfold WebSocketManager.replay. by apply send_each_open. Qed.

(** [ws.onopen] when the manager's channel is the open socket [k]. *)
Lemma onopen_open (userId : jsval) (k : nat) (w : world U) :
  open_socket w = Some k ->
  exists w',
    WebSocketManager.onopen behave userId w = Ok tt w' /\
    wire (browser w') =
      wire (browser w) ++
        map (pair k)
          ((if truthy userId then [JObj [("type", JStr "auth"); ("userId", userId)]]
            else []) ++
           messageQueue (wsManager w) ++ map obj_val (subscriptions (wsManager w))) /\
    messageQueue (wsManager w') = [] /\
    subscriptions (wsManager w') = subscriptions (wsManager w) /\
    reconnectAttempts (wsManager w') = 0%Z /\
    isConnecting (wsManager w') = false /\
    ws (wsManager w') = ws (wsManager w) /\
    published (eventEmitter w') =
      published (eventEmitter w) ++ [("websocket_connected", JUndef)] /\
    timers (browser w') = timers (browser w) /\
    sockets (browser w') = sockets (browser w).
Proof.
  intros Hk. unfold WebSocketManager.onopen.
  set (w1 := with_manager _ w).
  assert (Hk1 : open_socket w1 = Some k) by exact Hk.
  set (a := if truthy userId then [JObj [("type", JStr "auth"); ("userId", userId)]]
            else []).
  assert (Hw2 : (if truthy userId
                 then send (JObj [("type", JStr "auth"); ("userId", userId)]) w1
                 else w1) = transmitted k a w1).
  { subst a. destruct (truthy userId).
    - by apply send_open.
    - by rewrite transmitted_nil. }
  rewrite Hw2.
  rewrite (drain_open k (messageQueue (wsManager w))) by (done || reflexivity).
  cbn [bind].
  rewrite replay_open with (k := k) by exact Hk.
  match goal with |- context [EventEmitter.emit behave ?e ?d ?w0] =>
    destruct (emit_returns behave e d w0 eq_refl)
      as (w' & He & Hm & _ & _ & Hp & _ & Hs & Hwire & Ht & _)
  end.
  exists w'. split; [exact He |].
  rewrite Hm, Hp, Hs, Hwire, Ht. cbn.
  rewrite !map_app, <- !app_assoc. repeat split.
Qed.


End ManagerProperties.

(** ** The reconnection policy *)

Section ReconnectProperties.
Context {U : Type} (behave : cbid -> jsval -> U -> U * bool).

Local Abbreviation onclose := (WebSocketManager.onclose behave).
Local Abbreviation closes := (Props.closes behave).

(** A close below the maximum: the counter goes up by one and one timeout
    is set, of [reconnectDelay * 2 ^ (counter - 1)] for the new counter;
    nothing is published. *)
Lemma onclose_retry (userId : jsval) (w : world U) :
  (reconnectAttempts (wsManager w) < WebSocketManager.maxReconnectAttempts)%Z ->
  exists w',
    onclose userId w = Ok tt w' /\
    reconnectAttempts (wsManager w') = (reconnectAttempts (wsManager w) + 1)%Z /\
    timers (browser w') =
      timers (browser w) ++
        [{| delay := (WebSocketManager.reconnectDelay *
                      2 ^ (reconnectAttempts (wsManager w') - 1))%Z;
            timer_user := userId |}] /\
    published (eventEmitter w') = published (eventEmitter w) /\
    ws (wsManager w') = None /\ isConnecting (wsManager w') = false /\
    messageQueue (wsManager w') = messageQueue (wsManager w) /\
    subscriptions (wsManager w') = subscriptions (wsManager w) /\
    sockets (browser w') = sockets (browser w) /\
    wire (browser w') = wire (browser w).
Proof.
  intros Hlt. unfold WebSocketManager.onclose. cbn.
  apply Z.ltb_lt in Hlt. rewrite Hlt.
  eexists. split; [reflexivity |]. cbn. repeat split.
Qed.

(** A close at the maximum: no timeout is set, the counter stays, and
    [websocket_disconnected] is published. *)
Lemma onclose_terminal (userId : jsval) (w : world U) :
  (WebSocketManager.maxReconnectAttempts <= reconnectAttempts (wsManager w))%Z ->
  exists w',
    onclose userId w = Ok tt w' /\
    reconnectAttempts (wsManager w') = reconnectAttempts (wsManager w) /\
    timers (browser w') = timers (browser w) /\
    published (eventEmitter w') =
      published (eventEmitter w) ++ [("websocket_disconnected", JUndef)] /\
    ws (wsManager w') = None /\ isConnecting (wsManager w') = false /\
    messageQueue (wsManager w') = messageQueue (wsManager w) /\
    subscriptions (wsManager w') = subscriptions (wsManager w) /\
    sockets (browser w') = sockets (browser w) /\
    wire (browser w') = wire (browser w).
Proof.
  intros Hge. unfold WebSocketManager.onclose. cbn.
  apply Z.ltb_ge in Hge. rewrite Hge.
  match goal with |- context [EventEmitter.emit behave ?e ?d ?w0] =>
    destruct (emit_returns behave e d w0 eq_refl)
      as (w' & He & Hm & _ & _ & Hp & _ & Hs & Hwire & Ht & _)
  end.
  exists w'. split; [exact He |].
  rewrite Hm, Hp, Hs, Hwire, Ht. cbn. repeat split.
Qed.

(** Closes in a row from counter [n], as long as the maximum is not passed:
    the i-th of them sets a timeout of [1000 * 2 ^ (n + i)] ms, counting
    from zero, and nothing is published. *)
Lemma closes_schedule (us : list jsval) (n : nat) (w : world U) :
  reconnectAttempts (wsManager w) = Z.of_nat n ->
  n + length us <= 5 ->
  exists w',
    closes us w = Ok tt w' /\
    reconnectAttempts (wsManager w') = Z.of_nat (n + length us) /\
    timers (browser w') =
      timers (browser w) ++
        imap (fun i u => {| delay := (1000 * 2 ^ Z.of_nat (n + i))%Z;
                            timer_user := u |}) us /\
    published (eventEmitter w') = published (eventEmitter w).
Proof.
  revert n w. induction us as [|u us IH]; intros n w Hn Hle.
  - exists w. cbn. rewrite Nat.add_0_r, app_nil_r. done.
  - cbn [length] in Hle.
    destruct (onclose_retry u w) as (w1 & Hc & Hn1 & Ht1 & Hp1 & _).
    { unfold WebSocketManager.maxReconnectAttempts. lia. }
    destruct (IH (S n) w1) as (w' & Hcs & Hn' & Ht' & Hp'); [lia | lia |].
    exists w'. cbn [Props.closes]. rewrite Hc. cbn [bind].
    split; [exact Hcs |].
    split; [rewrite Hn'; cbn [length]; f_equal; lia |].
    split; [| congruence].
    rewrite Ht', Ht1, Hn1, Hn, <- app_assoc. f_equal. cbn [imap app]. f_equal.
    + f_equal. unfold WebSocketManager.reconnectDelay. do 2 f_equal. lia.
    + apply imap_ext. intros i x _. cbn. do 3 f_equal. lia.
Qed.

(** C4. Starting with the counter at zero, five closes in a row set the
    timeouts 1000, 2000, 4000, 8000 and 16000 ms, in that order, each for a
    [connect] with the identity of the socket that closed, and publish
    nothing; the counter is then 5, and a sixth close sets no timeout and
    publishes [websocket_disconnected], leaving the manager without a
    channel and not connecting. *)
Theorem backoff_sequence (u1 u2 u3 u4 u5 u6 : jsval) (w : world U) :
  reconnectAttempts (wsManager w) = 0%Z ->
  exists w5 w6,
    closes [u1; u2; u3; u4; u5] w = Ok tt w5 /\
    timers (browser w5) =
      timers (browser w) ++
        [{| delay := 1000; timer_user := u1 |};
         {| delay := 2000; timer_user := u2 |};
         {| delay := 4000; timer_user := u3 |};
         {| delay := 8000; timer_user := u4 |};
         {| delay := 16000; timer_user := u5 |}] /\
    published (eventEmitter w5) = published (eventEmitter w) /\
    reconnectAttempts (wsManager w5) = 5%Z /\
    onclose u6 w5 = Ok tt w6 /\
    timers (browser w6) = timers (browser w5) /\
    published (eventEmitter w6) =
      published (eventEmitter w5) ++ [("websocket_disconnected", JUndef)] /\
    reconnectAttempts (wsManager w6) = 5%Z /\
    ws (wsManager w6) = None /\ isConnecting (wsManager w6) = false.
Proof.
  intros H0.
  destruct (closes_schedule [u1; u2; u3; u4; u5] 0 w H0) as (w5 & Hc & Hn & Ht & Hp);
    [cbn; lia |].
  change (Z.of_nat (0 + length [u1; u2; u3; u4; u5])) with 5%Z in Hn.
  destruct (onclose_terminal u6 w5) as (w6 & Hc6 & Hn6 & Ht6 & Hp6 & Hws & Hic & _).
  { rewrite Hn. unfold WebSocketManager.maxReconnectAttempts. lia. }
  exists w5, w6. repeat split; try assumption.
  congruence.
Qed.

End ReconnectProperties.

(** ** What a step can change *)

Section StepProperties.
Context {U : Type} (behave : cbid -> jsval -> U -> U * bool).

Local Abbreviation step := (Page.step behave).
Local Abbreviation run := (Page.run behave).

Lemma console_error_emits_only (e : log_entry) (w : world U) :
  Props.emits_only w (console_error e w).
Proof. repeat split. Qed.

Local Ltac inv_emit :=
  match goal with
  | |- context [EventEmitter.emit behave ?e ?d ?w] =>
      let H := fresh "Hemit" in
      pose proof (emit_inv behave e d w) as H;
      destruct (EventEmitter.emit behave e d w) as [[] ?w| ?w |];
      [ | subst | destruct H]
  end.

(** The body of [onmessage] touches only the emitter and the console,
    however it ends, and it ends. *)
Lemma dispatch_inv (data : jsval) (w : world U) :
  match WebSocketManager.dispatch behave data w with
  | Ok _ w' | Throw w' => Props.emits_only w w'
  | Loops => False
  end.
Proof.
  unfold WebSocketManager.dispatch.
  destruct (get "type" data) as [tag|]; [| apply emits_only_refl].
  destruct (to_property_key tag) as [name|]; [| apply emits_only_refl].
  inv_emit; cbn [bind]; [| apply emits_only_refl].
  destruct tag; try exact Hemit.
  repeat (match goal with |- context [if ?b then _ else _] => destruct b end);
    try exact Hemit;
    try (destruct (get "message" data); [| exact Hemit]);
    inv_emit; try exact Hemit; eapply emits_only_trans; eassumption.
Qed.

(** [onmessage] always returns. *)
Lemma onmessage_inv (parsed : option jsval) (w : world U) :
  exists w',
    WebSocketManager.onmessage behave parsed w = Ok tt w' /\ Props.emits_only w w'.
Proof.
  unfold WebSocketManager.onmessage.
  destruct parsed as [data|]; cbn [try_catch].
  - pose proof (dispatch_inv data w) as H.
    destruct (WebSocketManager.dispatch behave data w) as [[] w'|w'|]; cbn [try_catch].
    + eauto.
    + eexists; split; [reflexivity |].
      eapply emits_only_trans; [exact H | apply console_error_emits_only].
    + destruct H.
  - eexists; split; [reflexivity | apply console_error_emits_only].
Qed.

(** The interval callback always returns and leaves the timers, the
    intervals and the refs alone. *)
Lemma poll_tick_inv (outcome : UseRealTimeUpdates.fetch_outcome) (w : world U) :
  exists w',
    UseRealTimeUpdates.poll_tick behave outcome w = Ok tt w' /\ Props.emits_only w w'.
Proof.
  unfold UseRealTimeUpdates.poll_tick.
  destruct outcome as [|success [l|]]; cbn [try_catch].
  - eexists; split; [reflexivity | apply console_error_emits_only].
  - destruct (success && (0 <? length l)%nat).
    + inv_emit; cbn [try_catch]; eauto using emits_only_refl.
      eexists; split; [reflexivity | apply console_error_emits_only].
    + eauto using emits_only_refl.
  - eauto using emits_only_refl.
Qed.

Lemma send_counter (message : jsval) (w : world U) :
  reconnectAttempts (wsManager (WebSocketManager.send message w)) =
  reconnectAttempts (wsManager w).
Proof. unfold WebSocketManager.send. by destruct (WebSocketManager.open_socket w). Qed.

(** [connect] leaves the counter as it finds it. *)
Lemma connect_counter (userId : jsval) (created : bool) (w : world U) :
  reconnectAttempts (wsManager (WebSocketManager.connect userId created w)) =
  reconnectAttempts (wsManager w).
Proof.
  unfold WebSocketManager.connect.
  destruct (isConnecting (wsManager w) || _); [done |]. by destruct created.
Qed.

(** The counter is put back to zero by a socket opening and by
    [disconnect()] only: any other step leaves it, or, for a close below
    the maximum, adds one. *)
Lemma step_counter (l : Page.label) (w w' : world U) :
  Props.no_open_no_disconnect l = true ->
  step l w = Some (Ok tt w') ->
  reconnectAttempts (wsManager w') = reconnectAttempts (wsManager w) \/
  ((reconnectAttempts (wsManager w) < WebSocketManager.maxReconnectAttempts)%Z /\
   reconnectAttempts (wsManager w') = (reconnectAttempts (wsManager w) + 1)%Z).
Proof.
  destruct l; cbn [Props.no_open_no_disconnect Page.step]; try discriminate; intros _.
  - intros [= <-]. left. apply connect_counter.
  - intros [= <-]. left. apply send_counter.
  - intros [= <-]. left. unfold WebSocketManager.subscribe. by rewrite send_counter.
  - intros [= <-]. left. unfold WebSocketManager.unsubscribe. by rewrite send_counter.
  - destruct (sockets (browser w) !! k) as [s|]; [| discriminate].
    destruct (readyState s); try discriminate.
    destruct (onmessage_inv parsed w) as (w1 & -> & Hf & _).
    intros [= <-]. left. by rewrite Hf.
  - destruct (sockets (browser w) !! k) as [s|]; [| discriminate].
    destruct (readyState s); try discriminate; intros [= <-]; by left.
  - destruct (sockets (browser w) !! k) as [s|]; [| discriminate].
    set (w0 := Page.set_readyState k CLOSED w).
    assert (Hw0 : reconnectAttempts (wsManager w0) = reconnectAttempts (wsManager w))
      by reflexivity.
    destruct (Z.lt_ge_cases (reconnectAttempts (wsManager w0))
                WebSocketManager.maxReconnectAttempts) as [Hlt|Hge].
    + destruct (onclose_retry behave (sock_user s) w0 Hlt) as (w1 & -> & Hn & _).
      destruct (readyState s); try discriminate; intros [= <-]; right;
        rewrite <- Hw0; by split.
    + destruct (onclose_terminal behave (sock_user s) w0 Hge) as (w1 & -> & Hn & _).
      destruct (readyState s); try discriminate; intros [= <-]; left; congruence.
  - destruct (timers (browser w) !! i) as [t|]; [| discriminate].
    intros [= <-]. left. by rewrite connect_counter.
  - intros [= <-]. left. unfold UseRealTimeUpdates.startMessagePolling.
    by destruct (messagePollingRef (refs w)).
  - intros [= <-]. left. unfold UseRealTimeUpdates.stopMessagePolling.
    by destruct (messagePollingRef (refs w)).
  - destruct (existsb _ _); [| discriminate].
    destruct (poll_tick_inv outcome w) as (w1 & -> & Hf & _).
    intros [= <-]. left. by rewrite Hf.
Qed.

(** Once the counter is at the maximum it stays there through any steps
    that are neither an opening nor [disconnect()]. *)
Lemma run_keeps_maximum (ls : list Page.label) (w w1 : world U) :
  reconnectAttempts (wsManager w) = WebSocketManager.maxReconnectAttempts ->
  forallb Props.no_open_no_disconnect ls = true ->
  run ls w = Some w1 ->
  reconnectAttempts (wsManager w1) = WebSocketManager.maxReconnectAttempts.
Proof.
  revert w. induction ls as [|l ls IH]; intros w Hmax Hls Hrun; cbn in Hrun, Hls.
  - by injection Hrun as <-.
  - apply andb_prop in Hls as [Hl Hls].
    destruct (step l w) as [[[] w'|w'|]|] eqn:Hstep; try discriminate.
    apply (IH w'); [| exact Hls | exact Hrun].
    destruct (step_counter l w w' Hl Hstep) as [Heq|[Hlt _]]; [congruence | lia].
Qed.

(** Through steps that are neither an opening nor [disconnect()] the
    counter never goes down. *)
Lemma run_counter_monotone (ls : list Page.label) (w w1 : world U) :
  forallb Props.no_open_no_disconnect ls = true ->
  run ls w = Some w1 ->
  (reconnectAttempts (wsManager w) <= reconnectAttempts (wsManager w1))%Z.
Proof.
  revert w. induction ls as [|l ls IH]; intros w Hls Hrun; cbn in Hrun, Hls.
  - injection Hrun as <-. lia.
  - apply andb_prop in Hls as [Hl Hls].
    destruct (step l w) as [[[] w'|w'|]|] eqn:Hstep; try discriminate.
    specialize (IH w' Hls Hrun).
    destruct (step_counter l w w' Hl Hstep) as [Heq|[_ Heq]]; lia.
Qed.

(** C10. Only a socket opening and [disconnect()] put the counter back to
    zero: through any calls and events that are neither -- calls of
    [connect] among them -- the counter never goes down.  So once it is at
    the maximum it is still there after a fresh [connect], and the next
    close of any socket publishes [websocket_disconnected] at once, sets no
    timeout and leaves the counter where it is. *)
Theorem fresh_connect_gets_no_retry (ls : list Page.label) (k : nat)
    (w w1 : world U) (r : res U unit) :
  forallb Props.no_open_no_disconnect ls = true ->
  run ls w = Some w1 ->
  (reconnectAttempts (wsManager w) <= reconnectAttempts (wsManager w1))%Z /\
  (reconnectAttempts (wsManager w) = 5%Z ->
   step (Page.SockClose k) w1 = Some r ->
   reconnectAttempts (wsManager w1) = 5%Z /\
   exists w2,
     r = Ok tt w2 /\
     reconnectAttempts (wsManager w2) = 5%Z /\
     published (eventEmitter w2) =
       published (eventEmitter w1) ++ [("websocket_disconnected", JUndef)] /\
     timers (browser w2) = timers (browser w1)).
Proof.
  intros Hls Hrun.
  split; [exact (run_counter_monotone ls w w1 Hls Hrun) |].
  intros Hmax Hclose.
  pose proof (run_keeps_maximum ls w w1 Hmax Hls Hrun) as H1.
  change WebSocketManager.maxReconnectAttempts with 5%Z in H1.
  split; [exact H1 |].
  cbn [Page.step] in Hclose.
  destruct (sockets (browser w1) !! k) as [s|]; [| discriminate].
  destruct (onclose_terminal behave (sock_user s) (Page.set_readyState k CLOSED w1))
    as (w2 & Hc & Hn & Ht & Hp & _).
  { change (reconnectAttempts (wsManager (Page.set_readyState k CLOSED w1)))
      with (reconnectAttempts (wsManager w1)).
    rewrite H1. unfold WebSocketManager.maxReconnectAttempts. lia. }
  rewrite Hc in Hclose.
  exists w2. split; [destruct (readyState s); congruence |].
  split; [rewrite Hn; exact H1 |]. split; assumption.
Qed.

End StepProperties.

(** ** disconnect *)

Section DisconnectProperties.
Context {U : Type} (behave : cbid -> jsval -> U -> U * bool).

(** What [disconnect()] leaves behind: no channel, an empty set, an empty
    queue, the counter at zero, not connecting; a channel that was held and
    connecting or open has been told to close. *)
Lemma disconnect_hard_reset (w : world U) :
  let w1 := WebSocketManager.disconnect w in
  ws (wsManager w1) = None /\
  subscriptions (wsManager w1) = [] /\
  messageQueue (wsManager w1) = [] /\
  reconnectAttempts (wsManager w1) = 0%Z /\
  isConnecting (wsManager w1) = false /\
  timers (browser w1) = timers (browser w) /\
  wire (browser w1) = wire (browser w) /\
  eventEmitter w1 = eventEmitter w /\
  forall k s,
    ws (wsManager w) = Some k ->
    sockets (browser w) !! k = Some s ->
    readyState s = CONNECTING \/ readyState s = OPEN ->
    sockets (browser w1) !! k = Some {| readyState := CLOSING; sock_user := sock_user s |}.
Proof.
  unfold WebSocketManager.disconnect.
  destruct (ws (wsManager w)) as [k0|] eqn:Hws; cbn; repeat split; try done.
  intros k s [= ->] Hs Hstate. rewrite list_lookup_alter_eq, Hs. cbn.
  by destruct Hstate as [-> | ->].
Qed.

(** C2. [disconnect()] on a held channel that is connecting or open resets
    the manager and tells the channel to close; the close event of that
    channel then runs the same handler as any other close, which finds the
    counter at zero and sets a timeout of 1000 ms for [connect] with the
    identity the channel was built for; when that timeout fires, [connect]
    builds a new channel.  So the manager reconnects by itself after
    [disconnect()]: the handler has no way to tell a close that was asked
    for from one that was not. *)
Theorem disconnect_then_close_reconnects (k : nat) (s : socket) (w : world U) :
  ws (wsManager w) = Some k ->
  sockets (browser w) !! k = Some s ->
  readyState s = CONNECTING \/ readyState s = OPEN ->
  exists w2 w3,
    Page.run behave [Page.Disconnect; Page.SockClose k] w = Some w2 /\
    timers (browser w2) =
      timers (browser w) ++ [{| delay := 1000; timer_user := sock_user s |}] /\
    reconnectAttempts (wsManager w2) = 1%Z /\
    published (eventEmitter w2) = published (eventEmitter w) /\
    Page.step behave (Page.TimerFire (length (timers (browser w))) true) w2 =
      Some (Ok tt w3) /\
    ws (wsManager w3) = Some (length (sockets (browser w))) /\
    isConnecting (wsManager w3) = true /\
    sockets (browser w3) !! length (sockets (browser w)) =
      Some {| readyState := CONNECTING; sock_user := sock_user s |}.
Proof.
  intros Hws Hs Hstate.
  destruct (disconnect_hard_reset w) as (Hws1 & _ & _ & Hn1 & _ & Ht1 & _ & Hb1 & Hsock).
  specialize (Hsock k s Hws Hs Hstate).
  set (w1 := WebSocketManager.disconnect w) in *.
  set (w1c := Page.set_readyState k CLOSED w1).
  destruct (onclose_retry behave (sock_user s) w1c)
    as (w2 & Hc & Hn2 & Ht2 & Hp2 & Hws2 & Hic2 & _ & _ & Hs2 & _).
  { change (reconnectAttempts (wsManager w1c)) with (reconnectAttempts (wsManager w1)).
    rewrite Hn1. reflexivity. }
  change (reconnectAttempts (wsManager w1c)) with (reconnectAttempts (wsManager w1))
    in Hn2.
  change (timers (browser w1c)) with (timers (browser w1)) in Ht2.
  change (published (eventEmitter w1c)) with (published (eventEmitter w1)) in Hp2.
  rewrite Hn1 in Hn2. rewrite Hn2, Ht1 in Ht2. rewrite Hb1 in Hp2.
  assert (Hlen : length (sockets (browser w2)) = length (sockets (browser w))).
  { rewrite Hs2. subst w1c w1. unfold Page.set_readyState, WebSocketManager.disconnect.
    rewrite Hws. cbn. by rewrite !length_alter. }
  eexists w2, _. split.
  { cbn [Page.run Page.step]. fold w1. rewrite Hsock. cbn [readyState sock_user].
    fold w1c. by rewrite Hc. }
  split; [exact Ht2 |]. split; [exact Hn2 |]. split; [exact Hp2 |].
  cbn [Page.step]. rewrite Ht2.
  rewrite lookup_app_r by lia. rewrite Nat.sub_diag. cbn [lookup list_lookup timer_user].
  split; [reflexivity |].
  unfold WebSocketManager.connect, WebSocketManager.open_socket.
  cbn. rewrite Hic2, Hws2. cbn. rewrite Hlen.
  repeat split.
  rewrite lookup_app_r by lia. by rewrite Hlen, Nat.sub_diag.
Qed.

End DisconnectProperties.

(** ** Incoming messages *)

Section MessageProperties.
Context {U : Type} (behave : cbid -> jsval -> U -> U * bool).

(** C6. An incoming object whose [type] is the string [new_message] and
    whose [message] field is [m] is published twice under the name
    [new_message]: first with the whole object as payload (the raw event),
    then with [m] alone (the derived event); the callbacks registered for
    [new_message] are called with the one, then with the other. *)
Theorem new_message_is_unwrapped (fields : list (string * jsval)) (m : jsval)
    (w : world U) :
  own "type" fields = Some (JStr "new_message") ->
  own "message" fields = Some m ->
  exists w',
    WebSocketManager.onmessage behave (Some (JObj fields)) w = Ok tt w' /\
    published (eventEmitter w') =
      published (eventEmitter w) ++
        [("new_message", JObj fields); ("new_message", m)] /\
    invoked (eventEmitter w') =
      invoked (eventEmitter w) ++
        map (fun cb => (cb, JObj fields)) (Props.registered "new_message" w) ++
        map (fun cb => (cb, m)) (Props.registered "new_message" w).
Proof.
  intros Htype Hmessage.
  unfold WebSocketManager.onmessage, WebSocketManager.dispatch, get.
  rewrite Htype, Hmessage. cbn [default from_option id to_property_key].
  destruct (emit_returns behave "new_message" (JObj fields) w eq_refl)
    as (w1 & He1 & _ & _ & Hev1 & Hp1 & Hi1 & _).
  rewrite He1. cbn [bind].
  change (String.eqb "new_message" "job_updated") with false.
  change (String.eqb "new_message" "new_message") with true.
  cbn match.
  destruct (emit_returns behave "new_message" m w1 eq_refl)
    as (w2 & He2 & _ & _ & _ & Hp2 & Hi2 & _).
  rewrite He2. cbn [try_catch].
  exists w2. split; [reflexivity |].
  rewrite Hp2, Hp1, Hi2, Hi1, <- !app_assoc.
  unfold Props.registered. rewrite Hev1. done.
Qed.

End MessageProperties.

(** ** The subscription set *)

Section SubscriptionProperties.
Context {U : Type} (behave : cbid -> jsval -> U -> U * bool).

Local Abbreviation subscribe := (@WebSocketManager.subscribe U).
Local Abbreviation unsubscribe := (@WebSocketManager.unsubscribe U).

Lemma set_has_addr (o : jsobj) (s : list jsobj) :
  set_has o s = true <-> addr o ∈ addr <$> s.
Proof.
  unfold set_has. rewrite existsb_exists, list_elem_of_fmap. split.
  - intros (x & Hx & Heq). apply Nat.eqb_eq in Heq.
    exists x. by rewrite list_elem_of_In.
  - intros (x & Heq & Hx). exists x. rewrite <- list_elem_of_In.
    split; [done |]. by apply Nat.eqb_eq.
Qed.

(** In a set with one entry per reference, an object has one entry if it is
    in the set and none otherwise. *)
Lemma entries_of_length (o : jsobj) (s : list jsobj) :
  NoDup (addr <$> s) ->
  length (Props.entries_of o s) = if set_has o s then 1 else 0.
Proof.
  induction s as [|x s IH]; [done |].
  rewrite fmap_cons, NoDup_cons. intros [Hx Hs].
  specialize (IH Hs). unfold Props.entries_of in *. cbn.
  destruct (Nat.eqb (addr x) (addr o)) eqn:Heq; cbn.
  - apply Nat.eqb_eq in Heq. rewrite Heq in Hx.
    destruct (set_has o s) eqn:Hhas; [by apply set_has_addr in Hhas |].
    by rewrite IH.
  - exact IH.
Qed.

Lemma set_add_has (o : jsobj) (s : list jsobj) : set_has o (set_add o s) = true.
Proof.
  unfold set_add. destruct (set_has o s) eqn:Hhas; [done |].
  unfold set_has. rewrite existsb_app. cbn. by rewrite Nat.eqb_refl, orb_true_r.
Qed.

(** Adding an object that is in the set changes nothing. *)
Lemma set_add_twice (o : jsobj) (s : list jsobj) :
  set_add o (set_add o s) = set_add o s.
Proof. unfold set_add at 1. by rewrite set_add_has. Qed.

Lemma set_add_NoDup (o : jsobj) (s : list jsobj) :
  NoDup (addr <$> s) -> NoDup (addr <$> set_add o s).
Proof.
  intros Hs. unfold set_add. destruct (set_has o s) eqn:Hhas; [done |].
  rewrite fmap_app. apply NoDup_app. split; [done |]. split.
  - intros a Ha Hin. cbn in Hin. apply list_elem_of_singleton in Hin as ->.
    apply set_has_addr in Ha. congruence.
  - cbn. apply NoDup_singleton.
Qed.

Lemma set_delete_has (o : jsobj) (s : list jsobj) : set_has o (set_delete o s) = false.
Proof.
  unfold set_has, set_delete. induction s as [|x s IH]; [done |]. cbn.
  destruct (Nat.eqb (addr x) (addr o)) eqn:Heq; cbn; [done |]. by rewrite Heq.
Qed.

Lemma subscribe_subscriptions (o : jsobj) (w : world U) :
  subscriptions (wsManager (subscribe o w)) = set_add o (subscriptions (wsManager w)).
Proof.
  unfold WebSocketManager.subscribe, WebSocketManager.send.
  by destruct (WebSocketManager.open_socket _).
Qed.

(** C1 (as the code has it). Registering one and the same subscription
    object twice leaves the set as one registration leaves it: the object
    has exactly one entry, and whenever the set is replayed on an open
    channel that entry goes out once -- the replay is one transmission per
    entry, in the order of the set. *)
Theorem subscribe_same_object_once (o : jsobj) (w : world U) :
  NoDup (addr <$> subscriptions (wsManager w)) ->
  let w2 := subscribe o (subscribe o w) in
  subscriptions (wsManager w2) = subscriptions (wsManager (subscribe o w)) /\
  NoDup (addr <$> subscriptions (wsManager w2)) /\
  length (Props.entries_of o (subscriptions (wsManager w2))) = 1 /\
  forall (w3 : world U) (k : nat),
    subscriptions (wsManager w3) = subscriptions (wsManager w2) ->
    WebSocketManager.open_socket w3 = Some k ->
    wire (browser (WebSocketManager.replay w3)) =
      wire (browser w3) ++
        map (fun x => (k, obj_val x)) (subscriptions (wsManager w2)).
Proof.
  intros Hs w2. subst w2. rewrite !subscribe_subscriptions, set_add_twice.
  split; [done |].
  split; [by apply set_add_NoDup |].
  split.
  - rewrite entries_of_length by (by apply set_add_NoDup). by rewrite set_add_has.
  - intros w3 k Hsame Hk. rewrite (replay_open k w3 Hk). cbn.
    by rewrite map_map, Hsame.
Qed.

End SubscriptionProperties.

(** ** The helpers of the hook *)

Section HookProperties.
Context {U : Type} (behave : cbid -> jsval -> U -> U * bool).

Local Abbreviation open_socket := (@WebSocketManager.open_socket U).
Local Abbreviation call_teardown := (@UseRealTimeUpdates.call_teardown U).
Local Abbreviation call_teardown_times := (@UseRealTimeUpdates.call_teardown_times U).

(** [on] returns for every name that is not inherited. *)
Lemma on_returns (event : string) (callback : cbid) (w : world U) :
  inherited event = false ->
  EventEmitter.on event callback w =
    Ok (event, callback)
       (with_bus
          (fun b =>
             set_events
               (<[event := Props.registered event w ++ [callback]]> (events b)) b) w).
Proof.
  intros Hin. unfold EventEmitter.on, Props.registered.
  destruct (events (eventEmitter w) !! event); [done |]. by rewrite Hin.
Qed.

(** What one call of [unsubscribe] sends or queues. *)
Lemma unsubscribe_spec (sub : jsobj) (w : world U) :
  subscriptions (wsManager (WebSocketManager.unsubscribe sub w)) =
    set_delete sub (subscriptions (wsManager w)) /\
  open_socket (WebSocketManager.unsubscribe sub w) = open_socket w /\
  eventEmitter (WebSocketManager.unsubscribe sub w) = eventEmitter w /\
  match open_socket w with
  | Some k =>
      wire (browser (WebSocketManager.unsubscribe sub w)) =
        wire (browser w) ++ [(k, Props.unsubscribe_message sub)] /\
      messageQueue (wsManager (WebSocketManager.unsubscribe sub w)) =
        messageQueue (wsManager w)
  | None =>
      messageQueue (wsManager (WebSocketManager.unsubscribe sub w)) =
        messageQueue (wsManager w) ++ [Props.unsubscribe_message sub] /\
      wire (browser (WebSocketManager.unsubscribe sub w)) = wire (browser w)
  end.
Proof.
  unfold WebSocketManager.unsubscribe.
  set (w0 := with_manager _ w).
  assert (Hk : open_socket w0 = open_socket w) by reflexivity.
  destruct (open_socket w) as [k|] eqn:Hopen.
  - rewrite (send_open k _ w0 Hk). repeat split. exact Hopen.
  - rewrite (send_closed _ w0 Hk). repeat split. exact Hopen.
Qed.

(** Calling, any number of times, the function returned for a job
    subscription, in a world where [job_update] has an array. *)
Lemma teardown_times_spec (sub : jsobj) (callback : cbid) (n : nat) :
  forall (cbs : list cbid) (w : world U),
    events (eventEmitter w) !! "job_update" = Some cbs ->
    exists w2,
      call_teardown_times n
        {| UseRealTimeUpdates.subscription := sub;
           UseRealTimeUpdates.handles := [("job_update", callback)] |} w = Ok tt w2 /\
      events (eventEmitter w2) !! "job_update" =
        Some (match n with
              | O => cbs
              | S _ => List.filter (fun cb => negb (Nat.eqb cb callback)) cbs
              end) /\
      subscriptions (wsManager w2) =
        match n with
        | O => subscriptions (wsManager w)
        | S _ => set_delete sub (subscriptions (wsManager w))
        end /\
      open_socket w2 = open_socket w /\
      match open_socket w with
      | Some k =>
          wire (browser w2) =
            wire (browser w) ++ replicate n (k, Props.unsubscribe_message sub) /\
          messageQueue (wsManager w2) = messageQueue (wsManager w)
      | None =>
          messageQueue (wsManager w2) =
            messageQueue (wsManager w) ++ replicate n (Props.unsubscribe_message sub) /\
          wire (browser w2) = wire (browser w)
      end.
Proof.
  induction n as [|n IH]; intros cbs w Hreg.
  - exists w. cbn. rewrite !app_nil_r. repeat split; try done.
    by destruct (open_socket w).
  - cbn [UseRealTimeUpdates.call_teardown_times].
    unfold UseRealTimeUpdates.call_teardown.
    cbn [UseRealTimeUpdates.handles UseRealTimeUpdates.subscription
         UseRealTimeUpdates.call_handles].
    destruct (unsubscribe_spec sub w) as (Hsubs & Hopen & Hbus & Hsent).
    set (w0 := WebSocketManager.unsubscribe sub w) in *.
    rewrite (call_handle_spec "job_update" callback cbs w0) by (by rewrite Hbus).
    cbn [bind].
    set (w1 := with_bus _ w0).
    destruct (IH (List.filter (fun cb => negb (Nat.eqb cb callback)) cbs) w1)
      as (w2 & Hrun & Hev2 & Hsubs2 & Hopen2 & Hsent2).
    { subst w1. cbn. apply lookup_insert_eq. }
    exists w2. split; [exact Hrun |].
    change (open_socket w1) with (open_socket w0) in *.
    change (subscriptions (wsManager w1)) with (subscriptions (wsManager w0)) in *.
    change (wire (browser w1)) with (wire (browser w0)) in *.
    change (messageQueue (wsManager w1)) with (messageQueue (wsManager w0)) in *.
    split.
    { rewrite Hev2. destruct n; [done |]. by rewrite filter_twice. }
    split.
    { rewrite Hsubs2, Hsubs. destruct n; [done |].
      unfold set_delete. by rewrite filter_twice. }
    split; [congruence |].
    rewrite Hopen in Hsent2.
    destruct (open_socket w) as [k|]; destruct Hsent as [Ha Hb], Hsent2 as [Hc Hd];
      cbn [replicate]; rewrite Hc, Hd, Ha, Hb, <- ?app_assoc; done.
Qed.

(** C3 (as the code has it). [subscribeToJobUpdates] returns; calling the
    function it returns any number of times in a row returns every time;
    after the first call the subscription object is out of the set and the
    callback is out of the callbacks of [job_update]; and every call hands
    one unsubscribe message to [send], so [n] calls put [n] of them on the
    channel when it is open, at the end of the queue when it is not. *)
Theorem teardown_sends_each_time (jobId : jsval) (callback : cbid) (w : world U) :
  exists t w1,
    UseRealTimeUpdates.subscribeToJobUpdates jobId callback w = Ok t w1 /\
    forall n,
      exists w2,
        call_teardown_times n t w1 = Ok tt w2 /\
        (0 < n ->
         set_has (UseRealTimeUpdates.subscription t) (subscriptions (wsManager w2)) = false /\
         (callback ∉ Props.registered "job_update" w2)) /\
        match open_socket w1 with
        | Some k =>
            wire (browser w2) =
              wire (browser w1) ++
                replicate n (k, Props.unsubscribe_message (UseRealTimeUpdates.subscription t)) /\
            messageQueue (wsManager w2) = messageQueue (wsManager w1)
        | None =>
            messageQueue (wsManager w2) =
              messageQueue (wsManager w1) ++
                replicate n (Props.unsubscribe_message (UseRealTimeUpdates.subscription t)) /\
            wire (browser w2) = wire (browser w1)
        end.
Proof.
  clear behave.
  unfold UseRealTimeUpdates.subscribeToJobUpdates, UseRealTimeUpdates.fresh.
  cbv zeta. rewrite on_returns by reflexivity. cbn [bind].
  eexists _, _. split; [reflexivity |].
  intros n.
  match goal with |- context [call_teardown_times n ?t ?w1] =>
    destruct (teardown_times_spec (UseRealTimeUpdates.subscription t) callback n
                (Props.registered "job_update" w1) w1)
      as (w2 & Hrun & Hev & Hsubs & Hopen & Hsent)
  end.
  { cbn. rewrite lookup_insert_eq. unfold Props.registered at 2. cbn.
    by rewrite lookup_insert_eq. }
  exists w2. split; [exact Hrun |]. split; [| exact Hsent].
  intros Hn. destruct n as [|n]; [lia |]. split.
  - rewrite Hsubs. apply set_delete_has.
  - unfold Props.registered at 1. rewrite Hev. cbn [default from_option id].
    rewrite list_elem_of_In, filter_In, negb_true_iff, Nat.eqb_neq. tauto.
Qed.

End HookProperties.

(** ** Polling *)

Section PollingProperties.
Context {U : Type} (behave : cbid -> jsval -> U -> U * bool).



End PollingProperties.

(** ** Invariants of the page *)

Section Invariants.
Context {U : Type} (behave : cbid -> jsval -> U -> U * bool).

Lemma send_subscriptions (message : jsval) (w : world U) :
  subscriptions (wsManager (WebSocketManager.send message w)) =
  subscriptions (wsManager w).
Proof. unfold WebSocketManager.send. by destruct (WebSocketManager.open_socket w). Qed.

Lemma drain_subscriptions (fuel : nat) (w w' : world U) :
  WebSocketManager.drain fuel w = Ok tt w' ->
  subscriptions (wsManager w') = subscriptions (wsManager w).
Proof.
  revert w. induction fuel as [|fuel IH]; intros w; cbn [WebSocketManager.drain];
    destruct (messageQueue (wsManager w)) as [|message rest];
    try discriminate; try (by intros [= <-]).
  intros Hd. apply IH in Hd. by rewrite Hd, send_subscriptions.
Qed.

Lemma replay_subscriptions (w : world U) :
  subscriptions (wsManager (WebSocketManager.replay w)) = subscriptions (wsManager w).
Proof.
  unfold WebSocketManager.replay.
  generalize (subscriptions (wsManager w)) at 1 as l.
  intros l. revert w. induction l as [|x l IH]; intros w; cbn [fold_left]; [done |].
  by rewrite IH, send_subscriptions.
Qed.

(** When [ws.onopen] returns, the set is as it was and the counter is zero. *)
Lemma onopen_inv (userId : jsval) (w w' : world U) :
  WebSocketManager.onopen behave userId w = Ok tt w' ->
  subscriptions (wsManager w') = subscriptions (wsManager w) /\
  reconnectAttempts (wsManager w') = 0%Z.
Proof.
  unfold WebSocketManager.onopen.
  set (w1 := with_manager _ w).
  set (w2 := if truthy userId then _ else w1).
  assert (Hs2 : subscriptions (wsManager w2) = subscriptions (wsManager w)).
  { subst w2. destruct (truthy userId); [by rewrite send_subscriptions | done]. }
  assert (Hn2 : reconnectAttempts (wsManager w2) = 0%Z).
  { subst w2. destruct (truthy userId); [by rewrite send_counter | done]. }
  destruct (WebSocketManager.drain _ w2) as [[] w3| |] eqn:Hd; cbn [bind];
    try discriminate.
  pose proof (drain_subscriptions _ _ _ Hd) as Hs3.
  assert (Hn3 : reconnectAttempts (wsManager w3) = 0%Z).
  { clear Hs3. revert Hd. generalize (length (messageQueue (wsManager w2))) as fuel.
    intros fuel. revert Hn2. generalize w2 as v. clear.
    induction fuel as [|fuel IH]; intros v Hv; cbn [WebSocketManager.drain];
      destruct (messageQueue (wsManager v)) as [|message rest];
      try discriminate; try (by intros [= <-]).
    apply IH. by rewrite send_counter. }
  intros He.
  pose proof (emit_inv behave "websocket_connected" JUndef (WebSocketManager.replay w3))
    as Hf.
  rewrite He in Hf. destruct Hf as (Hm & _). rewrite Hm.
  split.
  - by rewrite replay_subscriptions, Hs3, Hs2.
  - unfold WebSocketManager.replay.
    generalize (subscriptions (wsManager w3)) at 1 as l. revert Hn3.
    generalize w3 as v. clear. intros v Hv l. revert v Hv.
    induction l as [|x l IH]; intros v Hv; cbn [fold_left]; [done |].
    apply IH. by rewrite send_counter.
Qed.

Lemma set_delete_NoDup (o : jsobj) (s : list jsobj) :
  NoDup (addr <$> s) -> NoDup (addr <$> set_delete o s).
Proof.
  unfold set_delete. induction s as [|x s IH]; [done |].
  rewrite fmap_cons, NoDup_cons. intros [Hx Hs]. cbn.
  destruct (negb (Nat.eqb (addr x) (addr o))); [| by apply IH].
  rewrite fmap_cons, NoDup_cons. split; [| by apply IH].
  intros Hin. apply Hx. apply list_elem_of_fmap in Hin as (y & -> & Hy).
  apply list_elem_of_fmap. exists y. split; [done |].
  apply list_elem_of_In in Hy. apply filter_In in Hy as [Hy _].
  by apply list_elem_of_In.
Qed.

Lemma connect_subscriptions (userId : jsval) (created : bool) (w : world U) :
  subscriptions (wsManager (WebSocketManager.connect userId created w)) =
  subscriptions (wsManager w).
Proof.
  unfold WebSocketManager.connect.
  destruct (isConnecting (wsManager w) || _); [done |]. by destruct created.
Qed.

Lemma init_well_formed (u : U) : Props.well_formed (Page.init u).
Proof.
  split; [apply NoDup_nil_2 |]. cbn. unfold WebSocketManager.maxReconnectAttempts. lia.
Qed.

(** Every step keeps the page well formed. *)
Lemma step_well_formed (l : Page.label) (w w' : world U) :
  Props.well_formed w ->
  Page.step behave l w = Some (Ok tt w') ->
  Props.well_formed w'.
Proof.
  intros [Hset Hcount] Hstep.
  assert (Hmax : WebSocketManager.maxReconnectAttempts = 5%Z) by reflexivity.
  destruct (Props.no_open_no_disconnect l) eqn:Hl.
  - split.
    + destruct l; cbn [Page.step] in Hstep; try discriminate Hl.
      * injection Hstep as <-. by rewrite connect_subscriptions.
      * injection Hstep as <-. by rewrite send_subscriptions.
      * injection Hstep as <-. rewrite subscribe_subscriptions. by apply set_add_NoDup.
      * injection Hstep as <-. unfold WebSocketManager.unsubscribe.
        rewrite send_subscriptions. by apply set_delete_NoDup.
      * destruct (sockets (browser w) !! k) as [s|]; [| discriminate].
        destruct (readyState s); try discriminate.
        destruct (onmessage_inv behave parsed w) as (w1 & He & Hf & _).
        rewrite He in Hstep. injection Hstep as <-. by rewrite Hf.
      * destruct (sockets (browser w) !! k) as [s|]; [| discriminate].
        destruct (readyState s); try discriminate; by injection Hstep as <-.
      * destruct (sockets (browser w) !! k) as [s|]; [| discriminate].
        set (w0 := Page.set_readyState k CLOSED w) in *.
        destruct (Z.lt_ge_cases (reconnectAttempts (wsManager w0))
                    WebSocketManager.maxReconnectAttempts) as [Hlt|Hge].
        -- destruct (onclose_retry behave (sock_user s) w0 Hlt)
             as (w1 & He & _ & _ & _ & _ & _ & _ & Hs & _).
           rewrite He in Hstep.
           destruct (readyState s); try discriminate; injection Hstep as <-;
             by rewrite Hs.
        -- destruct (onclose_terminal behave (sock_user s) w0 Hge)
             as (w1 & He & _ & _ & _ & _ & _ & _ & Hs & _).
           rewrite He in Hstep.
           destruct (readyState s); try discriminate; injection Hstep as <-;
             by rewrite Hs.
      * destruct (timers (browser w) !! i) as [t|]; [| discriminate].
        injection Hstep as <-. by rewrite connect_subscriptions.
      * injection Hstep as <-. unfold UseRealTimeUpdates.startMessagePolling.
        by destruct (messagePollingRef (refs w)).
      * injection Hstep as <-. unfold UseRealTimeUpdates.stopMessagePolling.
        by destruct (messagePollingRef (refs w)).
      * destruct (existsb _ _); [| discriminate].
        destruct (poll_tick_inv behave outcome w) as (w1 & He & Hf & _).
        rewrite He in Hstep. injection Hstep as <-. by rewrite Hf.
    + destruct (step_counter behave l w w' Hl Hstep) as [Heq|[Hlt Heq]]; lia.
  - destruct l; try discriminate Hl; cbn [Page.step] in Hstep.
    + injection Hstep as <-.
      destruct (disconnect_hard_reset w) as (_ & Hs & _ & Hn & _).
      split; [rewrite Hs; apply NoDup_nil_2 | rewrite Hn; lia].
    + destruct (sockets (browser w) !! k) as [s|]; [| discriminate].
      destruct (readyState s); try discriminate.
      injection Hstep as Hstep. apply onopen_inv in Hstep as [Hs Hn].
      split; [by rewrite Hs | rewrite Hn; lia].
Qed.

(** So does every run; in particular every world reached from [init] is
    well formed. *)
Lemma run_well_formed (ls : list Page.label) (w w' : world U) :
  Props.well_formed w -> Page.run behave ls w = Some w' -> Props.well_formed w'.
Proof.
  revert w. induction ls as [|l ls IH]; intros w Hw Hrun; cbn in Hrun.
  - by injection Hrun as <-.
  - destruct (Page.step behave l w) as [[[] w1|w1|]|] eqn:Hstep; try discriminate.
    eauto using step_well_formed.
Qed.

(** When the socket that opens is no longer the one the manager holds and
    something is to be sent, [ws.onopen] does not return: the loop over the
    queue puts back every message it takes. *)
Lemma onopen_stale_loops (userId : jsval) (w : world U) :
  WebSocketManager.open_socket w = None ->
  truthy userId = true \/ messageQueue (wsManager w) <> [] ->
  WebSocketManager.onopen behave userId w = Loops.
Proof.
  intros Hk Hq. unfold WebSocketManager.onopen.
  set (w1 := with_manager _ w).
  assert (Hk1 : WebSocketManager.open_socket w1 = None) by exact Hk.
  rewrite drain_closed_loops; [reflexivity | |].
  - destruct (truthy userId); [| exact Hk1]. by rewrite send_closed.
  - destruct (truthy userId).
    + rewrite send_closed by exact Hk1. cbn.
      by destruct (messageQueue (wsManager w)).
    + destruct Hq as [Hq|Hq]; [discriminate | exact Hq].
Qed.

End Invariants.

(** ** The properties on a concrete page *)

(** The subscription set compares references: two objects with the same
    fields are two entries, and a reconnect replays both. *)
Lemma equal_subscriptions_both_kept :
  props Scenario.sub_a = props Scenario.sub_b /\
  subscriptions
    (wsManager
       (WebSocketManager.subscribe Scenario.sub_b
          (WebSocketManager.subscribe Scenario.sub_a Scenario.init))) =
    [Scenario.sub_a; Scenario.sub_b] /\
  length
    (subscriptions
       (wsManager
          (WebSocketManager.subscribe Scenario.sub_b
             (WebSocketManager.subscribe Scenario.sub_a Scenario.init)))) <> 1 /\
  Scenario.sent_on 1 Scenario.resubscribed =
    [Scenario.auth Scenario.u1;
     JObj (Scenario.subscribe_job "j1"); JObj (Scenario.subscribe_job "j1")].
Proof. repeat split. vm_compute. discriminate. Qed.

Lemma subscribe_same_object_once_witness :
  NoDup (addr <$> subscriptions (wsManager Scenario.init)) /\
  subscriptions
    (wsManager
       (WebSocketManager.subscribe Scenario.sub_a
          (WebSocketManager.subscribe Scenario.sub_a Scenario.init))) =
    [Scenario.sub_a] /\
  length
    (Props.entries_of Scenario.sub_a
       (subscriptions
          (wsManager
             (WebSocketManager.subscribe Scenario.sub_a
                (WebSocketManager.subscribe Scenario.sub_a Scenario.init))))) = 1.
Proof.
  assert (H0 : NoDup (addr <$> subscriptions (wsManager Scenario.init)))
    by apply NoDup_nil_2.
  split; [exact H0 |].
  destruct (subscribe_same_object_once Scenario.sub_a Scenario.init H0)
    as (Hsame & _ & Hone & _).
  split; [reflexivity | exact Hone].
Defined.

Lemma disconnect_then_close_reconnects_witness :
  ws (wsManager Scenario.connected) = Some 0 /\
  sockets (browser Scenario.connected) !! 0 =
    Some {| readyState := OPEN; sock_user := Scenario.u1 |} /\
  exists w2 w3,
    Page.run Scenario.behave [Page.Disconnect; Page.SockClose 0] Scenario.connected =
      Some w2 /\
    timers (browser w2) = [{| delay := 1000; timer_user := Scenario.u1 |}] /\
    Page.step Scenario.behave (Page.TimerFire 0 true) w2 = Some (Ok tt w3) /\
    ws (wsManager w3) = Some 1 /\
    isConnecting (wsManager w3) = true.
Proof.
  split; [reflexivity |]. split; [reflexivity |].
  destruct (disconnect_then_close_reconnects Scenario.behave 0
              {| readyState := OPEN; sock_user := Scenario.u1 |} Scenario.connected
              eq_refl eq_refl (or_intror eq_refl))
    as (w2 & w3 & Hrun & Ht & _ & _ & Hfire & Hws & Hic & _).
  exists w2, w3. repeat split; assumption.
Defined.

(** Calling the returned function twice on an open channel transmits two
    unsubscribe messages. *)
Lemma teardown_twice_sends_twice :
  exists t w1 w2,
    UseRealTimeUpdates.subscribeToJobUpdates (JStr "j1") 1 Scenario.connected =
      Ok t w1 /\
    UseRealTimeUpdates.call_teardown_times 2 t w1 = Ok tt w2 /\
    List.filter Scenario.is_unsubscribe (Scenario.sent_on 0 w1) = [] /\
    List.filter Scenario.is_unsubscribe (Scenario.sent_on 0 w2) =
      [JObj (Scenario.subscribe_job "j1" ++ [("action", JStr "unsubscribe")]);
       JObj (Scenario.subscribe_job "j1" ++ [("action", JStr "unsubscribe")])] /\
    length (List.filter Scenario.is_unsubscribe (Scenario.sent_on 0 w2)) <> 1.
Proof.
  eexists _, _, _. split; [vm_compute; reflexivity |].
  split; [vm_compute; reflexivity |].
  split; [vm_compute; reflexivity |].
  split; [vm_compute; reflexivity |].
  vm_compute. discriminate.
Qed.

Lemma teardown_sends_each_time_witness :
  exists t w1 w2,
    UseRealTimeUpdates.subscribeToJobUpdates (JStr "j1") 1 Scenario.connected =
      Ok t w1 /\
    UseRealTimeUpdates.call_teardown_times 2 t w1 = Ok tt w2 /\
    set_has (UseRealTimeUpdates.subscription t) (subscriptions (wsManager w2)) = false /\
    (1 ∉ Props.registered "job_update" w2) /\
    wire (browser w2) =
      wire (browser w1) ++
        replicate 2 (0, Props.unsubscribe_message (UseRealTimeUpdates.subscription t)).
Proof.
  destruct (teardown_sends_each_time (JStr "j1") 1 Scenario.connected)
    as (t & w1 & Hsub & Hcalls).
  destruct (Hcalls 2) as (w2 & Hrun & Hgone & Hsent).
  destruct (Hgone ltac:(lia)) as [Hset Hcb].
  assert (Hopen : WebSocketManager.open_socket w1 = Some 0).
  { injection Hsub as _ <-. reflexivity. }
  rewrite Hopen in Hsent. destruct Hsent as [Hwire _].
  exists t, w1, w2. repeat split; assumption.
Defined.

Lemma backoff_sequence_witness :
  reconnectAttempts (wsManager Scenario.init) = 0%Z /\
  exists w5 w6,
    Props.closes Scenario.behave
      [Scenario.u1; Scenario.u1; Scenario.u1; Scenario.u1; Scenario.u1]
      Scenario.init = Ok tt w5 /\
    map delay (timers (browser w5)) = [1000; 2000; 4000; 8000; 16000]%Z /\
    WebSocketManager.onclose Scenario.behave Scenario.u1 w5 = Ok tt w6 /\
    timers (browser w6) = timers (browser w5) /\
    published (eventEmitter w6) = [("websocket_disconnected", JUndef)].
Proof.
  split; [reflexivity |].
  destruct (backoff_sequence Scenario.behave Scenario.u1 Scenario.u1 Scenario.u1
              Scenario.u1 Scenario.u1 Scenario.u1 Scenario.init eq_refl)
    as (w5 & w6 & Hc & Ht & Hp & _ & Hc6 & Ht6 & Hp6 & _).
  exists w5, w6. split; [exact Hc |].
  split; [rewrite Ht; reflexivity |].
  split; [exact Hc6 |]. split; [exact Ht6 |].
  rewrite Hp6, Hp. reflexivity.
Defined.

(** The same on whole runs: a first attempt and [n] retries that all fail
    leave pending the timeout of the n-th delay, and nothing after the
    fifth retry, when [websocket_disconnected] has been published. *)
Example retry_delays :
  map (fun n => map delay (timers (browser (Scenario.after (Scenario.failed_attempts n)))))
      [0; 1; 2; 3; 4; 5] =
    [[1000]; [2000]; [4000]; [8000]; [16000]; []]%Z /\
  published (eventEmitter Scenario.given_up) = [("websocket_disconnected", JUndef)].
Proof. split; vm_compute; reflexivity. Qed.


Lemma new_message_is_unwrapped_witness :
  own "type" Scenario.envelope = Some (JStr "new_message") /\
  own "message" Scenario.envelope = Some Scenario.m1 /\
  exists w',
    WebSocketManager.onmessage Scenario.behave (Some (JObj Scenario.envelope))
      Scenario.listening = Ok tt w' /\
    published (eventEmitter w') =
      [("new_message", JObj Scenario.envelope); ("new_message", Scenario.m1)] /\
    invoked (eventEmitter w') = [(3, JObj Scenario.envelope); (3, Scenario.m1)].
Proof.
  split; [reflexivity |]. split; [reflexivity |].
  destruct (new_message_is_unwrapped Scenario.behave Scenario.envelope Scenario.m1
              Scenario.listening eq_refl eq_refl)
    as (w' & Hm & Hp & Hi).
  exists w'. repeat split; assumption.
Defined.

Lemma handle_removes_callback_witness :
  EventEmitter.on "job_update" 5 Scenario.listening =
    Ok ("job_update", 5) (Scenario.register Scenario.listening ("job_update", 5)) /\
  exists w2,
    EventEmitter.call_handle ("job_update", 5)
      (Scenario.register Scenario.listening ("job_update", 5)) = Ok tt w2 /\
    Props.registered "job_update"
      (Scenario.register Scenario.listening ("job_update", 5)) = [1; 7; 2; 5] /\
    Props.registered "job_update" w2 = [1; 7; 2] /\
    EventEmitter.call_handle ("job_update", 5) w2 = Ok tt w2.
Proof.
  assert (Hon : EventEmitter.on "job_update" 5 Scenario.listening =
                Ok ("job_update", 5)
                   (Scenario.register Scenario.listening ("job_update", 5)))
    by reflexivity.
  split; [exact Hon |].
  destruct (handle_removes_callback "job_update" 5 Scenario.listening _ _ Hon)
    as (w2 & Hcall & Hr1 & Hr2 & _ & _ & _ & _ & _ & _ & Hagain).
  exists w2. split; [exact Hcall |]. split; [reflexivity |].
  split; [rewrite Hr2; reflexivity | exact Hagain].
Defined.

(** A function registered twice under a name loses both registrations to
    either handle. *)
Example handle_removes_every_registration :
  exists w2,
    EventEmitter.call_handle ("job_update", 7)
      (Scenario.register Scenario.listening ("job_update", 7)) = Ok tt w2 /\
    Props.registered "job_update"
      (Scenario.register Scenario.listening ("job_update", 7)) = [1; 7; 2; 7] /\
    Props.registered "job_update" w2 = [1; 2].
Proof. eexists. repeat split. Qed.

Lemma emit_isolates_failures_witness :
  events (eventEmitter Scenario.listening) !! "job_update" = Some [1; 7; 2] /\
  exists w' w'',
    EventEmitter.emit Scenario.behave "job_update" Scenario.m1 Scenario.listening =
      Ok tt w' /\
    invoked (eventEmitter w') = [(1, Scenario.m1); (7, Scenario.m1); (2, Scenario.m1)] /\
    console (browser w') = [ErrCallback 7] /\
    EventEmitter.emit Scenario.behave "payment_update" Scenario.m2 w' = Ok tt w'' /\
    invoked (eventEmitter w'') = invoked (eventEmitter w') ++ [(4, Scenario.m2)].
Proof.
  split; [reflexivity |].
  destruct (emit_isolates_failures Scenario.behave "job_update" Scenario.m1 [1; 7; 2]
              Scenario.listening eq_refl)
    as (w' & He & Hi & Hc & Hnext).
  destruct (Hnext "payment_update" Scenario.m2 eq_refl) as (w'' & He2 & Hi2).
  exists w', w''. repeat split; assumption.
Defined.


Lemma fresh_connect_gets_no_retry_witness :
  reconnectAttempts (wsManager Scenario.given_up) = 5%Z /\
  Page.run Scenario.behave [Page.Connect Scenario.u1 true] Scenario.given_up =
    Some Scenario.fresh_attempt /\
  exists w2,
    Page.step Scenario.behave (Page.SockClose 6) Scenario.fresh_attempt =
      Some (Ok tt w2) /\
    reconnectAttempts (wsManager w2) = 5%Z /\
    published (eventEmitter w2) =
      published (eventEmitter Scenario.fresh_attempt) ++
        [("websocket_disconnected", JUndef)] /\
    timers (browser w2) = [].
Proof.
  assert (Hrun : Page.run Scenario.behave [Page.Connect Scenario.u1 true]
                   Scenario.given_up = Some Scenario.fresh_attempt)
    by (vm_compute; reflexivity).
  split; [reflexivity |]. split; [exact Hrun |].
  destruct (fresh_connect_gets_no_retry Scenario.behave
              [Page.Connect Scenario.u1 true] 6 Scenario.given_up
              Scenario.fresh_attempt
              (WebSocketManager.onclose Scenario.behave Scenario.u1
                 (Page.set_readyState 6 CLOSED Scenario.fresh_attempt))
              eq_refl Hrun)
    as (_ & Hterminal).
  destruct (Hterminal eq_refl eq_refl) as (_ & w2 & Hr & Hn & Hp & Ht).
  exists w2. split; [rewrite <- Hr; reflexivity |].
  repeat split; assumption.
Defined.

(** ** What the handlers leave alone *)

Section FrameProperties.
Context {U : Type} (behave : cbid -> jsval -> U -> U * bool).

Lemma traffic_only_refl (w : world U) : Frames.traffic_only w w.
Proof. repeat split. Qed.

Lemma traffic_only_trans (w1 w2 w3 : world U) :
  Frames.traffic_only w1 w2 -> Frames.traffic_only w2 w3 -> Frames.traffic_only w1 w3.
Proof.
  unfold Frames.traffic_only. intros H12 H23.
  destruct H12 as (?&?&?&?&?&?&?&?&?&?&?&?), H23 as (?&?&?&?&?&?&?&?&?&?&?&?).
  repeat split; congruence.
Qed.

Lemma send_traffic_only (message : jsval) (w : world U) :
  Frames.traffic_only w (WebSocketManager.send message w).
Proof.
  unfold WebSocketManager.send.
  destruct (WebSocketManager.open_socket w); repeat split.
Qed.

Lemma traffic_only_open_socket (w w' : world U) :
  Frames.traffic_only w w' ->
  WebSocketManager.open_socket w' = WebSocketManager.open_socket w.
Proof.
  intros (_ & _ & Hws & _ & _ & _ & Hs & _).
  unfold WebSocketManager.open_socket. by rewrite Hws, Hs.
Qed.

Lemma drain_traffic_only (fuel : nat) (w w' : world U) :
  WebSocketManager.drain fuel w = Ok tt w' -> Frames.traffic_only w w'.
Proof.
  revert w. induction fuel as [|fuel IH]; intros w; cbn [WebSocketManager.drain];
    destruct (messageQueue (wsManager w)) as [|message rest];
    try discriminate; try (intros [= <-]; apply traffic_only_refl).
  intros Hd. apply IH in Hd.
  eapply traffic_only_trans; [| exact Hd].
  eapply traffic_only_trans; [| apply send_traffic_only]. repeat split.
Qed.

Lemma send_each_traffic_only {A : Type} (f : A -> jsval) (l : list A) (w : world U) :
  Frames.traffic_only w (fold_left (fun w' x => WebSocketManager.send (f x) w') l w).
Proof.
  revert w. induction l as [|x l IH]; intros w; cbn [fold_left].
  - apply traffic_only_refl.
  - eapply traffic_only_trans; [apply send_traffic_only | apply IH].
Qed.

(** When [ws.onopen] returns it has changed, besides the wire, the queue,
    the counter and the connecting flag, only what publishing changes. *)
Lemma onopen_frame (userId : jsval) (w w' : world U) :
  WebSocketManager.onopen behave userId w = Ok tt w' ->
  refs w' = refs w /\
  events (eventEmitter w') = events (eventEmitter w) /\
  ws (wsManager w') = ws (wsManager w) /\
  subscriptions (wsManager w') = subscriptions (wsManager w) /\
  reconnectAttempts (wsManager w') = 0%Z /\
  isConnecting (wsManager w') = false /\
  sockets (browser w') = sockets (browser w) /\
  timers (browser w') = timers (browser w) /\
  intervals (browser w') = intervals (browser w).
Proof.
  unfold WebSocketManager.onopen.
  set (w1 := with_manager _ w).
  set (w2 := if truthy userId then _ else w1).
  assert (H2 : Frames.traffic_only w1 w2).
  { subst w2. destruct (truthy userId);
      [apply send_traffic_only | apply traffic_only_refl]. }
  destruct (WebSocketManager.drain _ w2) as [[] w3| |] eqn:Hd; cbn [bind];
    try discriminate.
  apply drain_traffic_only in Hd.
  pose proof (send_each_traffic_only obj_val (subscriptions (wsManager w3)) w3) as H4.
  fold (WebSocketManager.replay w3) in H4.
  intros He.
  pose proof (emit_inv behave "websocket_connected" JUndef (WebSocketManager.replay w3))
    as Hf.
  rewrite He in Hf.
  pose proof (traffic_only_trans _ _ _ (traffic_only_trans _ _ _ H2 Hd) H4)
    as (Hb & Hr & Hws & Hn & Hic & Hsub & Hso & Hti & Hin & _).
  destruct Hf as (Hm & Hr' & Hev & Hso' & _ & Hti' & Hin' & _).
  rewrite Hm, Hr', Hev, Hso', Hti', Hin', Hr, Hws, Hn, Hic, Hsub, Hso, Hti, Hin, Hb.
  repeat split.
Qed.

(** When [ws.onclose] returns it has, besides its own writes to the manager
    and the timeout, only published. *)
Lemma onclose_frame (userId : jsval) (w w' : world U) :
  WebSocketManager.onclose behave userId w = Ok tt w' ->
  refs w' = refs w /\
  events (eventEmitter w') = events (eventEmitter w) /\
  ws (wsManager w') = None /\
  messageQueue (wsManager w') = messageQueue (wsManager w) /\
  subscriptions (wsManager w') = subscriptions (wsManager w) /\
  sockets (browser w') = sockets (browser w) /\
  wire (browser w') = wire (browser w) /\
  intervals (browser w') = intervals (browser w).
Proof.
  unfold WebSocketManager.onclose.
  destruct (_ <? _)%Z.
  - intros [= <-]. repeat split.
  - intros He.
    match type of He with EventEmitter.emit behave ?e ?d ?w0 = _ =>
      pose proof (emit_inv behave e d w0) as Hf end.
    rewrite He in Hf. destruct Hf as (Hm & Hr & Hev & Hso & Hwi & _ & Hin & _).
    rewrite Hm, Hr, Hev, Hso, Hwi, Hin. repeat split.
Qed.

Lemma connect_frame (userId : jsval) (created : bool) (w : world U) :
  let w' := WebSocketManager.connect userId created w in
  refs w' = refs w /\ eventEmitter w' = eventEmitter w /\
  messageQueue (wsManager w') = messageQueue (wsManager w) /\
  subscriptions (wsManager w') = subscriptions (wsManager w) /\
  wire (browser w') = wire (browser w) /\
  timers (browser w') = timers (browser w) /\
  intervals (browser w') = intervals (browser w).
Proof.
  unfold WebSocketManager.connect.
  destruct (isConnecting (wsManager w) || _); [repeat split |].
  destruct created; repeat split.
Qed.

End FrameProperties.

(** ** One polling interval *)

Section PollingInvariant.
Context {U : Type} (behave : cbid -> jsval -> U -> U * bool).

(** Only the two polling helpers touch the intervals, the refs and the
    counter of interval ids. *)
Lemma step_hook_same (l : Page.label) (w w' : world U) :
  Frames.no_polling_call l = true ->
  Page.step behave l w = Some (Ok tt w') ->
  intervals (browser w') = intervals (browser w) /\
  refs w' = refs w /\
  next_interval (browser w') = next_interval (browser w).
Proof.
  destruct l; cbn [Frames.no_polling_call Page.step]; try discriminate; intros _.
  - intros [= <-]. unfold WebSocketManager.connect.
    destruct (isConnecting (wsManager w) || _); [done |]. by destruct created.
  - intros [= <-]. unfold WebSocketManager.disconnect.
    by destruct (ws (wsManager w)).
  - intros [= <-]. by destruct (send_traffic_only message w) as (_&?&_&_&_&_&_&_&?&_&?&_).
  - intros [= <-]. unfold WebSocketManager.subscribe.
    match goal with |- context [WebSocketManager.send ?m ?w0] =>
      by destruct (send_traffic_only m w0) as (_&->&_&_&_&_&_&_&->&_&->&_) end.
  - intros [= <-]. unfold WebSocketManager.unsubscribe.
    match goal with |- context [WebSocketManager.send ?m ?w0] =>
      by destruct (send_traffic_only m w0) as (_&->&_&_&_&_&_&_&->&_&->&_) end.
  - destruct (sockets (browser w) !! k) as [s|]; [| discriminate].
    destruct (readyState s); try discriminate.
    unfold WebSocketManager.onopen.
    set (w1 := with_manager _ _). set (w2 := if truthy (sock_user s) then _ else w1).
    assert (H2 : Frames.traffic_only w1 w2).
    { subst w2. destruct (truthy (sock_user s));
        [apply send_traffic_only | apply traffic_only_refl]. }
    destruct (WebSocketManager.drain _ w2) as [[] w3| |] eqn:Hd; cbn [bind];
      try discriminate.
    apply drain_traffic_only in Hd.
    pose proof (send_each_traffic_only obj_val (subscriptions (wsManager w3)) w3) as H4.
    fold (WebSocketManager.replay w3) in H4.
    intros [= He].
    pose proof (emit_inv behave "websocket_connected" JUndef (WebSocketManager.replay w3))
      as Hf.
    rewrite He in Hf.
    pose proof (traffic_only_trans _ _ _ (traffic_only_trans _ _ _ H2 Hd) H4)
      as (_ & Hr & _ & _ & _ & _ & _ & _ & Hin & _ & Hni & _).
    destruct Hf as (_ & Hr' & _ & _ & _ & _ & Hin' & Hni' & _).
    by rewrite Hr', Hin', Hni', Hr, Hin, Hni.
  - destruct (sockets (browser w) !! k) as [s|]; [| discriminate].
    destruct (readyState s); try discriminate.
    destruct (onmessage_inv behave parsed w) as (w1 & -> & _ & Hr & _ & _ & _ & _ & Hin & Hni & _).
    by intros [= <-].
  - destruct (sockets (browser w) !! k) as [s|]; [| discriminate].
    destruct (readyState s); try discriminate; by intros [= <-].
  - destruct (sockets (browser w) !! k) as [s|]; [| discriminate].
    assert (Hgo : forall w0 : world U,
               intervals (browser w0) = intervals (browser w) ->
               refs w0 = refs w ->
               next_interval (browser w0) = next_interval (browser w) ->
               WebSocketManager.onclose behave (sock_user s) w0 = Ok tt w' ->
               intervals (browser w') = intervals (browser w) /\ refs w' = refs w /\
               next_interval (browser w') = next_interval (browser w)).
    { intros w0 Hi Hr Hn. unfold WebSocketManager.onclose.
      destruct (_ <? _)%Z.
      - intros [= <-]. done.
      - intros He.
        match type of He with EventEmitter.emit behave ?e ?d ?v = _ =>
          pose proof (emit_inv behave e d v) as Hf end.
        rewrite He in Hf. destruct Hf as (_ & Hr' & _ & _ & _ & _ & Hin' & Hni' & _).
        by rewrite Hr', Hin', Hni'. }
    destruct (readyState s); try discriminate; intros [= He];
      by apply (Hgo (Page.set_readyState k CLOSED w)).
  - destruct (timers (browser w) !! i) as [t|]; [| discriminate].
    intros [= <-]. unfold WebSocketManager.connect.
    destruct (isConnecting _ || _); [done |]. by destruct created.
  - destruct (existsb _ _); [| discriminate].
    destruct (poll_tick_inv behave outcome w) as (w1 & -> & _ & Hr & _ & _ & _ & _ & Hin & Hni & _).
    by intros [= <-].
Qed.

Lemma startMessagePolling_ok (jobId recipientId : jsval) (w : world U) :
  Frames.polling_ok w ->
  let w' := UseRealTimeUpdates.startMessagePolling jobId recipientId w in
  intervals (browser w') =
    [{| interval_id := next_interval (browser w); period := 5000;
        poll_job := jobId; poll_recipient := recipientId |}] /\
  messagePollingRef (refs w') = Some (next_interval (browser w)) /\
  currentConversationRef (refs w') = Some (jobId, recipientId) /\
  next_interval (browser w') = S (next_interval (browser w)).
Proof.
  intros [Hfresh Hone]. unfold UseRealTimeUpdates.startMessagePolling.
  destruct (messagePollingRef (refs w)) as [old|] eqn:Href; cbn.
  - destruct (intervals (browser w)) as [|i [|i' rest]]; [done | | done].
    destruct Hone as [[= ->] _]. cbn. by rewrite Nat.eqb_refl.
  - destruct (intervals (browser w)) as [|i [|i' rest]]; [done | | done].
    by destruct Hone as [? _].
Qed.

Lemma stopMessagePolling_ok (w : world U) :
  Frames.polling_ok w ->
  let w' := UseRealTimeUpdates.stopMessagePolling w in
  intervals (browser w') = [] /\
  messagePollingRef (refs w') = None /\
  currentConversationRef (refs w') = None /\
  next_interval (browser w') = next_interval (browser w).
Proof.
  intros [Hfresh Hone]. unfold UseRealTimeUpdates.stopMessagePolling.
  destruct (messagePollingRef (refs w)) as [old|] eqn:Href; cbn.
  - destruct (intervals (browser w)) as [|i [|i' rest]]; [done | | done].
    destruct Hone as [[= ->] _]. cbn. by rewrite Nat.eqb_refl.
  - destruct (intervals (browser w)) as [|i [|i' rest]]; [done | | done].
    by destruct Hone as [? _].
Qed.

Lemma step_polling_ok (l : Page.label) (w w' : world U) :
  Frames.polling_ok w ->
  Page.step behave l w = Some (Ok tt w') ->
  Frames.polling_ok w'.
Proof.
  intros Hok Hstep. destruct (Frames.no_polling_call l) eqn:Hl.
  - destruct (step_hook_same l w w' Hl Hstep) as (Hi & Hr & Hn).
    unfold Frames.polling_ok. by rewrite Hi, Hr, Hn.
  - destruct l; try discriminate Hl; cbn [Page.step] in Hstep; injection Hstep as <-.
    + destruct (startMessagePolling_ok jobId recipientId w Hok) as (Hi & Hr & _ & Hn).
      unfold Frames.polling_ok. rewrite Hi, Hr, Hn. split; [| done].
      intros id [= <-]. lia.
    + destruct (stopMessagePolling_ok w Hok) as (Hi & Hr & _ & Hn).
      unfold Frames.polling_ok. rewrite Hi, Hr. done.
Qed.

(** X1. In every world the page reaches from its initial one, at most one
    polling interval is running; it has a period of 5000 ms and is the one
    [messagePollingRef] holds. *)
Theorem at_most_one_polling_interval (u : U) (ls : list Page.label) (w : world U) :
  Page.run behave ls (Page.init u) = Some w ->
  Frames.polling_ok w.
Proof.
  assert (Hgen : forall v : world U,
             Frames.polling_ok v -> Page.run behave ls v = Some w -> Frames.polling_ok w).
  { induction ls as [|l ls IH]; intros v Hv Hrun; cbn in Hrun.
    - by injection Hrun as <-.
    - destruct (Page.step behave l v) as [[[] v1|v1|]|] eqn:Hstep; try discriminate.
      eauto using step_polling_ok. }
  apply Hgen. split; [intros id Hid; discriminate Hid | exact I].
Qed.

(** X2. Starting to poll while polling for another conversation stops the
    running interval first: afterwards exactly one interval runs, the new
    one for the new pair, the refs hold it and the pair, and no tick of the
    old interval can come any more. *)
Theorem restart_replaces_interval (jobId recipientId : jsval) (old : nat)
    (outcome : UseRealTimeUpdates.fetch_outcome) (w : world U) :
  Frames.polling_ok w ->
  messagePollingRef (refs w) = Some old ->
  let w' := UseRealTimeUpdates.startMessagePolling jobId recipientId w in
  intervals (browser w') =
    [{| interval_id := next_interval (browser w); period := 5000;
        poll_job := jobId; poll_recipient := recipientId |}] /\
  messagePollingRef (refs w') = Some (next_interval (browser w)) /\
  currentConversationRef (refs w') = Some (jobId, recipientId) /\
  Page.step behave (Page.Tick old outcome) w' = None.
Proof.
  intros Hok Hold.
  destruct (startMessagePolling_ok jobId recipientId w Hok) as (Hi & Hr & Hc & _).
  cbv zeta. repeat split; try assumption.
  cbn [Page.step]. rewrite Hi. cbn.
  destruct Hok as [Hfresh _]. specialize (Hfresh old Hold).
  destruct (Nat.eqb_spec (next_interval (browser w)) old) as [Heq|Hne]; [lia | done].
Qed.

(** X3. [stopMessagePolling] leaves no interval running and clears both
    refs: afterwards no tick can come, whatever its id, and stopping again
    changes nothing. *)
Theorem stop_cancels_ticks (id : nat) (outcome : UseRealTimeUpdates.fetch_outcome)
    (w : world U) :
  Frames.polling_ok w ->
  let w' := UseRealTimeUpdates.stopMessagePolling w in
  intervals (browser w') = [] /\
  messagePollingRef (refs w') = None /\
  currentConversationRef (refs w') = None /\
  Page.step behave (Page.Tick id outcome) w' = None /\
  UseRealTimeUpdates.stopMessagePolling w' = w'.
Proof.
  intros Hok. destruct (stopMessagePolling_ok w Hok) as (Hi & Hr & Hc & _).
  cbv zeta. repeat split; try assumption.
  - cbn [Page.step]. by rewrite Hi.
  - unfold UseRealTimeUpdates.stopMessagePolling at 1. rewrite Hr.
    unfold UseRealTimeUpdates.stopMessagePolling.
    by destruct (messagePollingRef (refs w)).
Qed.

(** X4. The cleanup run on unmount stops the polling interval: in a world
    the page can be in, no interval is left running after it, and nothing
    but the intervals has changed. *)
Theorem unmount_stops_polling (w : world U) :
  Frames.polling_ok w ->
  intervals (browser (Effects.unmount_cleanup w)) = [] /\
  refs (Effects.unmount_cleanup w) = refs w /\
  wsManager (Effects.unmount_cleanup w) = wsManager w /\
  eventEmitter (Effects.unmount_cleanup w) = eventEmitter w /\
  sockets (browser (Effects.unmount_cleanup w)) = sockets (browser w) /\
  timers (browser (Effects.unmount_cleanup w)) = timers (browser w).
Proof.
  intros [_ Hone]. unfold Effects.unmount_cleanup.
  destruct (messagePollingRef (refs w)) as [old|] eqn:Href; cbn.
  - destruct (intervals (browser w)) as [|i [|i' rest]]; [done | | done].
    destruct Hone as [[= ->] _]. cbn. by rewrite Nat.eqb_refl.
  - destruct (intervals (browser w)) as [|i [|i' rest]]; [done | | done].
    by destruct Hone as [? _].
Qed.

End PollingInvariant.

(** ** The other incoming messages *)

Section DispatchProperties.
Context {U : Type} (behave : cbid -> jsval -> U -> U * bool).

Local Abbreviation onmessage := (WebSocketManager.onmessage behave).

(** [onmessage] on an object whose [type] is a string with a usable name,
    up to the [switch]. *)
Lemma dispatch_raw (fields : list (string * jsval)) (t : string) (w : world U) :
  own "type" fields = Some (JStr t) ->
  inherited t = false ->
  exists w1,
    EventEmitter.emit behave t (JObj fields) w = Ok tt w1 /\
    events (eventEmitter w1) = events (eventEmitter w) /\
    wsManager w1 = wsManager w /\
    published (eventEmitter w1) = published (eventEmitter w) ++ [(t, JObj fields)] /\
    invoked (eventEmitter w1) =
      invoked (eventEmitter w) ++ map (fun cb => (cb, JObj fields)) (Props.registered t w).
Proof.
  intros _ Hin.
  destruct (emit_returns behave t (JObj fields) w Hin)
    as (w1 & He & Hm & _ & Hev & Hp & Hi & _).
  exists w1. repeat split; assumption.
Qed.

(** X5. An incoming object whose [type] is [job_updated], [payment_updated],
    [escrow_released] or [transaction_updated] is published twice with the
    whole object as payload: under its own tag, then under [job_update],
    [payment_update], [escrow_released] or [transaction_update].  For
    [escrow_released] the two names are the same, so its listeners are
    called twice for one message. *)
Theorem envelope_events (fields : list (string * jsval)) (t d : string) (w : world U) :
  (t, d) ∈ Frames.derived_names ->
  own "type" fields = Some (JStr t) ->
  exists w',
    onmessage (Some (JObj fields)) w = Ok tt w' /\
    published (eventEmitter w') =
      published (eventEmitter w) ++ [(t, JObj fields); (d, JObj fields)] /\
    invoked (eventEmitter w') =
      invoked (eventEmitter w) ++
        map (fun cb => (cb, JObj fields)) (Props.registered t w) ++
        map (fun cb => (cb, JObj fields)) (Props.registered d w) /\
    wsManager w' = wsManager w.
Proof.
  intros Htd Htype.
  assert (Hin : inherited t = false /\ inherited d = false).
  { unfold Frames.derived_names in Htd.
    repeat (apply elem_of_cons in Htd as [[= -> ->]|Htd]; [done |]).
    by apply elem_of_nil in Htd. }
  destruct Hin as [Hint Hind].
  destruct (dispatch_raw fields t w Htype Hint) as (w1 & He1 & Hev1 & Hm1 & Hp1 & Hi1).
  destruct (emit_returns behave d (JObj fields) w1 Hind)
    as (w2 & He2 & Hm2 & _ & _ & Hp2 & Hi2 & _).
  exists w2. split.
  - unfold WebSocketManager.onmessage, WebSocketManager.dispatch, get.
    rewrite Htype. cbn [default from_option id to_property_key].
    rewrite He1. cbn [bind].
    unfold Frames.derived_names in Htd.
    repeat (apply elem_of_cons in Htd as [[= -> ->]|Htd];
            [cbn -[EventEmitter.emit]; by rewrite He2 |]).
    by apply elem_of_nil in Htd.
  - rewrite Hp2, Hp1, Hi2, Hi1, Hm2, Hm1, <- !app_assoc.
    unfold Props.registered. rewrite Hev1. done.
Qed.

(** X6. An incoming object whose [type] is a string that is none of the
    five known tags, and no name inherited from [Object.prototype], is
    published once, under that tag, with the whole object as payload;
    nothing is written to the console for it and the manager is left as it
    was. *)
Theorem unknown_tag_raw_only (fields : list (string * jsval)) (t : string)
    (w : world U) :
  own "type" fields = Some (JStr t) ->
  t ∉ Frames.known_tags ->
  inherited t = false ->
  exists w',
    onmessage (Some (JObj fields)) w = Ok tt w' /\
    published (eventEmitter w') = published (eventEmitter w) ++ [(t, JObj fields)] /\
    invoked (eventEmitter w') =
      invoked (eventEmitter w) ++ map (fun cb => (cb, JObj fields)) (Props.registered t w) /\
    wsManager w' = wsManager w.
Proof.
  intros Htype Hunknown Hin.
  destruct (dispatch_raw fields t w Htype Hin) as (w1 & He1 & _ & Hm1 & Hp1 & Hi1).
  exists w1. split; [| by repeat split].
  unfold WebSocketManager.onmessage, WebSocketManager.dispatch, get.
  rewrite Htype. cbn [default from_option id to_property_key].
  rewrite He1. cbn [bind].
  unfold Frames.known_tags in Hunknown.
  repeat (let Hne := fresh "Hne" in
          apply not_elem_of_cons in Hunknown as [Hne Hunknown];
          apply String.eqb_neq in Hne; rewrite Hne).
  reflexivity.
Qed.

(** X7. An incoming object without a [type] field is published once, under
    the name [undefined], with the whole object as payload. *)
Theorem missing_type_published_as_undefined (fields : list (string * jsval))
    (w : world U) :
  own "type" fields = None ->
  exists w',
    onmessage (Some (JObj fields)) w = Ok tt w' /\
    published (eventEmitter w') =
      published (eventEmitter w) ++ [("undefined", JObj fields)] /\
    invoked (eventEmitter w') =
      invoked (eventEmitter w) ++
        map (fun cb => (cb, JObj fields)) (Props.registered "undefined" w) /\
    wsManager w' = wsManager w.
Proof.
  intros Htype.
  destruct (emit_returns behave "undefined" (JObj fields) w eq_refl)
    as (w1 & He & Hm & _ & _ & Hp & Hi & _).
  exists w1. split; [| by repeat split].
  unfold WebSocketManager.onmessage, WebSocketManager.dispatch, get.
  rewrite Htype. cbn [default from_option id to_property_key].
  by rewrite He.
Qed.

(** X8. A payload that [JSON.parse] rejects, and the payload [null], are
    dropped without harm to the channel: one line goes to the console,
    nothing is published, no callback is called, the manager, the sockets
    and the timeouts stay as they were, and the next message on the same
    socket is handled. *)
Theorem malformed_dropped (k : nat) (s : socket) (parsed next : option jsval)
    (w : world U) :
  sockets (browser w) !! k = Some s ->
  readyState s = OPEN ->
  parsed = None \/ parsed = Some JNull ->
  exists w' w'',
    Page.step behave (Page.SockMessage k parsed) w = Some (Ok tt w') /\
    published (eventEmitter w') = published (eventEmitter w) /\
    invoked (eventEmitter w') = invoked (eventEmitter w) /\
    console (browser w') = console (browser w) ++ [ErrParse] /\
    wsManager w' = wsManager w /\
    sockets (browser w') = sockets (browser w) /\
    timers (browser w') = timers (browser w) /\
    Page.step behave (Page.SockMessage k next) w' = Some (Ok tt w'').
Proof.
  intros Hs Hopen Hbad.
  destruct (onmessage_inv behave next (console_error ErrParse w)) as (w'' & Hnext & _).
  exists (console_error ErrParse w), w''.
  cbn [Page.step]. rewrite Hs, Hopen.
  change (sockets (browser (console_error ErrParse w))) with (sockets (browser w)).
  rewrite Hs, Hopen, Hnext.
  destruct Hbad as [-> | ->]; repeat split.
Qed.

(** X9. An incoming object whose [type] is a name inherited from
    [Object.prototype] ([constructor], [toString], ...) is dropped like a
    payload that does not parse, as long as nothing holds an entry under
    that name -- and nothing can register one: [emit] throws on it and the
    handler catches. *)
Theorem inherited_tag_dropped (fields : list (string * jsval)) (t : string)
    (callback : cbid) (w : world U) :
  own "type" fields = Some (JStr t) ->
  inherited t = true ->
  events (eventEmitter w) !! t = None ->
  onmessage (Some (JObj fields)) w = Ok tt (console_error ErrParse w) /\
  EventEmitter.on t callback w = Throw w.
Proof.
  intros Htype Hin Hnone. split.
  - unfold WebSocketManager.onmessage, WebSocketManager.dispatch, get.
    rewrite Htype. cbn [default from_option id to_property_key].
    unfold EventEmitter.emit. by rewrite Hnone, Hin.
  - unfold EventEmitter.on. by rewrite Hnone, Hin.
Qed.

End DispatchProperties.

(** ** More on the connection manager *)

Section MoreManagerProperties.
Context {U : Type} (behave : cbid -> jsval -> U -> U * bool).

Local Abbreviation connect := (@WebSocketManager.connect U).
Local Abbreviation open_socket := (@WebSocketManager.open_socket U).

Lemma lookup_snoc_socket (l : list socket) (s : socket) :
  (l ++ [s]) !! length l = Some s.
Proof. rewrite lookup_app_r by lia. by rewrite Nat.sub_diag. Qed.

(** A [connect] that builds a socket leaves the manager connecting, with
    no open channel. *)
Lemma connect_builds (userId : jsval) (w : world U) :
  isConnecting (wsManager w) = false ->
  open_socket w = None ->
  isConnecting (wsManager (connect userId true w)) = true /\
  ws (wsManager (connect userId true w)) = Some (length (sockets (browser w))) /\
  sockets (browser (connect userId true w)) =
    sockets (browser w) ++ [{| readyState := CONNECTING; sock_user := userId |}] /\
  open_socket (connect userId true w) = None.
Proof.
  intros Hic Hopen. unfold WebSocketManager.connect. rewrite Hic, Hopen. cbn.
  repeat split. unfold WebSocketManager.open_socket. cbn.
  by rewrite lookup_snoc_socket.
Qed.

(** X10. [connect] while a connection is being made or is open does
    nothing at all; in particular a second [connect] right after one that
    built a socket builds no second socket, whatever identity it is given
    and for any world. *)
Theorem connect_once (userId userId' : jsval) (created created' : bool) (w : world U) :
  (isConnecting (wsManager w) = true \/ is_Some (open_socket w) ->
   connect userId created w = w) /\
  connect userId' created' (connect userId true w) = connect userId true w /\
  length (sockets (browser (connect userId' created' (connect userId true w)))) <=
    S (length (sockets (browser w))).
Proof.
  assert (Hguard : forall (u : jsval) (c : bool) (v : world U),
             isConnecting (wsManager v) = true \/ is_Some (open_socket v) ->
             connect u c v = v).
  { intros u c v Hv. unfold WebSocketManager.connect.
    destruct Hv as [-> | Hv]; [done |].
    rewrite (bool_decide_eq_true_2 _ Hv). by rewrite orb_true_r. }
  assert (Hsecond : connect userId' created' (connect userId true w) =
                    connect userId true w).
  { destruct (isConnecting (wsManager w)) eqn:Hic.
    - rewrite (Hguard userId true w) by (by left). apply Hguard. by left.
    - destruct (open_socket w) as [k|] eqn:Hopen.
      + rewrite (Hguard userId true w) by (right; by rewrite Hopen).
        apply Hguard. right. by rewrite Hopen.
      + apply Hguard. left. by apply connect_builds. }
  split; [apply Hguard |]. split; [exact Hsecond |].
  rewrite Hsecond. unfold WebSocketManager.connect.
  destruct (isConnecting (wsManager w) || _); [lia |]. cbn.
  rewrite length_app. cbn. lia.
Qed.

(** X11. A failed attempt counts once: the error event of a socket followed
    by its close event raises the counter by one and sets one timeout, the
    error handler having changed nothing but the connecting flag and the
    console. *)
Theorem error_then_close_counts_once (k : nat) (s : socket) (w : world U) :
  sockets (browser w) !! k = Some s ->
  readyState s <> CLOSED ->
  (reconnectAttempts (wsManager w) < WebSocketManager.maxReconnectAttempts)%Z ->
  exists w1 w2,
    Page.step behave (Page.SockError k) w = Some (Ok tt w1) /\
    reconnectAttempts (wsManager w1) = reconnectAttempts (wsManager w) /\
    timers (browser w1) = timers (browser w) /\
    ws (wsManager w1) = ws (wsManager w) /\
    console (browser w1) = console (browser w) ++ [ErrSocket] /\
    Page.step behave (Page.SockClose k) w1 = Some (Ok tt w2) /\
    reconnectAttempts (wsManager w2) = (reconnectAttempts (wsManager w) + 1)%Z /\
    timers (browser w2) =
      timers (browser w) ++
        [{| delay := (1000 * 2 ^ reconnectAttempts (wsManager w))%Z;
            timer_user := sock_user s |}] /\
    published (eventEmitter w2) = published (eventEmitter w).
Proof.
  intros Hs Hstate Hlt.
  set (w1 := with_manager (set_isConnecting false) (console_error ErrSocket w)).
  set (w1c := Page.set_readyState k CLOSED w1).
  destruct (onclose_retry behave (sock_user s) w1c Hlt)
    as (w2 & Hc & Hn & Ht & Hp & _).
  exists w1, w2. cbn [Page.step].
  change (sockets (browser w1)) with (sockets (browser w)).
  rewrite Hs. fold w1c. rewrite Hc.
  split; [by destruct (readyState s) |].
  do 4 (split; [reflexivity |]).
  split; [by destruct (readyState s) |].
  split; [exact Hn |]. split; [| exact Hp].
  rewrite Ht, Hn. unfold WebSocketManager.reconnectDelay.
  change (reconnectAttempts (wsManager w1c)) with (reconnectAttempts (wsManager w)).
  change (timers (browser w1c)) with (timers (browser w)).
  by rewrite Z.add_simpl_r.
Qed.

(** X12. A socket opening puts the counter back to zero whatever it was,
    clears the connecting flag, and leaves the subscription set and the
    timeouts as they were. *)
Theorem open_resets_counter (k : nat) (w w' : world U) :
  Page.step behave (Page.SockOpen k) w = Some (Ok tt w') ->
  reconnectAttempts (wsManager w') = 0%Z /\
  isConnecting (wsManager w') = false /\
  subscriptions (wsManager w') = subscriptions (wsManager w) /\
  timers (browser w') = timers (browser w).
Proof.
  cbn [Page.step]. destruct (sockets (browser w) !! k) as [s|]; [| discriminate].
  destruct (readyState s); try discriminate.
  intros [= Ho]. apply onopen_frame in Ho as (_ & _ & _ & Hs & Hn & Hic & _ & Ht & _).
  repeat split; assumption.
Qed.

End MoreManagerProperties.

(** ** Invariants along runs *)

Section RunProperties.
Context {U : Type} (behave : cbid -> jsval -> U -> U * bool).

Local Abbreviation open_socket := (@WebSocketManager.open_socket U).

(** X13. In every world the page reaches from its initial one the
    subscription set holds each object once and the reconnect counter lies
    between 0 and 5. *)
Theorem reachable_well_formed (u : U) (ls : list Page.label) (w : world U) :
  Page.run behave ls (Page.init u) = Some w ->
  NoDup (addr <$> subscriptions (wsManager w)) /\
  (0 <= reconnectAttempts (wsManager w) <= 5)%Z.
Proof.
  intros Hrun. exact (run_well_formed behave ls _ w (init_well_formed u) Hrun).
Qed.

Lemma connect_open_socket (userId : jsval) (created : bool) (w : world U) :
  open_socket (WebSocketManager.connect userId created w) = open_socket w.
Proof.
  unfold WebSocketManager.connect.
  destruct (isConnecting (wsManager w)) eqn:Hic; [done |].
  destruct (open_socket w) as [k|] eqn:Hopen; cbn [orb].
  - rewrite bool_decide_eq_true_2 by eauto. done.
  - rewrite bool_decide_eq_false_2 by (intros [? ?]; discriminate).
    destruct created; [| exact Hopen].
    unfold WebSocketManager.open_socket. cbn. by rewrite lookup_snoc_socket.
Qed.

Lemma step_queue_empty (l : Page.label) (w w' : world U) :
  Frames.queue_empty_while_open w ->
  Page.step behave l w = Some (Ok tt w') ->
  Frames.queue_empty_while_open w'.
Proof.
  unfold Frames.queue_empty_while_open. intros Hinv Hstep k Hk.
  assert (Hsend : forall (m : jsval) (v : world U),
             (forall j, open_socket v = Some j -> messageQueue (wsManager v) = []) ->
             open_socket (WebSocketManager.send m v) = Some k ->
             messageQueue (wsManager (WebSocketManager.send m v)) = []).
  { intros m v Hv Hko.
    rewrite (traffic_only_open_socket _ _ (send_traffic_only m v)) in Hko.
    rewrite (send_open k m v Hko). exact (Hv k Hko). }
  destruct l; cbn [Page.step] in Hstep.
  - injection Hstep as <-. rewrite connect_open_socket in Hk.
    destruct (connect_frame userId created w) as (_ & _ & -> & _). eauto.
  - injection Hstep as <-.
    destruct (disconnect_hard_reset w) as (Hws & _).
    unfold WebSocketManager.open_socket in Hk. by rewrite Hws in Hk.
  - injection Hstep as <-. by apply Hsend.
  - injection Hstep as <-. apply Hsend; [| exact Hk]. exact Hinv.
  - injection Hstep as <-. apply Hsend; [| exact Hk]. exact Hinv.
  - destruct (sockets (browser w) !! k0) as [s|]; [| discriminate].
    destruct (readyState s); try discriminate. injection Hstep as Ho.
    pose proof (onopen_frame behave _ _ _ Ho) as (_ & _ & Hws & _ & _ & _ & Hso & _).
    assert (Hk0 : open_socket (Page.set_readyState k0 OPEN w) = Some k).
    { unfold WebSocketManager.open_socket in *. by rewrite Hws, Hso in Hk. }
    destruct (onopen_open behave (sock_user s) k _ Hk0) as (w2 & Ho2 & _ & Hq & _).
    rewrite Ho in Ho2. by injection Ho2 as ->.
  - destruct (sockets (browser w) !! k0) as [s|]; [| discriminate].
    destruct (readyState s); try discriminate.
    destruct (onmessage_inv behave parsed w) as (w1 & He & Hm & _ & _ & Hso & _).
    rewrite He in Hstep. injection Hstep as <-.
    unfold WebSocketManager.open_socket in Hk. rewrite Hm, Hso in Hk.
    rewrite Hm. eauto.
  - destruct (sockets (browser w) !! k0) as [s|]; [| discriminate].
    destruct (readyState s); try discriminate; injection Hstep as <-; eauto.
  - destruct (sockets (browser w) !! k0) as [s|]; [| discriminate].
    assert (Hno : forall v, WebSocketManager.onclose behave (sock_user s) v = Ok tt w' ->
                            False).
    { intros v Hc. apply onclose_frame in Hc as (_ & _ & Hws & _).
      unfold WebSocketManager.open_socket in Hk. by rewrite Hws in Hk. }
    destruct (readyState s); try discriminate; injection Hstep as Hc;
      destruct (Hno _ Hc).
  - destruct (timers (browser w) !! i) as [t|]; [| discriminate].
    injection Hstep as <-. rewrite connect_open_socket in Hk.
    match goal with |- context [WebSocketManager.connect ?u ?c ?v] =>
      destruct (connect_frame u c v) as (_ & _ & -> & _) end.
    eauto.
  - injection Hstep as <-. revert Hk. unfold UseRealTimeUpdates.startMessagePolling.
    destruct (messagePollingRef (refs w)); eauto.
  - injection Hstep as <-. revert Hk. unfold UseRealTimeUpdates.stopMessagePolling.
    destruct (messagePollingRef (refs w)); eauto.
  - destruct (existsb _ _); [| discriminate].
    destruct (poll_tick_inv behave outcome w) as (w1 & He & Hm & _ & _ & Hso & _).
    rewrite He in Hstep. injection Hstep as <-.
    unfold WebSocketManager.open_socket in Hk. rewrite Hm, Hso in Hk.
    rewrite Hm. eauto.
Qed.

(** X14. In every world the page reaches from its initial one, the queue is
    empty whenever the manager holds an open channel: nothing waits while
    it could be sent. *)
Theorem queue_empty_while_connected (u : U) (ls : list Page.label) (k : nat)
    (w : world U) :
  Page.run behave ls (Page.init u) = Some w ->
  open_socket w = Some k ->
  messageQueue (wsManager w) = [].
Proof.
  assert (Hgen : forall v : world U,
             Frames.queue_empty_while_open v ->
             Page.run behave ls v = Some w -> Frames.queue_empty_while_open w).
  { induction ls as [|l ls IH]; intros v Hv Hrun; cbn in Hrun.
    - by injection Hrun as <-.
    - destruct (Page.step behave l v) as [[[] v1|v1|]|] eqn:Hstep; try discriminate.
      eauto using step_queue_empty. }
  intros Hrun Hk. eapply Hgen; [| exact Hrun | exact Hk].
  intros j Hj. discriminate Hj.
Qed.

(** X15. If a socket opens that the manager no longer holds, while the
    manager has no open channel, and there is something to send -- a truthy
    identity to authenticate or a queued message -- then [ws.onopen] never
    returns: [send] puts every message the loop takes off the queue back at
    its end. *)
Theorem stale_open_hangs (k : nat) (s : socket) (w : world U) :
  sockets (browser w) !! k = Some s ->
  readyState s = CONNECTING ->
  ws (wsManager w) <> Some k ->
  open_socket w = None ->
  truthy (sock_user s) = true \/ messageQueue (wsManager w) <> [] ->
  Page.step behave (Page.SockOpen k) w = Some Loops.
Proof.
  intros Hs Hstate Hws Hopen Hsend. cbn [Page.step]. rewrite Hs, Hstate.
  f_equal. apply onopen_stale_loops; [| exact Hsend].
  unfold WebSocketManager.open_socket, Page.set_readyState in *. cbn.
  destruct (ws (wsManager w)) as [j|]; [| done].
  rewrite list_lookup_alter_ne by congruence. exact Hopen.
Qed.

(** X16. The reconnection cycle and the traffic coming in lose nothing:
    through calls of [connect], error and close events, timeouts firing,
    incoming messages and polling, the queue, the subscription set and what
    has been transmitted stay exactly as they were. *)
Theorem passive_steps_keep_traffic (ls : list Page.label) (w w' : world U) :
  forallb Frames.passive ls = true ->
  Page.run behave ls w = Some w' ->
  messageQueue (wsManager w') = messageQueue (wsManager w) /\
  subscriptions (wsManager w') = subscriptions (wsManager w) /\
  wire (browser w') = wire (browser w).
Proof.
  revert w. induction ls as [|l ls IH]; intros w Hls Hrun; cbn in Hrun, Hls.
  { by injection Hrun as <-. }
  apply andb_prop in Hls as [Hl Hls].
  destruct (Page.step behave l w) as [[[] w1|w1|]|] eqn:Hstep; try discriminate.
  destruct (IH w1 Hls Hrun) as (-> & -> & ->). clear IH Hrun Hls.
  destruct l; try discriminate Hl; cbn [Page.step] in Hstep.
  - injection Hstep as <-.
    by destruct (connect_frame userId created w) as (_ & _ & -> & -> & -> & _).
  - destruct (sockets (browser w) !! k) as [s|]; [| discriminate].
    destruct (readyState s); try discriminate.
    destruct (onmessage_inv behave parsed w) as (w2 & He & Hm & _ & _ & _ & Hwi & _).
    rewrite He in Hstep. injection Hstep as <-. by rewrite Hm, Hwi.
  - destruct (sockets (browser w) !! k) as [s|]; [| discriminate].
    destruct (readyState s); try discriminate; by injection Hstep as <-.
  - destruct (sockets (browser w) !! k) as [s|]; [| discriminate].
    assert (Hgo : forall v,
               messageQueue (wsManager v) = messageQueue (wsManager w) ->
               subscriptions (wsManager v) = subscriptions (wsManager w) ->
               wire (browser v) = wire (browser w) ->
               WebSocketManager.onclose behave (sock_user s) v = Ok tt w1 ->
               messageQueue (wsManager w1) = messageQueue (wsManager w) /\
               subscriptions (wsManager w1) = subscriptions (wsManager w) /\
               wire (browser w1) = wire (browser w)).
    { intros v Hq Hsu Hwi Hc.
      apply onclose_frame in Hc as (_ & _ & _ & -> & -> & _ & -> & _). done. }
    destruct (readyState s); try discriminate; injection Hstep as Hc;
      by apply (Hgo (Page.set_readyState k CLOSED w) eq_refl eq_refl eq_refl) in Hc.
  - destruct (timers (browser w) !! i) as [t|]; [| discriminate].
    injection Hstep as <-.
    match goal with |- context [WebSocketManager.connect ?u ?c ?v] =>
      by destruct (connect_frame u c v) as (_ & _ & -> & -> & -> & _) end.
  - injection Hstep as <-. unfold UseRealTimeUpdates.startMessagePolling.
    by destruct (messagePollingRef (refs w)).
  - injection Hstep as <-. unfold UseRealTimeUpdates.stopMessagePolling.
    by destruct (messagePollingRef (refs w)).
  - destruct (existsb _ _); [| discriminate].
    destruct (poll_tick_inv behave outcome w) as (w2 & He & Hm & _ & _ & _ & Hwi & _).
    rewrite He in Hstep. injection Hstep as <-. by rewrite Hm, Hwi.
Qed.

End RunProperties.

(** ** Subscribing and releasing *)

Section ReleaseProperties.
Context {U : Type} (behave : cbid -> jsval -> U -> U * bool).

Local Abbreviation open_socket := (@WebSocketManager.open_socket U).
Local Abbreviation subscribe := (@WebSocketManager.subscribe U).
Local Abbreviation unsubscribe := (@WebSocketManager.unsubscribe U).

Lemma set_delete_absent (o : jsobj) (s : list jsobj) :
  set_has o s = false -> set_delete o s = s.
Proof.
  unfold set_has, set_delete. induction s as [|x s IH]; [done |]. cbn.
  intros Hx. apply orb_false_elim in Hx as [Hx Hs]. rewrite Hx. cbn.
  by rewrite IH.
Qed.

Lemma set_add_delete (o : jsobj) (s : list jsobj) :
  set_has o s = false -> set_delete o (set_add o s) = s.
Proof.
  intros Hs. unfold set_add. rewrite Hs. unfold set_delete.
  rewrite List.filter_app. cbn. rewrite Nat.eqb_refl. cbn. rewrite app_nil_r.
  by apply set_delete_absent.
Qed.

(** What one call of [subscribe] sends or queues. *)
Lemma subscribe_spec (sub : jsobj) (w : world U) :
  open_socket (subscribe sub w) = open_socket w /\
  eventEmitter (subscribe sub w) = eventEmitter w /\
  match open_socket w with
  | Some k =>
      wire (browser (subscribe sub w)) = wire (browser w) ++ [(k, obj_val sub)] /\
      messageQueue (wsManager (subscribe sub w)) = messageQueue (wsManager w)
  | None =>
      messageQueue (wsManager (subscribe sub w)) =
        messageQueue (wsManager w) ++ [obj_val sub] /\
      wire (browser (subscribe sub w)) = wire (browser w)
  end.
Proof.
  unfold WebSocketManager.subscribe.
  set (w0 := with_manager _ w).
  assert (Hk : open_socket w0 = open_socket w) by reflexivity.
  destruct (open_socket w) as [k|] eqn:Hopen.
  - rewrite (send_open k _ w0 Hk). repeat split. exact Hopen.
  - rewrite (send_closed _ w0 Hk). repeat split. exact Hopen.
Qed.

(** X17. Subscribing an object that is not in the set and unsubscribing it
    again leaves the set as it was, and hands two messages to [send], the
    subscription and then its cancellation: both go out in that order on an
    open channel, both go to the end of the queue otherwise. *)
Theorem subscribe_unsubscribe_round_trip (o : jsobj) (w : world U) :
  set_has o (subscriptions (wsManager w)) = false ->
  let w2 := unsubscribe o (subscribe o w) in
  subscriptions (wsManager w2) = subscriptions (wsManager w) /\
  match open_socket w with
  | Some k =>
      wire (browser w2) =
        wire (browser w) ++ [(k, obj_val o); (k, Props.unsubscribe_message o)] /\
      messageQueue (wsManager w2) = messageQueue (wsManager w)
  | None =>
      messageQueue (wsManager w2) =
        messageQueue (wsManager w) ++ [obj_val o; Props.unsubscribe_message o] /\
      wire (browser w2) = wire (browser w)
  end.
Proof.
  intros Hnew. cbv zeta.
  destruct (unsubscribe_spec o (subscribe o w)) as (Hs & _ & _ & Hsent).
  destruct (subscribe_spec o w) as (Ho & _ & Hsent1).
  rewrite Ho in Hsent. rewrite Hs, subscribe_subscriptions.
  split; [by apply set_add_delete |].
  destruct (open_socket w) as [k|]; destruct Hsent as [Ha Hb], Hsent1 as [Hc Hd];
    rewrite Ha, Hb, Hc, Hd, <- ?app_assoc; done.
Qed.

(** X18. Unsubscribing an object that is not in the set -- never
    subscribed, or unsubscribed already -- leaves the set as it is and
    still hands a cancellation message to [send]. *)
Theorem unsubscribe_absent_still_sends (o : jsobj) (w : world U) :
  set_has o (subscriptions (wsManager w)) = false ->
  subscriptions (wsManager (unsubscribe o w)) = subscriptions (wsManager w) /\
  match open_socket w with
  | Some k =>
      wire (browser (unsubscribe o w)) =
        wire (browser w) ++ [(k, Props.unsubscribe_message o)]
  | None =>
      messageQueue (wsManager (unsubscribe o w)) =
        messageQueue (wsManager w) ++ [Props.unsubscribe_message o]
  end.
Proof.
  intros Hnew. destruct (unsubscribe_spec o w) as (Hs & _ & _ & Hsent).
  rewrite Hs. split; [by apply set_delete_absent |].
  destruct (open_socket w); by destruct Hsent.
Qed.

Lemma registered_on (event e : string) (callback : cbid) (w : world U) :
  Props.registered e
    (with_bus
       (fun b =>
          set_events
            (<[event := Props.registered event w ++ [callback]]> (events b)) b) w) =
  if String.eqb event e then Props.registered e w ++ [callback]
  else Props.registered e w.
Proof.
  unfold Props.registered. cbn.
  destruct (String.eqb_spec event e) as [->|Hne].
  - by rewrite lookup_insert_eq.
  - by rewrite lookup_insert_ne.
Qed.

(** Calling handles, in turn, whose names all have an entry. *)
Lemma call_handles_spec (hs : list EventEmitter.unsubscribe_handle) (w : world U) :
  Forall (fun h : EventEmitter.unsubscribe_handle =>
            is_Some (events (eventEmitter w) !! h.1)) hs ->
  exists w2,
    UseRealTimeUpdates.call_handles hs w = Ok tt w2 /\
    wsManager w2 = wsManager w /\ browser w2 = browser w /\ refs w2 = refs w /\
    user (eventEmitter w2) = user (eventEmitter w) /\
    forall e, Props.registered e w2 = Frames.released hs e (Props.registered e w).
Proof.
  revert w. induction hs as [|[event callback] hs IH]; intros w Hall.
  - exists w. repeat split.
  - apply Forall_cons in Hall as [[cbs Hcbs] Hall]. cbn in Hcbs.
    cbn [UseRealTimeUpdates.call_handles].
    rewrite (call_handle_spec event callback cbs w Hcbs). cbn [bind].
    set (w1 := with_bus _ w).
    destruct (IH w1) as (w2 & Hrun & Hm & Hb & Hr & Hu & Hreg).
    { eapply Forall_impl; [exact Hall |]. intros h [l Hl]. subst w1. cbn.
      destruct (decide (event = h.1)) as [->|Hne].
      - rewrite lookup_insert_eq. eauto.
      - rewrite lookup_insert_ne by done. eauto. }
    exists w2. split; [exact Hrun |].
    rewrite Hm, Hb, Hr, Hu. do 4 (split; [reflexivity |]).
    intros e. rewrite Hreg. cbn [Frames.released fold_left fst snd].
    f_equal. subst w1. unfold Props.registered. cbn.
    destruct (String.eqb_spec event e) as [->|Hne].
    + by rewrite lookup_insert_eq, Hcbs.
    + by rewrite lookup_insert_ne.
Qed.

Lemma filter_out_last (callback : cbid) (l : list cbid) :
  callback ∉ List.filter (fun cb => negb (Nat.eqb cb callback)) (l ++ [callback]).
Proof.
  clear behave.
  rewrite list_elem_of_In, filter_In, negb_true_iff, Nat.eqb_neq. tauto.
Qed.

Lemma filter_out_absent (callback : cbid) (l : list cbid) :
  callback ∉ l ->
  List.filter (fun cb => negb (Nat.eqb cb callback)) (l ++ [callback]) = l.
Proof.
  intros Hnot. rewrite List.filter_app. cbn. rewrite Nat.eqb_refl. cbn.
  rewrite app_nil_r. induction l as [|x l IH]; [done |].
  apply not_elem_of_cons in Hnot as [Hx Hl]. cbn.
  destruct (Nat.eqb_spec x callback) as [->|_]; [done |]. cbn. by rewrite IH.
Qed.

(** X19. Registering a callback that is not yet registered under a name and
    calling the handle [on] returned puts the callbacks of every event name
    back as they were. *)
Theorem on_handle_round_trip (event : string) (callback : cbid)
    (h : EventEmitter.unsubscribe_handle) (w w1 : world U) :
  EventEmitter.on event callback w = Ok h w1 ->
  callback ∉ Props.registered event w ->
  exists w2,
    EventEmitter.call_handle h w1 = Ok tt w2 /\
    (forall e, Props.registered e w2 = Props.registered e w) /\
    wsManager w2 = wsManager w /\ browser w2 = browser w /\ refs w2 = refs w.
Proof.
  intros Hon Hnot. destruct (on_registers _ _ _ _ _ Hon) as (-> & Hev & Hw1).
  assert (Hreg1 : events (eventEmitter w1) !! event =
                  Some (Props.registered event w ++ [callback])).
  { rewrite Hev. apply lookup_insert_eq. }
  rewrite (call_handle_spec _ _ _ _ Hreg1). eexists. split; [reflexivity |].
  split.
  - intros e. unfold Props.registered at 1. cbn. rewrite Hev.
    destruct (decide (event = e)) as [->|Hne].
    + rewrite lookup_insert_eq. cbn. by apply filter_out_absent.
    + by rewrite !lookup_insert_ne.
  - rewrite Hw1. repeat split.
Qed.

(** X20. [subscribeToPaymentUpdates] registers its callback at the end of
    the callbacks of [payment_update], [escrow_released] and
    [transaction_update] and returns; the function it returns, when called,
    returns too, takes the subscription object out of the set, takes the
    callback out of all three lists, leaves the callbacks of every other
    name as they were, and hands one cancellation message to [send]. *)
Theorem payment_teardown_releases_all (userId : jsval) (callback : cbid)
    (w : world U) :
  exists t w1 w2,
    UseRealTimeUpdates.subscribeToPaymentUpdates userId callback w = Ok t w1 /\
    props (UseRealTimeUpdates.subscription t) =
      [("type", JStr "subscribe_payments"); ("userId", userId)] /\
    (forall e, e ∈ Frames.payment_events ->
               Props.registered e w1 = Props.registered e w ++ [callback]) /\
    UseRealTimeUpdates.call_teardown t w1 = Ok tt w2 /\
    set_has (UseRealTimeUpdates.subscription t) (subscriptions (wsManager w2)) = false /\
    (forall e, e ∈ Frames.payment_events -> callback ∉ Props.registered e w2) /\
    (forall e, e ∉ Frames.payment_events ->
               Props.registered e w2 = Props.registered e w) /\
    match open_socket w1 with
    | Some k =>
        wire (browser w2) =
          wire (browser w1) ++
            [(k, Props.unsubscribe_message (UseRealTimeUpdates.subscription t))]
    | None =>
        messageQueue (wsManager w2) =
          messageQueue (wsManager w1) ++
            [Props.unsubscribe_message (UseRealTimeUpdates.subscription t)]
    end.
Proof.
  clear behave.
  unfold UseRealTimeUpdates.subscribeToPaymentUpdates, UseRealTimeUpdates.fresh.
  cbv zeta.
  set (sub := {| addr := next_addr (browser w);
                 props := [("type", JStr "subscribe_payments"); ("userId", userId)] |}).
  set (v := subscribe sub _).
  rewrite (on_returns "payment_update" callback v eq_refl). cbn [bind].
  set (v1 := with_bus _ v).
  rewrite (on_returns "escrow_released" callback v1 eq_refl). cbn [bind].
  set (v2 := with_bus _ v1).
  rewrite (on_returns "transaction_update" callback v2 eq_refl). cbn [bind].
  set (v3 := with_bus _ v2).
  assert (Hreg3 : forall e,
             Props.registered e v3 =
             if existsb (String.eqb e) Frames.payment_events
             then Props.registered e v ++ [callback] else Props.registered e v).
  { intros e. unfold v3, v2, v1. rewrite !registered_on. cbn [existsb Frames.payment_events].
    rewrite (String.eqb_sym e "payment_update"), (String.eqb_sym e "escrow_released"),
      (String.eqb_sym e "transaction_update").
    destruct (String.eqb_spec "payment_update" e) as [<-|?]; [done |].
    destruct (String.eqb_spec "escrow_released" e) as [<-|?]; [done |].
    by destruct (String.eqb_spec "transaction_update" e) as [<-|?]. }
  assert (Hv : forall e, Props.registered e v = Props.registered e w).
  { intros e. unfold Props.registered, v.
    destruct (subscribe_spec sub (with_browser
                (fun p => set_next_addr (S (next_addr p)) p) w)) as (_ & -> & _).
    reflexivity. }
  destruct (unsubscribe_spec sub v3) as (Hs & Hopen & Hbus & Hsent).
  destruct (call_handles_spec
              [("payment_update", callback); ("escrow_released", callback);
               ("transaction_update", callback)]
              (unsubscribe sub v3))
    as (w2 & Hrun & Hm & Hb & _ & _ & Hrel).
  { rewrite Hbus. unfold v3, v2, v1. cbn.
    repeat (apply Forall_cons; split;
            [cbn; rewrite ?lookup_insert_ne by (intros Heq; discriminate Heq);
             rewrite lookup_insert_eq; eauto |]).
    apply Forall_nil_2. }
  assert (Hin : forall e, e ∈ Frames.payment_events ->
                          existsb (String.eqb e) Frames.payment_events = true).
  { intros e He. apply existsb_exists. exists e.
    split; [by apply list_elem_of_In | apply String.eqb_refl]. }
  assert (Hout : forall e, e ∉ Frames.payment_events ->
                           existsb (String.eqb e) Frames.payment_events = false).
  { intros e He. apply not_true_is_false. intros Hex. apply He.
    apply existsb_exists in Hex as (x & Hx & Heq). apply String.eqb_eq in Heq as ->.
    by apply list_elem_of_In. }
  assert (Hregu : forall e, Props.registered e (unsubscribe sub v3) = Props.registered e v3).
  { intros e. unfold Props.registered. by rewrite Hbus. }
  exists {| UseRealTimeUpdates.subscription := sub;
            UseRealTimeUpdates.handles :=
              [("payment_update", callback); ("escrow_released", callback);
               ("transaction_update", callback)] |}, v3, w2.
  split; [reflexivity |]. split; [reflexivity |].
  split. { intros e He. by rewrite Hreg3, (Hin e He), Hv. }
  split; [exact Hrun |].
  split. { rewrite Hm, Hs. apply set_delete_has. }
  split.
  { intros e He. rewrite Hrel, Hregu, Hreg3, (Hin e He).
    unfold Frames.payment_events in He.
    repeat (apply elem_of_cons in He as [->|He];
            [cbn; rewrite ?filter_twice; apply filter_out_last |]).
    by apply elem_of_nil in He. }
  split.
  { intros e He. rewrite Hrel, Hregu, Hreg3, (Hout e He), Hv.
    unfold Frames.payment_events in He. cbn [Frames.released fold_left fst snd].
    repeat (let Hne := fresh "Hne" in
            apply not_elem_of_cons in He as [Hne He];
            apply not_eq_sym in Hne;
            apply String.eqb_neq in Hne; rewrite Hne).
    reflexivity. }
  rewrite Hm, Hb. destruct (open_socket v3); by destruct Hsent.
Qed.

End ReleaseProperties.

(** ** Sending a chat message, and the connect effect *)

Section FacadeProperties.
Context {U : Type} (behave : cbid -> jsval -> U -> U * bool).

Local Abbreviation open_socket := (@WebSocketManager.open_socket U).

(** X21. [sendMessage] reports [true] exactly when the request resolved
    with success, and then hands one [new_message] carrying the stored
    message to [send] -- transmitted on an open channel, queued otherwise;
    when it reports [false] nothing has been sent or queued and the manager
    is as it was, and a rejected request has written one line to the
    console. *)
Theorem sendMessage_reports (outcome : UseRealTimeUpdates.sent_outcome) (w : world U) :
  exists b w1,
    UseRealTimeUpdates.sendMessage outcome w = Ok b w1 /\
    (b = true <-> exists m, outcome = UseRealTimeUpdates.SendResolved true m) /\
    (b = false ->
     wsManager w1 = wsManager w /\ wire (browser w1) = wire (browser w) /\
     eventEmitter w1 = eventEmitter w) /\
    (forall m,
        outcome = UseRealTimeUpdates.SendResolved true m ->
        match open_socket w with
        | Some k =>
            wire (browser w1) =
              wire (browser w) ++
                [(k, JObj [("type", JStr "new_message"); ("message", m)])] /\
            messageQueue (wsManager w1) = messageQueue (wsManager w)
        | None =>
            messageQueue (wsManager w1) =
              messageQueue (wsManager w) ++
                [JObj [("type", JStr "new_message"); ("message", m)]] /\
            wire (browser w1) = wire (browser w)
        end) /\
    (outcome = UseRealTimeUpdates.SendRejected ->
     console (browser w1) = console (browser w) ++ [ErrSendMessage]).
Proof.
  clear behave.
  destruct outcome as [|[] m]; cbn [UseRealTimeUpdates.sendMessage];
    eexists _, _; (split; [reflexivity |]).
  - split; [split; [discriminate | intros [? [=]]] |]. repeat split; discriminate.
  - split; [split; eauto |]. split; [discriminate |]. split; [| discriminate].
    intros m' [= <-].
    destruct (open_socket w) as [k|] eqn:Hopen.
    + by rewrite (send_open k _ w Hopen).
    + by rewrite (send_closed _ w Hopen).
  - split; [split; [discriminate | intros [? [=]]] |]. repeat split; discriminate.
Qed.

(** X22. The connect effect, for a truthy identity, calls [connect] and
    registers its two handlers last under [websocket_connected] and
    [websocket_disconnected]; its cleanup returns, takes both handlers out
    again and leaves the manager and the browser exactly as they are: it
    never disconnects.  For a falsy identity the effect does nothing. *)
Theorem connect_effect_cleanup (userId : jsval) (created : bool)
    (handleConnected handleDisconnected : cbid) (w : world U) :
  (truthy userId = false ->
   Effects.connect_effect userId created handleConnected handleDisconnected w =
     Ok [] w) /\
  (truthy userId = true ->
   exists hs w1 w2,
     Effects.connect_effect userId created handleConnected handleDisconnected w =
       Ok hs w1 /\
     wsManager w1 = wsManager (WebSocketManager.connect userId created w) /\
     browser w1 = browser (WebSocketManager.connect userId created w) /\
     Props.registered "websocket_connected" w1 =
       Props.registered "websocket_connected" w ++ [handleConnected] /\
     Props.registered "websocket_disconnected" w1 =
       Props.registered "websocket_disconnected" w ++ [handleDisconnected] /\
     Effects.connect_cleanup hs w1 = Ok tt w2 /\
     wsManager w2 = wsManager w1 /\ browser w2 = browser w1 /\
     (handleConnected ∉ Props.registered "websocket_connected" w2) /\
     (handleDisconnected ∉ Props.registered "websocket_disconnected" w2)).
Proof.
  clear behave.
  unfold Effects.connect_effect. split; intros ->; [reflexivity |].
  set (v := WebSocketManager.connect userId created w).
  assert (Hv : eventEmitter v = eventEmitter w).
  { unfold v. by destruct (connect_frame userId created w) as (_ & -> & _). }
  rewrite (on_returns "websocket_connected" handleConnected v eq_refl). cbn [bind].
  set (v1 := with_bus _ v).
  rewrite (on_returns "websocket_disconnected" handleDisconnected v1 eq_refl).
  cbn [bind]. set (v2 := with_bus _ v1).
  assert (Hr : forall e, Props.registered e v = Props.registered e w).
  { intros e. unfold Props.registered. by rewrite Hv. }
  assert (Hc : Props.registered "websocket_connected" v2 =
               Props.registered "websocket_connected" w ++ [handleConnected]).
  { unfold v2, v1. rewrite !registered_on. cbn. by rewrite Hr. }
  assert (Hd : Props.registered "websocket_disconnected" v2 =
               Props.registered "websocket_disconnected" w ++ [handleDisconnected]).
  { unfold v2, v1. rewrite !registered_on. cbn. by rewrite Hr. }
  destruct (call_handles_spec
              [("websocket_connected", handleConnected);
               ("websocket_disconnected", handleDisconnected)] v2)
    as (w2 & Hrun & Hm & Hb & _ & _ & Hrel).
  { unfold v2, v1. cbn.
    repeat (apply Forall_cons; split;
            [cbn; rewrite ?lookup_insert_ne by (intros Heq; discriminate Heq);
             rewrite lookup_insert_eq; eauto |]).
    apply Forall_nil_2. }
  exists [("websocket_connected", handleConnected);
          ("websocket_disconnected", handleDisconnected)], v2, w2.
  split; [reflexivity |]. do 2 (split; [reflexivity |]).
  split; [exact Hc |]. split; [exact Hd |]. split; [exact Hrun |].
  split; [exact Hm |]. split; [exact Hb |].
  rewrite !Hrel, Hc, Hd. cbn. split; apply filter_out_last.
Qed.

End FacadeProperties.

(** ** The profile page *)

Section ProfileProperties.

(** X23. For a whole-number rating the row has five stars, the filled ones
    first: as many as the rating, none for a rating below one, all five for
    a rating above five. *)
Theorem renderStars_clamps (rating : Z) :
  UserProfile.renderStars rating =
    replicate (Z.to_nat (Z.min 5 (Z.max 0 rating))) true ++
    replicate (5 - Z.to_nat (Z.min 5 (Z.max 0 rating))) false.
Proof.
  unfold UserProfile.renderStars. cbn [seq map Z.of_nat Pos.of_succ_nat Pos.succ].
  assert (Hcases : (rating <= 0 \/ rating = 1 \/ rating = 2 \/ rating = 3 \/
                    rating = 4 \/ 5 <= rating)%Z) by lia.
  destruct Hcases as [H|[->|[->|[->|[->|H]]]]]; try reflexivity.
  - replace (Z.min 5 (Z.max 0 rating)) with 0%Z by lia.
    repeat (let Hb := fresh in
            match goal with |- context [(?a <? rating)%Z] =>
              destruct (Z.ltb_spec a rating) as [Hb|Hb]; [lia |] end).
    reflexivity.
  - replace (Z.min 5 (Z.max 0 rating)) with 5%Z by lia.
    repeat (let Hb := fresh in
            match goal with |- context [(?a <? rating)%Z] =>
              destruct (Z.ltb_spec a rating) as [Hb|Hb]; [| lia] end).
    reflexivity.
Qed.

Lemma split_space_nonempty (s : string) : UserProfile.split_space s <> [].
Proof.
  induction s as [|c s IH]; [done |]. cbn.
  destruct (Ascii.eqb c " "); [done |].
  by destruct (UserProfile.split_space s).
Qed.

(** X24. The initials of two names joined by a space are the initials of
    the one followed by the initials of the other; so is every further
    space, empty pieces between spaces giving nothing. *)
Theorem initials_of_joined_names (a b : string) :
  UserProfile.initials (a ++ " " ++ b)%string =
    (UserProfile.initials a ++ UserProfile.initials b)%string.
Proof.
  assert (Hsplit : forall s : string,
             UserProfile.split_space (s ++ " " ++ b)%string =
             UserProfile.split_space s ++ UserProfile.split_space b).
  { induction s as [|c s IH]; [reflexivity |].
    change (String.append (String c s) (String.append " " b))
      with (String c (String.append s (String.append " " b))).
    cbn [UserProfile.split_space]. rewrite IH. destruct (Ascii.eqb c " "); [reflexivity |].
    pose proof (split_space_nonempty s) as Hne.
    by destruct (UserProfile.split_space s). }
  unfold UserProfile.initials. rewrite Hsplit, map_app.
  generalize (map UserProfile.first_unit (UserProfile.split_space a)) as l.
  induction l as [|x l IH]; [reflexivity |].
  cbn [fold_right app]. rewrite IH.
  generalize (fold_right String.append EmptyString l) as y.
  generalize (fold_right String.append EmptyString
                (map UserProfile.first_unit (UserProfile.split_space b))) as z.
  clear. intros z y. induction x as [|c x IHx]; [reflexivity |].
  change (String c (String.append x (String.append y z)) =
          String c (String.append (String.append x y) z)).
  by rewrite IHx.
Qed.

End ProfileProperties.

Section AvatarProperties.

Lemma initials_only_spaces (s : string) :
  Frames.only_spaces s = true -> UserProfile.initials s = EmptyString.
Proof.
  unfold UserProfile.initials. induction s as [|c s IH]; [reflexivity |].
  cbn [Frames.only_spaces UserProfile.split_space].
  intros Hs. apply andb_prop in Hs as [-> Hs]. cbn. by apply IH.
Qed.

(** X25. The avatar shows [U] for the empty name; for a name that is not
    empty but made of spaces it shows nothing at all, not [U]; and for a
    name that starts with another character it starts with that
    character. *)
Theorem avatar_fallback_edges (c : ascii) (name : string) :
  UserProfile.avatar_fallback "" = "U" /\
  (Frames.only_spaces (String c name) = true ->
   UserProfile.avatar_fallback (String c name) = EmptyString) /\
  (Ascii.eqb c " " = false ->
   exists rest, UserProfile.avatar_fallback (String c name) = String c rest).
Proof.
  split; [reflexivity |]. split.
  - intros Hs. unfold UserProfile.avatar_fallback. cbn [String.eqb].
    by apply initials_only_spaces.
  - intros Hc. unfold UserProfile.avatar_fallback, UserProfile.initials.
    cbn [String.eqb UserProfile.split_space]. rewrite Hc.
    pose proof (split_space_nonempty name) as Hne.
    destruct (UserProfile.split_space name) as [|piece pieces]; [done |].
    cbn. eauto.
Qed.

End AvatarProperties.

(** ** The further properties on sample worlds *)

Lemma at_most_one_polling_interval_witness :
  Page.run Cases.quiet [Page.StartPolling Cases.job Cases.peer;
                        Page.StartPolling Cases.other_job Cases.peer]
    (Page.init tt) =
    Some (Cases.after [Page.StartPolling Cases.job Cases.peer;
                       Page.StartPolling Cases.other_job Cases.peer]) /\
  Frames.polling_ok
    (Cases.after [Page.StartPolling Cases.job Cases.peer;
                  Page.StartPolling Cases.other_job Cases.peer]).
Proof.
  assert (Hrun : Page.run Cases.quiet
                   [Page.StartPolling Cases.job Cases.peer;
                    Page.StartPolling Cases.other_job Cases.peer] (Page.init tt) =
                 Some (Cases.after [Page.StartPolling Cases.job Cases.peer;
                                    Page.StartPolling Cases.other_job Cases.peer]))
    by (vm_compute; reflexivity).
  split; [exact Hrun |].
  exact (at_most_one_polling_interval Cases.quiet tt _ _ Hrun).
Defined.

Lemma polling_is_ok : Frames.polling_ok Cases.polling.
Proof. split; [intros id [= <-]; cbn; lia | split; reflexivity]. Defined.

Lemma restart_replaces_interval_witness :
  Frames.polling_ok Cases.polling /\
  messagePollingRef (refs Cases.polling) = Some 1 /\
  intervals
    (browser (UseRealTimeUpdates.startMessagePolling Cases.other_job Cases.peer
                Cases.polling)) =
    [{| interval_id := 2; period := 5000;
        poll_job := Cases.other_job; poll_recipient := Cases.peer |}] /\
  Page.step Cases.quiet (Page.Tick 1 UseRealTimeUpdates.FetchRejected)
    (UseRealTimeUpdates.startMessagePolling Cases.other_job Cases.peer Cases.polling) =
    None.
Proof.
  split; [exact polling_is_ok |]. split; [vm_compute; reflexivity |].
  destruct (restart_replaces_interval Cases.quiet Cases.other_job Cases.peer 1
              UseRealTimeUpdates.FetchRejected Cases.polling polling_is_ok eq_refl)
    as (Hi & _ & _ & Ht).
  split; [exact Hi | exact Ht].
Defined.

Lemma stop_cancels_ticks_witness :
  Frames.polling_ok Cases.polling /\
  intervals (browser Cases.polling) <> [] /\
  intervals (browser (UseRealTimeUpdates.stopMessagePolling Cases.polling)) = [] /\
  Page.step Cases.quiet (Page.Tick 1 UseRealTimeUpdates.FetchRejected)
    (UseRealTimeUpdates.stopMessagePolling Cases.polling) = None.
Proof.
  split; [exact polling_is_ok |]. split; [discriminate |].
  destruct (stop_cancels_ticks Cases.quiet 1 UseRealTimeUpdates.FetchRejected
              Cases.polling polling_is_ok)
    as (Hi & _ & _ & Ht & _).
  split; [exact Hi | exact Ht].
Defined.

Lemma unmount_stops_polling_witness :
  Frames.polling_ok Cases.polling /\
  intervals (browser (Effects.unmount_cleanup Cases.polling)) = [] /\
  refs (Effects.unmount_cleanup Cases.polling) = refs Cases.polling.
Proof.
  split; [exact polling_is_ok |].
  destruct (unmount_stops_polling Cases.polling polling_is_ok) as (Hi & Hr & _).
  split; [exact Hi | exact Hr].
Defined.

Lemma envelope_events_witness :
  ("escrow_released", "escrow_released") ∈ Frames.derived_names /\
  own "type" Cases.escrow = Some (JStr "escrow_released") /\
  exists w',
    WebSocketManager.onmessage Cases.quiet (Some (JObj Cases.escrow)) Cases.listening =
      Ok tt w' /\
    invoked (eventEmitter w') = [(3, JObj Cases.escrow); (3, JObj Cases.escrow)].
Proof.
  assert (Hin : ("escrow_released", "escrow_released") ∈ Frames.derived_names).
  { unfold Frames.derived_names. do 2 apply list_elem_of_further.
    apply list_elem_of_here. }
  split; [exact Hin |]. split; [vm_compute; reflexivity |].
  destruct (envelope_events Cases.quiet Cases.escrow "escrow_released"
              "escrow_released" Cases.listening Hin eq_refl)
    as (w' & Hm & _ & Hi & _).
  exists w'. split; [exact Hm | exact Hi].
Defined.

Lemma unknown_tag_raw_only_witness :
  own "type" [("type", JStr "ping")] = Some (JStr "ping") /\
  ("ping" ∉ Frames.known_tags) /\
  exists w',
    WebSocketManager.onmessage Cases.quiet (Some Cases.ping) Cases.start = Ok tt w' /\
    published (eventEmitter w') = [("ping", Cases.ping)].
Proof.
  assert (Hnot : "ping" ∉ Frames.known_tags).
  { unfold Frames.known_tags.
    repeat (apply not_elem_of_cons; split; [discriminate |]).
    apply not_elem_of_nil. }
  split; [vm_compute; reflexivity |]. split; [exact Hnot |].
  destruct (unknown_tag_raw_only Cases.quiet [("type", JStr "ping")] "ping"
              Cases.start eq_refl Hnot eq_refl)
    as (w' & Hm & Hp & _).
  exists w'. split; [exact Hm | exact Hp].
Defined.

Lemma missing_type_published_as_undefined_witness :
  own "type" [("jobId", Cases.job)] = None /\
  exists w',
    WebSocketManager.onmessage Cases.quiet (Some (JObj [("jobId", Cases.job)]))
      Cases.start = Ok tt w' /\
    published (eventEmitter w') = [("undefined", JObj [("jobId", Cases.job)])].
Proof.
  split; [vm_compute; reflexivity |].
  destruct (missing_type_published_as_undefined Cases.quiet [("jobId", Cases.job)]
              Cases.start eq_refl)
    as (w' & Hm & Hp & _).
  exists w'. split; [exact Hm | exact Hp].
Defined.

Lemma malformed_dropped_witness :
  sockets (browser Cases.connected) !! 0 =
    Some {| readyState := OPEN; sock_user := Cases.u1 |} /\
  exists w' w'',
    Page.step Cases.quiet (Page.SockMessage 0 None) Cases.connected = Some (Ok tt w') /\
    console (browser w') = [ErrParse] /\
    published (eventEmitter w') = published (eventEmitter Cases.connected) /\
    Page.step Cases.quiet (Page.SockMessage 0 (Some Cases.ping)) w' = Some (Ok tt w'').
Proof.
  split; [vm_compute; reflexivity |].
  destruct (malformed_dropped Cases.quiet 0
              {| readyState := OPEN; sock_user := Cases.u1 |} None (Some Cases.ping)
              Cases.connected eq_refl eq_refl (or_introl eq_refl))
    as (w' & w'' & Hs & Hp & _ & Hc & _ & _ & _ & Hnext).
  exists w', w''. repeat split; assumption.
Defined.

Lemma inherited_tag_dropped_witness :
  own "type" [("type", JStr "constructor")] = Some (JStr "constructor") /\
  inherited "constructor" = true /\
  events (eventEmitter Cases.start) !! "constructor" = None /\
  WebSocketManager.onmessage Cases.quiet
    (Some (JObj [("type", JStr "constructor")])) Cases.start =
    Ok tt (console_error ErrParse Cases.start) /\
  EventEmitter.on "constructor" 1 Cases.start = Throw Cases.start.
Proof.
  do 3 (split; [vm_compute; reflexivity |]).
  exact (inherited_tag_dropped Cases.quiet [("type", JStr "constructor")]
           "constructor" 1 Cases.start eq_refl eq_refl eq_refl).
Defined.

Lemma connect_once_witness :
  isConnecting (wsManager Cases.connecting) = true /\
  WebSocketManager.connect Cases.peer true Cases.connecting = Cases.connecting /\
  length (sockets (browser (WebSocketManager.connect Cases.peer true
                              (WebSocketManager.connect Cases.u1 true Cases.start)))) <= 1.
Proof.
  split; [vm_compute; reflexivity |].
  destruct (connect_once Cases.peer Cases.peer true true Cases.connecting)
    as (Hguard & _ & _).
  split; [exact (Hguard (or_introl eq_refl)) |].
  destruct (connect_once Cases.u1 Cases.peer true true Cases.start) as (_ & _ & Hlen).
  exact Hlen.
Defined.

Lemma error_then_close_counts_once_witness :
  sockets (browser Cases.connecting) !! 0 =
    Some {| readyState := CONNECTING; sock_user := Cases.u1 |} /\
  exists w1 w2,
    Page.step Cases.quiet (Page.SockError 0) Cases.connecting = Some (Ok tt w1) /\
    Page.step Cases.quiet (Page.SockClose 0) w1 = Some (Ok tt w2) /\
    reconnectAttempts (wsManager w2) = 1%Z /\
    timers (browser w2) = [{| delay := 1000; timer_user := Cases.u1 |}].
Proof.
  split; [vm_compute; reflexivity |].
  destruct (error_then_close_counts_once Cases.quiet 0
              {| readyState := CONNECTING; sock_user := Cases.u1 |} Cases.connecting
              eq_refl ltac:(discriminate) eq_refl)
    as (w1 & w2 & He & _ & _ & _ & _ & Hc & Hn & Ht & _).
  exists w1, w2. repeat split; assumption.
Defined.

Lemma open_resets_counter_witness :
  reconnectAttempts (wsManager (Cases.after Cases.retrying)) = 1%Z /\
  Page.step Cases.quiet (Page.SockOpen 1) (Cases.after Cases.retrying) =
    Some (Ok tt (Cases.after Cases.reopened)) /\
  reconnectAttempts (wsManager (Cases.after Cases.reopened)) = 0%Z.
Proof.
  assert (Hstep : Page.step Cases.quiet (Page.SockOpen 1) (Cases.after Cases.retrying) =
                  Some (Ok tt (Cases.after Cases.reopened))) by (vm_compute; reflexivity).
  split; [vm_compute; reflexivity |]. split; [exact Hstep |].
  exact (proj1 (open_resets_counter Cases.quiet 1 _ _ Hstep)).
Defined.

Lemma reachable_well_formed_witness :
  Page.run Cases.quiet Cases.failing (Page.init tt) =
    Some (Cases.after Cases.failing) /\
  NoDup (addr <$> subscriptions (wsManager (Cases.after Cases.failing))) /\
  (0 <= reconnectAttempts (wsManager (Cases.after Cases.failing)) <= 5)%Z.
Proof.
  assert (Hrun : Page.run Cases.quiet Cases.failing (Page.init tt) =
                 Some (Cases.after Cases.failing)) by (vm_compute; reflexivity).
  split; [exact Hrun |].
  exact (reachable_well_formed Cases.quiet tt _ _ Hrun).
Defined.

Lemma queue_empty_while_connected_witness :
  Page.run Cases.quiet Cases.reopened (Page.init tt) =
    Some (Cases.after Cases.reopened) /\
  messageQueue (wsManager (Cases.after Cases.retrying)) = [Cases.ping] /\
  WebSocketManager.open_socket (Cases.after Cases.reopened) = Some 1 /\
  messageQueue (wsManager (Cases.after Cases.reopened)) = [].
Proof.
  assert (Hrun : Page.run Cases.quiet Cases.reopened (Page.init tt) =
                 Some (Cases.after Cases.reopened)) by (vm_compute; reflexivity).
  split; [exact Hrun |]. split; [vm_compute; reflexivity |]. split; [vm_compute; reflexivity |].
  assert (Hopen : WebSocketManager.open_socket (Cases.after Cases.reopened) = Some 1)
    by (vm_compute; reflexivity).
  exact (queue_empty_while_connected Cases.quiet tt _ 1 _ Hrun Hopen).
Defined.

Lemma stale_open_hangs_witness :
  sockets (browser Cases.stale) !! 1 =
    Some {| readyState := CONNECTING; sock_user := Cases.u1 |} /\
  ws (wsManager Cases.stale) = None /\
  truthy Cases.u1 = true /\
  Page.step Cases.quiet (Page.SockOpen 1) Cases.stale = Some Loops.
Proof.
  do 3 (split; [vm_compute; reflexivity |]).
  exact (stale_open_hangs Cases.quiet 1
           {| readyState := CONNECTING; sock_user := Cases.u1 |} Cases.stale
           eq_refl eq_refl ltac:(discriminate) eq_refl (or_introl eq_refl)).
Defined.

Lemma passive_steps_keep_traffic_witness :
  forallb Frames.passive Cases.failing = true /\
  Page.run Cases.quiet Cases.failing Cases.waiting =
    Some (default Cases.waiting (Page.run Cases.quiet Cases.failing Cases.waiting)) /\
  messageQueue
    (wsManager (default Cases.waiting (Page.run Cases.quiet Cases.failing Cases.waiting))) =
    [Cases.ping; obj_val Cases.sub] /\
  subscriptions
    (wsManager (default Cases.waiting (Page.run Cases.quiet Cases.failing Cases.waiting))) =
    [Cases.sub].
Proof.
  assert (Hrun : Page.run Cases.quiet Cases.failing Cases.waiting =
                 Some (default Cases.waiting
                         (Page.run Cases.quiet Cases.failing Cases.waiting)))
    by (vm_compute; reflexivity).
  split; [vm_compute; reflexivity |]. split; [exact Hrun |].
  assert (Hpassive : forallb Frames.passive Cases.failing = true)
    by (vm_compute; reflexivity).
  destruct (passive_steps_keep_traffic Cases.quiet Cases.failing Cases.waiting _
              Hpassive Hrun)
    as (Hq & Hs & _).
  split; [rewrite Hq; vm_compute; reflexivity | rewrite Hs; vm_compute; reflexivity].
Defined.

Lemma subscribe_unsubscribe_round_trip_witness :
  set_has Cases.sub (subscriptions (wsManager Cases.connected)) = false /\
  subscriptions
    (wsManager
       (WebSocketManager.unsubscribe Cases.sub
          (WebSocketManager.subscribe Cases.sub Cases.connected))) = [] /\
  wire
    (browser
       (WebSocketManager.unsubscribe Cases.sub
          (WebSocketManager.subscribe Cases.sub Cases.connected))) =
    wire (browser Cases.connected) ++
      [(0, obj_val Cases.sub); (0, Props.unsubscribe_message Cases.sub)].
Proof.
  split; [vm_compute; reflexivity |].
  destruct (subscribe_unsubscribe_round_trip Cases.sub Cases.connected eq_refl)
    as (Hs & Hsent).
  split; [exact Hs | exact (proj1 Hsent)].
Defined.

Lemma unsubscribe_absent_still_sends_witness :
  set_has Cases.sub (subscriptions (wsManager Cases.start)) = false /\
  subscriptions (wsManager (WebSocketManager.unsubscribe Cases.sub Cases.start)) = [] /\
  messageQueue (wsManager (WebSocketManager.unsubscribe Cases.sub Cases.start)) =
    [Props.unsubscribe_message Cases.sub].
Proof.
  split; [vm_compute; reflexivity |].
  destruct (unsubscribe_absent_still_sends Cases.sub Cases.start eq_refl) as (Hs & Hq).
  split; [exact Hs | exact Hq].
Defined.

Lemma on_handle_round_trip_witness :
  EventEmitter.on "escrow_released" 5 Cases.listening =
    Ok ("escrow_released", 5)
       (default Cases.listening
          (match EventEmitter.on "escrow_released" 5 Cases.listening with
           | Ok _ w => Some w
           | _ => None
           end)) /\
  (5 ∉ Props.registered "escrow_released" Cases.listening) /\
  exists w2,
    EventEmitter.call_handle ("escrow_released", 5)
      (default Cases.listening
         (match EventEmitter.on "escrow_released" 5 Cases.listening with
          | Ok _ w => Some w
          | _ => None
          end)) = Ok tt w2 /\
    Props.registered "escrow_released" w2 = [3].
Proof.
  assert (Hon : EventEmitter.on "escrow_released" 5 Cases.listening =
                Ok ("escrow_released", 5)
                   (default Cases.listening
                      (match EventEmitter.on "escrow_released" 5 Cases.listening with
                       | Ok _ w => Some w
                       | _ => None
                       end))) by (vm_compute; reflexivity).
  assert (Hnot : 5 ∉ Props.registered "escrow_released" Cases.listening).
  { apply not_elem_of_cons. split; [discriminate | apply not_elem_of_nil]. }
  split; [exact Hon |]. split; [exact Hnot |].
  destruct (on_handle_round_trip "escrow_released" 5 _ Cases.listening _ Hon Hnot)
    as (w2 & Hcall & Hreg & _).
  exists w2. split; [exact Hcall |]. rewrite Hreg. reflexivity.
Defined.

Lemma payment_teardown_releases_all_witness :
  exists t w1 w2,
    UseRealTimeUpdates.subscribeToPaymentUpdates Cases.u1 3 Cases.listening = Ok t w1 /\
    Props.registered "escrow_released" w1 = [3; 3] /\
    UseRealTimeUpdates.call_teardown t w1 = Ok tt w2 /\
    (3 ∉ Props.registered "escrow_released" w2) /\
    (3 ∉ Props.registered "payment_update" w2).
Proof.
  destruct (payment_teardown_releases_all Cases.u1 3 Cases.listening)
    as (t & w1 & w2 & Hsub & _ & Hreg & Hcall & _ & Hgone & _).
  exists t, w1, w2. split; [exact Hsub |].
  split.
  { rewrite Hreg; [vm_compute; reflexivity |]. unfold Frames.payment_events.
    apply list_elem_of_further, list_elem_of_here. }
  split; [exact Hcall |]. split; apply Hgone; unfold Frames.payment_events.
  - apply list_elem_of_further, list_elem_of_here.
  - apply list_elem_of_here.
Defined.

Lemma sendMessage_reports_witness :
  exists w1,
    UseRealTimeUpdates.sendMessage (UseRealTimeUpdates.SendResolved true Cases.ping)
      Cases.start = Ok true w1 /\
    messageQueue (wsManager w1) =
      [JObj [("type", JStr "new_message"); ("message", Cases.ping)]].
Proof.
  destruct (sendMessage_reports (UseRealTimeUpdates.SendResolved true Cases.ping)
              Cases.start)
    as (b & w1 & Hs & Hb & _ & Hsent & _).
  assert (Htrue : b = true) by (apply Hb; eauto).
  subst b. exists w1. split; [exact Hs |].
  exact (proj1 (Hsent Cases.ping eq_refl)).
Defined.

Lemma connect_effect_cleanup_witness :
  truthy Cases.u1 = true /\
  exists hs w1 w2,
    Effects.connect_effect Cases.u1 true 1 2 Cases.start = Ok hs w1 /\
    ws (wsManager w1) = Some 0 /\
    Effects.connect_cleanup hs w1 = Ok tt w2 /\
    ws (wsManager w2) = Some 0 /\
    sockets (browser w2) = [{| readyState := CONNECTING; sock_user := Cases.u1 |}] /\
    (1 ∉ Props.registered "websocket_connected" w2).
Proof.
  split; [vm_compute; reflexivity |].
  destruct (connect_effect_cleanup Cases.u1 true 1 2 Cases.start) as (_ & Heff).
  destruct (Heff eq_refl)
    as (hs & w1 & w2 & He & Hm1 & Hb1 & _ & _ & Hc & Hm2 & Hb2 & Hgone & _).
  exists hs, w1, w2. split; [exact He |].
  split; [rewrite Hm1; reflexivity |]. split; [exact Hc |].
  split; [rewrite Hm2, Hm1; reflexivity |].
  split; [rewrite Hb2, Hb1; reflexivity | exact Hgone].
Defined.

Lemma avatar_fallback_edges_witness :
  Frames.only_spaces "  " = true /\
  UserProfile.avatar_fallback "  " = "" /\
  exists rest, UserProfile.avatar_fallback "Ada Lovelace" = String "A" rest.
Proof.
  destruct (avatar_fallback_edges " " " ") as (_ & Hblank & _).
  destruct (avatar_fallback_edges "A" "da Lovelace") as (_ & _ & Hfirst).
  split; [vm_compute; reflexivity |]. split; [exact (Hblank eq_refl) | exact (Hfirst eq_refl)].
Defined.

(** The initials of a name with a doubled space, and the stars of a rating
    of three. *)
Example initials_and_stars :
  UserProfile.initials "John  Ronald Tolkien" = "JRT" /\
  UserProfile.renderStars 3 = [true; true; true; false; false].
Proof. split; reflexivity. Qed.
